(* ===== verification/_CoqProject ===== *)
-Q . S2P
Prelude.v
Schema.v
Declarative.v
Catalog.v
Storage.v
Fixture.v
Strptime.v
BulkImport.v
Lookups.v
Queries.v
Legacy.v
Views.v
Procedure.v
Trigger.v
Driver.v
Scenarios.v
