(* ===== verification/Prelude.v ===== *)
(** * mygym: a verification development of the gym database scripts

    The repository (Simone2605/mygym) is a handful of Python scripts around
    one SQLite file.  Its parts, leaf first:

    - the schema ([src/create_db.py]): twelve SQLAlchemy declarative classes,
      one per table, with primary keys, foreign keys, UNIQUE and CHECK
      constraints;
    - the trigger [tr_update_leaving] ([src/create_trigger.py]): after an
      UPDATE of [persons.leavedate] it clips the [enddate] of that person's
      registrations;
    - the lookups and the seven queries ([src/scripts/python/create_functions.py],
      with an older copy in [src/create_functions.py]): existence checks,
      name lookups, and the seven business questions, each raising
      [ValueError] for an unknown id;
    - the procedure [add_registration]
      ([src/scripts/python/create_procedures.py]): five guards, then an
      INSERT into [registrations];
    - the five views ([src/scripts/python/create_views.py]) and the CSV
      bulk import ([src/tests/add_testdata.py]);
    - the set-up scripts' DDL: [create_db.py] ends with
      [Base.metadata.create_all(engine)], [create_trigger.py] and
      [create_views.py] execute CREATE TRIGGER and DROP/CREATE VIEW,
      [add_testdata.py] starts with [drop_all] and [create_all], and the
      query scripts reflect their tables;
    - the driver scripts: the module body of [src/create_functions.py] and
      [src/tests/test_functions.py] call each query in a loop over fixed
      ids and print the answers, [src/tests/test_procedures.py] calls
      [add_registration] for five members in turn.

    The components interact only through the database: the procedure calls
    the query functions, which read the tables; the procedure writes one
    row; the trigger is fired by the storage engine on an UPDATE; the
    driver scripts call the queries and the procedure, catching the
    [ValueError]s they raise.

    ** Files of the development (in dependency order)
    - [Prelude] (this file): the Python exception type and the [result]
      monad with its notation (scope [py_scope]), [catch_value_error] for
      [try ... except ValueError], [unpack] and [subscript] for the
      [TypeError]s of a [None] row, dates and times with their orders,
      Python's [str] of an int, the hint database [gym], the tactics
      [join_simpl] and [compute_decide], and the list lemmas shared by all
      components.
    - [Schema]: one Module per table (module [Person] models class [Person]
      of create_db.py, ...), each with a Record [t] of its columns; the
      database state [db] as a Record of tables (lists of rows in rowid
      order); the storage-enforced constraints [constraints_ok] (primary
      keys, UNIQUE, CHECK) and the referential integrity [fk_ok] that
      SQLite does not enforce (the scripts never issue
      [PRAGMA foreign_keys=ON]); [wf] is their conjunction and is
      decidable.  The typeclass [Keyed] is the interface "a table row has
      an integer primary key" that [check_exists] is generic over; the
      Sections [FkFacts] and [PkFacts] derive the facts the clients use
      from [fk_ok] and [constraints_ok].
    - [Declarative]: the class statements of create_db.py as SQLAlchemy's
      declarative scan reads them ([__tablename__], the value of
      [__table_args__], the relationships), the scan itself
      ([declare_all]) and the mapper configuration ([configure_mappers]).
    - [Catalog]: the schema catalog of each database file (tables and
      views in one namespace, triggers with their table; stdpp [gmap]s),
      SQLite's DDL statements with their checks and messages, each
      committed on its own ([exec_all]), SQLAlchemy's [create_all],
      [drop_all] and table reflection, and the DDL of the set-up scripts
      on the file each engine URL names; the invariant [catalog_ok]
      (every trigger is attached to a table) is kept by every statement.
    - [Storage]: the storage engine's INSERT into [registrations] (rowid
      allocation as [max + 1], UNIQUE/CHECK enforcement raising
      [IntegrityError]).
    - [Fixture]: a small concrete database shaped like the CSV test data;
      every witness evaluates the model on it.
    - [Strptime]: CPython's [datetime.strptime] for ['%Y-%m-%d'] and
      ['%H:%M:%S'] (a library the import calls, modelled from
      [_strptime]): the directive regexes as ordered alternations matched
      with backtracking, the "unconverted data" check and the calendar
      checks, with its round-trip and validity lemmas.
    - [BulkImport]: [tests/add_testdata.py]: the row builders of the twelve
      CSV files, the parse of all files before the one commit, rowids
      [1..n], and SQLite's CHECK and UNIQUE checks on each INSERT.
    - [Lookups]: [check_exists] and its four instances, [get_person_name],
      [get_class_and_weekday], written as the joins of the source, with
      the lemmas that a join on primary keys has at most one row.
    - [Queries]: the seven query functions, each as a function of the
      database returning a [result] (the Python value or the exception).
    - [Legacy]: Module [Legacy], the two functions of the older
      [src/create_functions.py] whose code differs from the newer script.
    - [Views]: the five views of [scripts/python/create_views.py]: joins,
      LEFT JOIN with NULL-extended rows, GROUP BY with COUNT, and ORDER BY
      as a sort by the key (Section [OrderBy]).
    - [Procedure]: [add_registration], its abstract specification
      [add_registration_spec] (an inductive relation, one rule per branch)
      and the refinement theorem.
    - [Trigger]: the UPDATE of [persons.leavedate] with the CHECK of
      [persons] and the trigger body run for the updated row; the CHECK of
      [registrations] enforced on the trigger's writes, which aborts the
      whole statement.
    - [Driver]: the print loops of the three driver scripts in a monad
      [io] of the printed lines and the outcome (scope [io_scope]); each
      loop is written once (Section [Loops]) with the words in which the
      scripts' sentences differ as parameters, and Modules
      [LegacyScript], [TestFunctions] and [TestProcedures] hold each
      script's constants and its sequence of loops; [register_all] threads
      the database through the calls of [add_registration].
    - [Scenarios]: the UPDATE followed by a call of the procedure.

    ** What the theorems show (by group, with their claim ids)
    - Procedure (C1, C3-C5, C7, C8, C10): on [wf] databases and for a
      member id other than 0 the function is total and refines the
      one-rule-per-branch relation (C1); [wf] and the capacity
      invariant (no class holds more registrations than its
      [maxparticipants]) are preserved (C3, C4); a second call for a
      registered pair answers "already registered" (C5); the terminated
      and full-class scenarios return their messages and leave the
      database unchanged (C7, C8); a member row with id 0 makes
      [get_person_name] raise [UnboundLocalError], which escapes (C10).
    - Queries (C11, C13-C16, C24): [count_free_spots_by_class] is
      [max (cap - n) 0] and agrees with [get_registrations_by_class] under
      [fk_ok]; the boolean queries are characterised by the rows they look
      for; [get_classes_by_trainer] returns exactly the trainer's classes
      on the weekday, and an empty list, not an error, when there are
      none (C24).
    - Catalog (C2, C25, C27): create_trigger.py fails when run a second
      time (C2); create_views.py succeeds, keeps tables and triggers and
      can be re-run with the same result (C25); the schema reset of
      add_testdata.py recreates the tables and drops every trigger on
      them, the cascade's included (C27).
    - Driver (C6, C9, C12, C39): on a well-formed database the three
      scripts run to their end, every exception in a loop being a printed
      [ValueError] (C6); the membership loop prints one line per id, the
      not-found message or the member's status (C9); the registration
      loop adds at most one row per member and never takes the class
      beyond its capacity (C12); every member of its list who may
      register is registered when it ends, unless the class is full
      (C39).
    - Trigger (C17-C21): on a [wf] database the UPDATE is committed (and
      keeps [wf]) exactly when the new leave date passes the persons CHECK
      and every registration the trigger clips started before it (C17);
      after it every registration of the person's member row ends no
      later than the new leave date; other rows are unchanged and in
      order; a registration starting on or after the new date makes the
      whole UPDATE fail.
    - Declarative (C22, C23): create_db.py as written cannot create its
      tables: [__table_args__ = (X)] is not a tuple, and, with that fixed,
      the relationship to ['Registrations'] does not resolve.
    - Year count (C26): [count_registrations_by_year] is right for
      four-digit years and always 0 below 1000 ([strftime('%Y')] pads).
    - Legacy (C28, C29): [is_trainer_instructor] answers whether the
      class's offering is led by the trainer; the older
      [is_member_registered] agrees with the newer one on every database.
    - Views (C30-C34): on a [wf] database [vw_classes] has exactly one row
      per class, the trainer, type, weekday and room reached from it, in
      weekday-id then time order (C30); [vw_registrations] has one row per
      weekday-time-type slot with registrations, counting those of every
      class of the slot (C31); trainers attending their own classes appear
      in [vw_trainersasparticipants] (C32); the LEFT JOINs of
      [vw_employeesasinstructors] are inner joins in effect (C33);
      [vw_yogaparticipants] has one row per open or already ended Yoga
      registration, in weekday, time, start-date order (C34).  These
      proofs go through the chains of rows behind a join: distinct under
      the primary keys, one per row of the driving table under the
      foreign keys ([select_order_by_chains]).
    - Scenario (C40): after a member's leave date is set in the past, the
      procedure refuses the member and writes nothing.
    - Import (C35-C38): an optional date written as ISO text or [NULL]
      reads back (C35); the CSV files of a database the import can produce
      ([export_csv], [importable]) are imported back to that database
      (C36); the committed database has referential integrity exactly when
      the foreign-key columns of the files hold row numbers of the
      referenced files, which SQLite does not check (C37); two empty
      emails make the import fail (C38).

    ** Modelling choices
    - Ids are [Z] (Python int); counts are [Z] obtained from list lengths.
    - Dates and times are records of three [Z] compared lexicographically,
      which is Python's [date]/[time] order and SQLite's text order on
      ISO-8601 strings of the same shape.  The clock ([datetime.now()]) is
      a parameter [now] of the operations that read it; the procedure
      stores its date part.
    - A query that SQLite may answer in any order is modelled as the nested
      loop over the FROM clause in the order written; the theorems about
      such results are stated up to membership or count, except where the
      source reads [fetchone()], whose row is unique under the schema's
      keys.
    - The WHERE clause of the trigger follows SQL's three-valued logic: a
      comparison with NULL is not true.
    - ORDER BY is stdpp's [merge_sort] by the key; SQLite promises only
      some order consistent with the key, so the view theorems state the
      rows up to the order of rows with equal keys, and the order itself
      as an explicit relation on the ORDER BY columns.
    - A script's run is a pair of the lines printed and the outcome: an
      exception that escapes ends the run and keeps what was printed.
      [test_procedures.py] reads the clock once per call; the model gives
      all calls of one run the same [now] (a run takes well under a day).
      The procedure's [crfunc] is taken to be
      [scripts/python/create_functions.py] (see the findings on its
      import).
    - [create_all] and [drop_all] visit the tables in declaration order
      (reversed for [drop_all]); SQLAlchemy sorts them by foreign key
      first, but the catalog theorems are stated name by name and do not
      depend on the order.
    - No fuel is needed: every operation is a finite scan of finite
      tables or a string of bounded length, written by structural
      recursion or as list combinators.  The round trip of [strptime] is
      proved by evaluation over the finite ranges (years 1..9999, months,
      days, the 86400 times of a day) and by a structural lemma for the
      four year digits.

    ** Not modelled
    - [src/add_data.py]: it builds an engine and a session, both lazy, and
      executes nothing; no other script imports it.  Whether the
      directory of ['data/mygym.db'] exists (SQLite cannot create it) is
      not modelled: opening a path always succeeds.  SQLAlchemy's
      transaction handling (the INSERT is taken as committed,
      although it runs in [engine.connect()] without a commit).
    - The columns and constraints of a CREATE TABLE in the catalog (they
      are [Schema]'s business), the SELECT of a view (SQLite does not
      check it at creation), [csv.reader] and file reading; CSV text in an integer column that is
      not a decimal numeral, which SQLite would store as text ([import_all]
      answers [None], "outside the model").
    - The functions of the older [src/create_functions.py] that repeat the
      newer script word for word (comments apart) are not modelled a
      second time: the driver of the older script calls the newer
      definitions, which are the same code.
    - [strptime] for other formats, and Unicode digits in [\d].
*)

From Stdlib Require Export ZArith DecimalString DecimalZ Ascii.
From Stdlib Require Import DecimalFacts.
From stdpp Require Export base strings decidable options list.
From Stdlib Require Import Lia.

Open Scope Z_scope.

(** The development's hint database. *)
Create HintDb gym discriminated.

(** ** Python exceptions and the result monad *)

(** The exception classes the scripts raise or let escape. *)
Inductive py_exc :=
| ValueError (msg : string)
| TypeError (msg : string)
| UnboundLocalError (msg : string)
| IntegrityError (msg : string)
| ArgumentError (msg : string)
| InvalidRequestError (msg : string)
| IndexError (msg : string)
| OperationalError (msg : string)
| NoSuchTableError (msg : string).

#[export] Instance py_exc_eq_dec : EqDecision py_exc.
Proof. solve_decision. Defined.

(** A Python call either returns a value or raises. *)
Inductive result (A : Type) :=
| Ok (a : A)
| Raise (e : py_exc).
Arguments Ok {A} a.
Arguments Raise {A} e.

#[export] Instance result_eq_dec {A} `{EqDecision A} : EqDecision (result A).
Proof. solve_decision. Defined.

Definition bind {A B} (c : result A) (k : A -> result B) : result B :=
  match c with
  | Ok a => k a
  | Raise e => Raise e
  end.

Declare Scope py_scope.
Delimit Scope py_scope with py.
Notation "x <- c ;; k" := (bind c (fun x => k))
  (at level 60, c at next level, right associativity) : py_scope.
Open Scope py_scope.

(** [try: c except ValueError as e: return h(str(e))]; other exceptions
    propagate. *)
Definition catch_value_error {A} (h : string -> A) (c : result A) : result A :=
  match c with
  | Raise (ValueError msg) => Ok (h msg)
  | _ => c
  end.

(** Unpacking a row returned by [fetchone()]: [None] cannot be unpacked. *)
Definition unpack {A} (o : option A) : result A :=
  match o with
  | Some a => Ok a
  | None => Raise (TypeError "cannot unpack non-iterable NoneType object")
  end.

(** [fetchone()[0]] on a query with no row. *)
Definition subscript {A} (o : option A) : result A :=
  match o with
  | Some a => Ok a
  | None => Raise (TypeError "'NoneType' object is not subscriptable")
  end.

(** [l[i]] on a Python list: [IndexError] out of range. *)
Definition py_index {A} (l : list A) (i : nat) : result A :=
  match l !! i with
  | Some a => Ok a
  | None => Raise (IndexError "list index out of range")
  end.

Lemma bind_ok {A B} (c : result A) (k : A -> result B) (b : B) :
  bind c k = Ok b <-> exists a, c = Ok a /\ k a = Ok b.
Proof. destruct c; simpl; naive_solver. Qed.

Lemma unpack_ok {A} (o : option A) a : unpack o = Ok a <-> o = Some a.
Proof. destruct o; simpl; naive_solver. Qed.

Lemma subscript_ok {A} (o : option A) a : subscript o = Ok a <-> o = Some a.
Proof. destruct o; simpl; naive_solver. Qed.

(** ** Python's [str] of an int and SQLite's [%Y] *)

Definition py_str (z : Z) : string := NilZero.string_of_int (Z.to_int z).

Lemma to_int_nonnil z :
  Z.to_int z <> Decimal.Pos Decimal.Nil /\ Z.to_int z <> Decimal.Neg Decimal.Nil.
Proof.
  pose proof (DecimalZ.to_of (Z.to_int z)) as H. rewrite DecimalZ.of_to in H.
  destruct (Z.to_int z) as [u|u]; simpl in H; split; try discriminate.
  - injection H as H. intros [= ->]. apply (unorm_nonnil Decimal.Nil). exact (eq_sym H).
  - destruct (Decimal.nzhead u) eqn:E; try discriminate.
    all: injection H as ->; intros [=].
Qed.

(** [str] is injective on ints: distinct ids give distinct messages. *)
Lemma py_str_inj z1 z2 : py_str z1 = py_str z2 -> z1 = z2.
Proof.
  unfold py_str. intros H.
  apply (f_equal NilZero.int_of_string) in H.
  destruct (to_int_nonnil z1), (to_int_nonnil z2).
  rewrite !NilZero.isi in H by assumption.
  injection H as H. apply DecimalZ.to_int_inj. exact H.
Qed.

Fixpoint zeros (n : nat) : string :=
  match n with
  | O => EmptyString
  | S n' => String "0"%char (zeros n')
  end.

(** Left-padding with zeros to width [w], as printf's [%0wd] does. *)
Definition pad_zeros (w : nat) (s : string) : string :=
  zeros (w - String.length s) +:+ s.

(** [strftime('%Y', d)]: the year printed with at least four digits. *)
Definition strftime_Y (y : Z) : string := pad_zeros 4 (py_str y).

Lemma length_zeros_app n s : String.length (zeros n +:+ s) = (n + String.length s)%nat.
Proof. induction n as [|n IH]; simpl; [done|by rewrite IH]. Qed.

(** The four-digit years: [str(y)] has a first digit other than ['0'] and
    three more; checked over the whole range by evaluation. *)
Lemma py_str_4digits y :
  1000 <= y <= 9999 ->
  exists c s, py_str y = String c s /\ c <> "0"%char /\ String.length s = 3%nat.
Proof.
  intros Hy.
  assert (Hall : forallb (fun y => match py_str y with
                                   | String c s => negb (Ascii.eqb c "0") && (String.length s =? 3)%nat
                                   | EmptyString => false end) (seqZ 1000 9000) = true)
    by (vm_compute; reflexivity).
  rewrite forallb_forall in Hall. specialize (Hall y).
  rewrite <- list_elem_of_In, elem_of_seqZ in Hall.
  destruct (py_str y) as [|c s]; [discriminate Hall; lia|].
  apply andb_prop in Hall as [Hc Hs]; [|lia].
  exists c, s. split; [done|]. split; [|by apply Nat.eqb_eq].
  destruct (Ascii.eqb_spec c "0"); [discriminate|done].
Qed.

(** The years below 1000 print with at most three characters. *)
Lemma py_str_short y : 0 <= y < 1000 -> (String.length (py_str y) <= 3)%nat.
Proof.
  intros Hy.
  assert (Hall : forallb (fun y => String.length (py_str y) <=? 3)%nat (seqZ 0 1000) = true)
    by (vm_compute; reflexivity).
  rewrite forallb_forall in Hall. apply Nat.leb_le, Hall.
  rewrite <- list_elem_of_In, elem_of_seqZ. lia.
Qed.

(** [strftime('%Y')] equals [str(y)] for a four-digit [y] exactly on
    the year [y]. *)
Lemma strftime_Y_4digits a y : 1000 <= y <= 9999 -> strftime_Y a = py_str y <-> a = y.
Proof.
  intros Hy. destruct (py_str_4digits y Hy) as (c & s & Hs & Hc & Hlen).
  unfold strftime_Y, pad_zeros. split; [|intros ->; rewrite Hs; simpl; by rewrite Hlen].
  destruct (4 - String.length (py_str a))%nat as [|k] eqn:Hk; simpl.
  - apply py_str_inj.
  - rewrite Hs. intros [= <- _]. done.
Qed.

(** [strftime('%Y')] never equals [str(y)] for [0 <= y < 1000]: the
    former has at least four characters. *)
Lemma strftime_Y_short a y : 0 <= y < 1000 -> strftime_Y a <> py_str y.
Proof.
  intros Hy Heq. pose proof (py_str_short y Hy) as Hs.
  apply (f_equal String.length) in Heq. unfold strftime_Y, pad_zeros in Heq.
  rewrite length_zeros_app in Heq. lia.
Qed.

(** ** Dates and times *)

(** Lexicographic comparison of triples, the order of Python's [date] and
    [time] and of SQLite's ISO-8601 text. *)
Definition lex3 (a1 a2 a3 b1 b2 b3 : Z) : comparison :=
  match Z.compare a1 b1 with
  | Eq => match Z.compare a2 b2 with
          | Eq => Z.compare a3 b3
          | c => c
          end
  | c => c
  end.

Lemma lex3_eq a1 a2 a3 b1 b2 b3 :
  lex3 a1 a2 a3 b1 b2 b3 = Eq <-> a1 = b1 /\ a2 = b2 /\ a3 = b3.
Proof.
  unfold lex3.
  destruct (Z.compare_spec a1 b1), (Z.compare_spec a2 b2), (Z.compare_spec a3 b3);
    split; intros; auto; try lia; discriminate.
Qed.

Lemma lex3_antisym a1 a2 a3 b1 b2 b3 :
  lex3 b1 b2 b3 a1 a2 a3 = CompOpp (lex3 a1 a2 a3 b1 b2 b3).
Proof.
  unfold lex3. rewrite (Z.compare_antisym a1 b1), (Z.compare_antisym a2 b2), (Z.compare_antisym a3 b3).
  destruct (a1 ?= b1), (a2 ?= b2), (a3 ?= b3); reflexivity.
Qed.

Lemma lex3_lt_trans a1 a2 a3 b1 b2 b3 c1 c2 c3 :
  lex3 a1 a2 a3 b1 b2 b3 = Lt -> lex3 b1 b2 b3 c1 c2 c3 = Lt ->
  lex3 a1 a2 a3 c1 c2 c3 = Lt.
Proof.
  unfold lex3.
  destruct (Z.compare_spec a1 b1), (Z.compare_spec b1 c1); try discriminate;
    destruct (Z.compare_spec a1 c1); try lia; auto;
  destruct (Z.compare_spec a2 b2), (Z.compare_spec b2 c2); try discriminate;
    destruct (Z.compare_spec a2 c2); try lia; auto;
  destruct (Z.compare_spec a3 b3), (Z.compare_spec b3 c3); try discriminate;
    destruct (Z.compare_spec a3 c3); try lia; auto.
Qed.

(** Python's [datetime.date]. *)
Record date := mkDate { year : Z; month : Z; day : Z }.

(** Python's [datetime.time] as produced by [strptime(_, '%H:%M:%S')]. *)
Record time := mkTime { hour : Z; minute : Z; second : Z }.

#[export] Instance date_eq_dec : EqDecision date.
Proof. solve_decision. Defined.
#[export] Instance time_eq_dec : EqDecision time.
Proof. solve_decision. Defined.

Definition date_compare (a b : date) : comparison :=
  lex3 (year a) (month a) (day a) (year b) (month b) (day b).
Definition time_compare (a b : time) : comparison :=
  lex3 (hour a) (minute a) (second a) (hour b) (minute b) (second b).

(** [a < b] on dates, and its boolean form used by the code. *)
Definition date_lt (a b : date) : Prop := date_compare a b = Lt.
Definition date_le (a b : date) : Prop := date_compare a b <> Gt.
Definition date_ltb (a b : date) : bool :=
  match date_compare a b with Lt => true | _ => false end.

#[export] Instance date_lt_dec a b : Decision (date_lt a b).
Proof. unfold date_lt. apply _. Defined.
#[export] Instance date_le_dec a b : Decision (date_le a b).
Proof. unfold date_le. apply _. Defined.

Lemma date_ltb_spec a b : date_ltb a b = true <-> date_lt a b.
Proof. unfold date_ltb, date_lt. destruct (date_compare a b); naive_solver. Qed.

Lemma date_compare_eq a b : date_compare a b = Eq <-> a = b.
Proof.
  unfold date_compare. rewrite lex3_eq.
  destruct a, b; simpl; naive_solver.
Qed.

Lemma time_compare_eq a b : time_compare a b = Eq <-> a = b.
Proof.
  unfold time_compare. rewrite lex3_eq.
  destruct a, b; simpl; naive_solver.
Qed.

Lemma date_lt_irrefl a : ~ date_lt a a.
Proof.
  unfold date_lt. rewrite (proj2 (date_compare_eq a a) eq_refl). discriminate.
Qed.

Lemma date_lt_trans a b c : date_lt a b -> date_lt b c -> date_lt a c.
Proof. unfold date_lt, date_compare. apply lex3_lt_trans. Qed.

(** [not (b < a)] is [a <= b]: the order is total. *)
Lemma date_not_lt a b : ~ date_lt b a <-> date_le a b.
Proof.
  unfold date_lt, date_le, date_compare. rewrite lex3_antisym.
  destruct (lex3 _ _ _ _ _ _); simpl; naive_solver.
Qed.

Lemma date_lt_le a b : date_lt a b -> date_le a b.
Proof. unfold date_lt, date_le. congruence. Qed.

Lemma date_le_lt_trans a b c : date_le a b -> date_lt b c -> date_lt a c.
Proof.
  intros Hab Hbc. destruct (date_compare a b) eqn:E.
  - apply date_compare_eq in E. subst. exact Hbc.
  - eapply date_lt_trans; eauto.
  - contradiction.
Qed.

Lemma date_le_refl a : date_le a a.
Proof. unfold date_le. rewrite (proj2 (date_compare_eq a a) eq_refl). discriminate. Qed.

(** ** Lists: the rows of a SELECT *)

(** A WHERE clause on one candidate row of a nested loop. *)
Lemma elem_of_guard_singleton {A} (P : Prop) `{Decision P} (x y : A) :
  x ∈ (if decide P then [y] else []) <-> P /\ x = y.
Proof.
  case_decide; [rewrite list_elem_of_singleton|rewrite elem_of_nil]; naive_solver.
Qed.

Lemma nonempty_iff {A} (l : list A) : l <> [] <-> exists x, x ∈ l.
Proof.
  destruct l as [|a l]; split; intros H; try done.
  - destruct H as [x Hx]. by apply elem_of_nil in Hx.
  - exists a. apply list_elem_of_here.
Qed.

(** When every row of a nonempty result is [a], the first one is. *)
Lemma head_unique {A} (l : list A) (a : A) :
  (exists x, x ∈ l) -> (forall x, x ∈ l -> x = a) -> head l = Some a.
Proof.
  destruct l as [|b l]; intros [x Hx] Hall; [by apply elem_of_nil in Hx|].
  simpl. f_equal. apply Hall, list_elem_of_here.
Qed.

(** Rewrites the membership in a nested-loop join into its conditions. *)
Ltac join_simpl :=
  repeat (setoid_rewrite list_elem_of_bind || setoid_rewrite elem_of_guard_singleton).

#[export] Hint Resolve list_elem_of_here : gym.

(** No element has a key that does not occur. *)
Lemma length_filter_key_absent {A} (key : A -> Z) (l : list A) x :
  x ∉ map key l -> length (filter (fun a => key a = x) l) = 0%nat.
Proof.
  induction l as [|a l IH]; simpl; intros Hx; [done|].
  apply not_elem_of_cons in Hx as [Hne Hx]. rewrite filter_cons.
  rewrite decide_False by congruence. by apply IH.
Qed.

Lemma filter_none {A} (P : A -> Prop) `{forall a, Decision (P a)} (l : list A) :
  (forall a, ~ P a) -> filter P l = [].
Proof. intros HP. induction l as [|a l IH]; [done|]. rewrite filter_cons_False; auto. Qed.

(** In a list of distinct keys, exactly one element has a key that occurs. *)
Lemma length_filter_key_unique {A} (key : A -> Z) (l : list A) x :
  NoDup (map key l) -> x ∈ map key l -> length (filter (fun a => key a = x) l) = 1%nat.
Proof.
  induction l as [|a l IH]; simpl; intros Hnd Hx; [by apply elem_of_nil in Hx|].
  apply NoDup_cons in Hnd as [Hnin Hnd]. rewrite filter_cons.
  apply elem_of_cons in Hx as [->|Hx].
  - rewrite decide_True by done. simpl. f_equal. by apply length_filter_key_absent.
  - rewrite decide_False; [by apply IH|]. intros <-. contradiction.
Qed.

(** The size of a join whose inner loop keeps the rows matching a key. *)
Lemma length_bind_guard {A B} (l : list A) (P : A -> Prop) `{forall a, Decision (P a)}
    (Q : Prop) `{Decision Q} (y : B) :
  length (l ≫= fun a => if decide (P a /\ Q) then [y] else []) =
  if decide Q then length (filter P l) else 0%nat.
Proof.
  induction l as [|a l IH]; [simpl; by case_decide|].
  rewrite bind_cons, length_app, IH, filter_cons.
  repeat case_decide; simpl; naive_solver.
Qed.

Lemma catch_value_error_ok {A} (h : string -> A) (c : result A) a :
  catch_value_error h c = Ok a -> c = Ok a \/ exists msg, c = Raise (ValueError msg) /\ a = h msg.
Proof. destruct c as [|[]]; simpl; intros [= <-]; eauto. Qed.

Lemma map_map_proj {A B} (f : A -> A) (g : A -> B) (l : list A) :
  (forall x, x ∈ l -> g (f x) = g x) -> map g (map f l) = map g l.
Proof.
  induction l as [|x l IH]; simpl; intros H; [done|].
  rewrite H by apply list_elem_of_here. f_equal. apply IH. intros y Hy. apply H. by right.
Qed.

Lemma omap_map_proj {A B} (f : A -> A) (g : A -> option B) (l : list A) :
  (forall x, x ∈ l -> g (f x) = g x) -> omap g (map f l) = omap g l.
Proof.
  intros H. apply list_omap_ext. induction l as [|x l IH]; simpl; constructor.
  - apply H, list_elem_of_here.
  - apply IH. intros y Hy. apply H. by right.
Qed.

(** Closes a decidable goal on concrete data by evaluation. *)
Ltac compute_decide := apply (bool_decide_unpack _); vm_compute; exact I.
