(* ===== verification/Schema.v ===== *)
(** * Schema: the tables of [src/create_db.py]

    One Module per declarative class, holding a Record [t] with the class's
    columns in declaration order (nullable columns are [option]); the
    database [db] is the record of the twelve tables, each a list of rows in
    rowid order.  The constraints are split as SQLite splits them:
    [constraints_ok] (PRIMARY KEY, UNIQUE, CHECK: enforced on every write)
    and [fk_ok] (FOREIGN KEY: declared, but SQLite enforces them only under
    [PRAGMA foreign_keys=ON], which the scripts never issue). *)

From S2P Require Import Prelude.

(** ** Rows *)

(** The interface the generic [check_exists] relies on: every table has an
    integer primary key column [id]. *)
Class Keyed (R : Type) := row_id : R -> Z.

Module Country.
Record t := mk { id : Z; name : string; abbreviation : option string;
                   code : option string }.
End Country.

Module City.
Record t := mk { id : Z; postcode : string; name : string; country_id : Z }.
End City.

Module Person.
Record t := mk { id : Z; surname : string; forename : string;
                   birthdate : date; street : string; housenumber : string;
                   city_id : Z; landline : option string;
                   mobile : option string; email : option string;
                   enterdate : date; leavedate : option date }.
End Person.

Module Member.
Record t := mk { id : Z; person_id : Z }.
End Member.

Module Employee.
Record t := mk { id : Z; person_id : Z }.
End Employee.

Module Trainer.
Record t := mk { id : Z; employee_id : Z }.
End Trainer.

Module ClassType.
Record t := mk { id : Z; name : string; room_id : Z; maxparticipants : Z }.
End ClassType.

Module Room.
Record t := mk { id : Z; name : string }.
End Room.

Module ClassOffering.
Record t := mk { id : Z; classtype_id : Z; trainer_id : Z }.
End ClassOffering.

Module Class.
Record t := mk { id : Z; classoffering_id : Z; weekday_id : Z; time : Prelude.time }.
End Class.

Module Weekday.
Record t := mk { id : Z; name : string; abbreviation : string }.
End Weekday.

Module Registration.
Record t := mk { id : Z; class_id : Z; member_id : Z; startdate : date;
                   enddate : option date }.
End Registration.

#[export] Instance country_eq_dec : EqDecision Country.t.
Proof. solve_decision. Defined.
#[export] Instance city_eq_dec : EqDecision City.t.
Proof. solve_decision. Defined.
#[export] Instance person_eq_dec : EqDecision Person.t.
Proof. solve_decision. Defined.
#[export] Instance member_eq_dec : EqDecision Member.t.
Proof. solve_decision. Defined.
#[export] Instance employee_eq_dec : EqDecision Employee.t.
Proof. solve_decision. Defined.
#[export] Instance trainer_eq_dec : EqDecision Trainer.t.
Proof. solve_decision. Defined.
#[export] Instance classtype_eq_dec : EqDecision ClassType.t.
Proof. solve_decision. Defined.
#[export] Instance room_eq_dec : EqDecision Room.t.
Proof. solve_decision. Defined.
#[export] Instance classoffering_eq_dec : EqDecision ClassOffering.t.
Proof. solve_decision. Defined.
#[export] Instance class_eq_dec : EqDecision Class.t.
Proof. solve_decision. Defined.
#[export] Instance weekday_eq_dec : EqDecision Weekday.t.
Proof. solve_decision. Defined.
#[export] Instance registration_eq_dec : EqDecision Registration.t.
Proof. solve_decision. Defined.

#[export] Instance country_keyed : Keyed Country.t := Country.id.
#[export] Instance city_keyed : Keyed City.t := City.id.
#[export] Instance person_keyed : Keyed Person.t := Person.id.
#[export] Instance member_keyed : Keyed Member.t := Member.id.
#[export] Instance employee_keyed : Keyed Employee.t := Employee.id.
#[export] Instance trainer_keyed : Keyed Trainer.t := Trainer.id.
#[export] Instance classtype_keyed : Keyed ClassType.t := ClassType.id.
#[export] Instance room_keyed : Keyed Room.t := Room.id.
#[export] Instance classoffering_keyed : Keyed ClassOffering.t := ClassOffering.id.
#[export] Instance class_keyed : Keyed Class.t := Class.id.
#[export] Instance weekday_keyed : Keyed Weekday.t := Weekday.id.
#[export] Instance registration_keyed : Keyed Registration.t := Registration.id.

(** ** The database file [mygym.db] *)

Record db := mkDb {
  countries : list Country.t;
  cities : list City.t;
  persons : list Person.t;
  members : list Member.t;
  employees : list Employee.t;
  trainers : list Trainer.t;
  classtypes : list ClassType.t;
  rooms : list Room.t;
  classofferings : list ClassOffering.t;
  classes : list Class.t;
  weekdays : list Weekday.t;
  registrations : list Registration.t }.

(** Replacing one table, as a write to it does. *)
Definition set_registrations (d : db) (rs : list Registration.t) : db :=
  {| countries := countries d; cities := cities d; persons := persons d;
     members := members d; employees := employees d; trainers := trainers d;
     classtypes := classtypes d; rooms := rooms d;
     classofferings := classofferings d; classes := classes d;
     weekdays := weekdays d; registrations := rs |}.

Definition set_persons (d : db) (ps : list Person.t) : db :=
  {| countries := countries d; cities := cities d; persons := ps;
     members := members d; employees := employees d; trainers := trainers d;
     classtypes := classtypes d; rooms := rooms d;
     classofferings := classofferings d; classes := classes d;
     weekdays := weekdays d; registrations := registrations d |}.

(** ** Constraints enforced by the storage engine *)

(** [primary_key=True]: ids are pairwise distinct. *)
Definition pk {R} `{Keyed R} (t : list R) : Prop := NoDup (map row_id t).

(** [unique=True] on a NOT NULL column, or a [UniqueConstraint]. *)
Definition unique {R A} (f : R -> A) (t : list R) : Prop := NoDup (map f t).

(** [unique=True] on a nullable column: NULLs never collide in SQL. *)
Definition unique_nullable {R A} (f : R -> option A) (t : list R) : Prop :=
  NoDup (omap f t).

(** [CheckConstraint('leavedate IS NULL OR leavedate > enterdate')]. *)
Definition check_leavedate (p : Person.t) : Prop :=
  match Person.leavedate p with
  | None => True
  | Some l => date_lt (Person.enterdate p) l
  end.

(** [CheckConstraint('enddate IS NULL OR enddate > startdate')]. *)
Definition check_enddate (r : Registration.t) : Prop :=
  match Registration.enddate r with
  | None => True
  | Some e => date_lt (Registration.startdate r) e
  end.

#[export] Instance check_leavedate_dec p : Decision (check_leavedate p).
Proof. unfold check_leavedate. destruct (Person.leavedate p); apply _. Defined.
#[export] Instance check_enddate_dec r : Decision (check_enddate r).
Proof. unfold check_enddate. destruct (Registration.enddate r); apply _. Defined.

Definition persons_ok (ps : list Person.t) : Prop :=
  pk ps /\ unique_nullable Person.mobile ps /\ unique_nullable Person.email ps /\
  Forall check_leavedate ps.

(** The pair [(class_id, member_id)] of a registration, the key of
    [UniqueConstraint('class_id', 'member_id', name='uix_class_member')]. *)
Definition class_member (r : Registration.t) : Z * Z :=
  (Registration.class_id r, Registration.member_id r).

Definition registrations_ok (rs : list Registration.t) : Prop :=
  pk rs /\ unique class_member rs /\
  Forall check_enddate rs.

(** The tables no operation of the scripts writes after the import. *)
Definition static_ok (d : db) : Prop :=
  pk (countries d) /\ unique Country.name (countries d) /\
  unique_nullable Country.abbreviation (countries d) /\
  unique_nullable Country.code (countries d) /\
  pk (cities d) /\ unique City.postcode (cities d) /\
  pk (members d) /\ unique Member.person_id (members d) /\
  pk (employees d) /\ unique Employee.person_id (employees d) /\
  pk (trainers d) /\ unique Trainer.employee_id (trainers d) /\
  pk (classtypes d) /\ unique ClassType.name (classtypes d) /\
  pk (rooms d) /\ unique Room.name (rooms d) /\
  pk (classofferings d) /\
  unique (fun o => (ClassOffering.classtype_id o, ClassOffering.trainer_id o))
    (classofferings d) /\
  pk (classes d) /\
  unique (fun c => (Class.classoffering_id c, Class.weekday_id c, Class.time c))
    (classes d) /\
  pk (weekdays d) /\ unique Weekday.name (weekdays d) /\
  unique Weekday.abbreviation (weekdays d).

Definition constraints_ok (d : db) : Prop :=
  static_ok d /\ persons_ok (persons d) /\ registrations_ok (registrations d).

(** ** Referential integrity (declared, not enforced by SQLite) *)

(** A value of a foreign-key column names a row of the target table. *)
Definition refers {R} `{Keyed R} (t : list R) (x : Z) : Prop := x ∈ map row_id t.

#[export] Instance refers_dec {R} `{Keyed R} (t : list R) x : Decision (refers t x).
Proof. unfold refers. apply _. Defined.

Definition fk_static (d : db) : Prop :=
  Forall (fun c => refers (countries d) (City.country_id c)) (cities d) /\
  Forall (fun p => refers (cities d) (Person.city_id p)) (persons d) /\
  Forall (fun m => refers (persons d) (Member.person_id m)) (members d) /\
  Forall (fun e => refers (persons d) (Employee.person_id e)) (employees d) /\
  Forall (fun t => refers (employees d) (Trainer.employee_id t)) (trainers d) /\
  Forall (fun c => refers (rooms d) (ClassType.room_id c)) (classtypes d) /\
  Forall (fun o => refers (classtypes d) (ClassOffering.classtype_id o) /\
                   refers (trainers d) (ClassOffering.trainer_id o)) (classofferings d) /\
  Forall (fun c => refers (classofferings d) (Class.classoffering_id c) /\
                   refers (weekdays d) (Class.weekday_id c)) (classes d).

Definition fk_registrations (d : db) : Prop :=
  Forall (fun r => refers (classes d) (Registration.class_id r) /\
                   refers (members d) (Registration.member_id r)) (registrations d).

Definition fk_ok (d : db) : Prop := fk_static d /\ fk_registrations d.

(** The well-formed databases: what the schema declares. *)
Definition wf (d : db) : Prop := constraints_ok d /\ fk_ok d.

#[export] Instance constraints_ok_dec d : Decision (constraints_ok d).
Proof.
  unfold constraints_ok, static_ok, persons_ok, registrations_ok, pk, unique,
    unique_nullable. apply _.
Defined.

#[export] Instance fk_ok_dec d : Decision (fk_ok d).
Proof. unfold fk_ok, fk_static, fk_registrations, refers. apply _. Defined.

#[export] Instance wf_dec d : Decision (wf d).
Proof. unfold wf. apply _. Defined.

(** ** Projections of the invariants *)

Section FkFacts.
Context (d : db) (Hfk : fk_ok d).

Lemma fk_trainer_employee t :
  t ∈ trainers d -> refers (employees d) (Trainer.employee_id t).
Proof using Hfk. destruct Hfk as [(_&_&_&_&H&_) _]. rewrite Forall_forall in H. auto. Qed.

Lemma fk_employee_person e :
  e ∈ employees d -> refers (persons d) (Employee.person_id e).
Proof using Hfk. destruct Hfk as [(_&_&_&H&_) _]. rewrite Forall_forall in H. auto. Qed.

Lemma fk_member_person m :
  m ∈ members d -> refers (persons d) (Member.person_id m).
Proof using Hfk. destruct Hfk as [(_&_&H&_) _]. rewrite Forall_forall in H. auto. Qed.

Lemma fk_room ct :
  ct ∈ classtypes d -> refers (rooms d) (ClassType.room_id ct).
Proof using Hfk. destruct Hfk as [(_&_&_&_&_&H&_) _]. rewrite Forall_forall in H. auto. Qed.

Lemma fk_offering c :
  c ∈ classes d -> refers (classofferings d) (Class.classoffering_id c) /\
                   refers (weekdays d) (Class.weekday_id c).
Proof using Hfk. destruct Hfk as [(_&_&_&_&_&_&_&H) _]. rewrite Forall_forall in H. auto. Qed.

Lemma fk_classtype o :
  o ∈ classofferings d -> refers (classtypes d) (ClassOffering.classtype_id o) /\
                          refers (trainers d) (ClassOffering.trainer_id o).
Proof using Hfk. destruct Hfk as [(_&_&_&_&_&_&H&_) _]. rewrite Forall_forall in H. auto. Qed.

Lemma fk_registration r :
    r ∈ registrations d -> refers (classes d) (Registration.class_id r) /\
                           refers (members d) (Registration.member_id r).
  Proof using Hfk. destruct Hfk as [_ H]. unfold fk_registrations in H. rewrite Forall_forall in H. auto. Qed.
End FkFacts.

Lemma refers_row {R} `{Keyed R} (t : list R) x : refers t x -> exists r, r ∈ t /\ row_id r = x.
Proof. unfold refers. rewrite list_elem_of_fmap. naive_solver. Qed.

(** In a table with a primary key, a row is determined by its id. *)
Lemma pk_row_unique {R} `{Keyed R} (t : list R) r1 r2 :
  pk t -> r1 ∈ t -> r2 ∈ t -> row_id r1 = row_id r2 -> r1 = r2.
Proof.
  unfold pk. intros Hnd H1 H2 Heq.
  apply list_elem_of_lookup in H1 as [i Hi], H2 as [j Hj].
  assert (i = j) as ->.
  { eapply NoDup_lookup; [exact Hnd| |]; rewrite list_lookup_fmap; [rewrite Hi|rewrite Hj];
      simpl; [reflexivity|]. by rewrite Heq. }
  congruence.
Qed.

Section PkFacts.
Context (d : db) (Hok : constraints_ok d).

Lemma pk_members : pk (members d).
  Proof using Hok. destruct Hok as [(_&_&_&_&_&_&H&_) _]. exact H. Qed.
Lemma pk_persons : pk (persons d).
  Proof using Hok. destruct Hok as [_ [(H&_) _]]. exact H. Qed.
Lemma pk_employees : pk (employees d).
  Proof using Hok. destruct Hok as [(_&_&_&_&_&_&_&_&H&_) _]. exact H. Qed.
Lemma pk_trainers : pk (trainers d).
  Proof using Hok. destruct Hok as [(_&_&_&_&_&_&_&_&_&_&H&_) _]. exact H. Qed.
Lemma pk_classtypes : pk (classtypes d).
  Proof using Hok. destruct Hok as [(_&_&_&_&_&_&_&_&_&_&_&_&H&_) _]. exact H. Qed.
Lemma pk_classofferings : pk (classofferings d).
  Proof using Hok. destruct Hok as [(_&_&_&_&_&_&_&_&_&_&_&_&_&_&_&_&H&_) _]. exact H. Qed.
Lemma pk_classes : pk (classes d).
  Proof using Hok. destruct Hok as [(_&_&_&_&_&_&_&_&_&_&_&_&_&_&_&_&_&_&H&_) _]. exact H. Qed.
Lemma pk_weekdays : pk (weekdays d).
  Proof using Hok. destruct Hok as [(_&_&_&_&_&_&_&_&_&_&_&_&_&_&_&_&_&_&_&_&H&_) _]. exact H. Qed.
Lemma pk_rooms : pk (rooms d).
  Proof using Hok. destruct Hok as [(_&_&_&_&_&_&_&_&_&_&_&_&_&_&H&_) _]. exact H. Qed.
Lemma unique_classtype_name : unique ClassType.name (classtypes d).
  Proof using Hok. destruct Hok as [(_&_&_&_&_&_&_&_&_&_&_&_&_&H&_) _]. exact H. Qed.
Lemma ok_registrations : registrations_ok (registrations d).
  Proof using Hok. destruct Hok as [_ [_ H]]. exact H. Qed.
Lemma pk_registrations : pk (registrations d).
  Proof using Hok. destruct Hok as [_ [_ [H _]]]. exact H. Qed.
End PkFacts.

(** Unfolds the [Keyed] instances into the id projections. *)
Ltac unfold_keys :=
  cbv [row_id country_keyed city_keyed person_keyed member_keyed employee_keyed
       trainer_keyed classtype_keyed room_keyed classoffering_keyed class_keyed
       weekday_keyed registration_keyed] in *.
