(* ===== verification/Declarative.v ===== *)
(** * Declarative: the class statements of [src/create_db.py]

    Each SQLAlchemy declarative class is described by what the mapping
    machinery reads from it: its name, its [__tablename__], the value bound
    to [__table_args__] and its [relationship(target, back_populates=...)]
    attributes.  [declare_all] runs the class statements in source order:
    the scan of [__table_args__] accepts a tuple (or None) and raises
    [ArgumentError] for any other value.  [configure_mappers] resolves the
    relationships when the first mapped object is built: every target
    string must name a declared class, and its [back_populates] must name a
    relationship of that class. *)

From S2P Require Import Prelude.

Inductive table_arg :=
| UniqueConstraint (columns : list string) (name : string)
| CheckConstraint (sqltext : string) (name : string).

(** The Python value of [__table_args__]: [(X)] is [X] itself, only
    [(X,)] or [(X, Y)] is a tuple. *)
Inductive py_value :=
| PyNone
| PyTuple (items : list table_arg)
| PyObject (item : table_arg).

Record relationship := rel { rel_attr : string; rel_target : string; rel_back : string }.

Record declared_class := decl {
  cls_name : string;
  tablename : string;
  table_args : py_value;
  relationships : list relationship }.

Definition check_leavedate_arg := CheckConstraint "leavedate IS NULL OR leavedate > enterdate" "check_leavedate".
Definition uix_classtype_trainer := UniqueConstraint ["classtype_id"; "trainer_id"] "uix_classtype_trainer".
Definition uix_classoffering_weekday_time :=
  UniqueConstraint ["classoffering_id"; "weekday_id"; "time"] "uix_classoffering_weekday_time".
Definition uix_class_member := UniqueConstraint ["class_id"; "member_id"] "uix_class_member".
Definition check_enddate_arg := CheckConstraint "enddate IS NULL OR enddate > startdate" "check_enddate".

(** The twelve classes of create_db.py in the order they are declared. *)
Definition declared_classes : list declared_class := [
  decl "Person" "persons" (PyObject check_leavedate_arg)
    [rel "city" "City" "persons"; rel "member" "Member" "person"; rel "employee" "Employee" "person"];
  decl "City" "cities" PyNone
    [rel "country" "Country" "cities"; rel "persons" "Person" "city"];
  decl "Country" "countries" PyNone [rel "cities" "City" "country"];
  decl "Member" "members" PyNone
    [rel "person" "Person" "member"; rel "registrations" "Registration" "member"];
  decl "Employee" "employees" PyNone
    [rel "person" "Person" "employee"; rel "trainer" "Trainer" "employee"];
  decl "Trainer" "trainers" PyNone
    [rel "employee" "Employee" "trainer"; rel "classofferings" "ClassOffering" "trainer"];
  decl "ClassType" "classtypes" PyNone
    [rel "room" "Room" "classtypes"; rel "classofferings" "ClassOffering" "classtype"];
  decl "Room" "rooms" PyNone [rel "classtypes" "ClassType" "room"];
  decl "ClassOffering" "classofferings" (PyObject uix_classtype_trainer)
    [rel "classtype" "ClassType" "classofferings"; rel "trainer" "Trainer" "classofferings";
     rel "classes" "Class" "classoffering"];
  decl "Class" "classes" (PyObject uix_classoffering_weekday_time)
    [rel "classoffering" "ClassOffering" "classes"; rel "weekday" "Weekday" "classes";
     rel "registrations" "Registrations" "class_"];
  decl "Weekday" "weekdays" PyNone [rel "classes" "Class" "weekday"];
  decl "Registration" "registrations" (PyTuple [uix_class_member; check_enddate_arg])
    [rel "class_" "Class" "registrations"; rel "member" "Member" "registrations"]].

(** The declarative scan of [__table_args__]. *)
Definition scan_table_args (v : py_value) : result (list table_arg) :=
  match v with
  | PyNone => Ok []
  | PyTuple items => Ok items
  | PyObject _ => Raise (ArgumentError "__table_args__ value must be a tuple, dict, or None")
  end.

(** Running the class statements in order: the table of each class with
    the constraints its [__table_args__] adds. *)
Fixpoint declare_all (cs : list declared_class) : result (list (string * list table_arg)) :=
  match cs with
  | [] => Ok []
  | c :: cs' =>
      args <- scan_table_args (table_args c) ;;
      rest <- declare_all cs' ;;
      Ok ((tablename c, args) :: rest)
  end.

(** Resolving one relationship against the registry of declared classes. *)
Definition resolve (cs : list declared_class) (owner : declared_class) (r : relationship)
  : result unit :=
  match list_find (fun c => cls_name c = rel_target r) cs with
  | None => Raise (InvalidRequestError
      ("When initializing mapper " +:+ cls_name owner +:+ ", expression '" +:+
       rel_target r +:+ "' failed to locate a name"))
  | Some (_, target) =>
      if decide (rel_back r ∈ map rel_attr (relationships target)) then Ok tt
      else Raise (InvalidRequestError
        ("Mapper " +:+ cls_name target +:+ " has no property '" +:+ rel_back r +:+ "'"))
  end.

Fixpoint resolve_all (cs : list declared_class) (owner : declared_class)
    (rs : list relationship) : result unit :=
  match rs with
  | [] => Ok tt
  | r :: rs' => _ <- resolve cs owner r ;; resolve_all cs owner rs'
  end.

(** [configure_mappers()]: every class's relationships, in declaration order. *)
Definition configure_mappers (cs : list declared_class) : result unit :=
  fold_left (fun acc c => _ <- acc ;; resolve_all cs c (relationships c)) cs (Ok tt).

(** ** Theorems *)

Lemma declare_all_ok cs :
  (exists tabs, declare_all cs = Ok tabs) <-> Forall (fun c => forall a, table_args c <> PyObject a) cs.
Proof.
  induction cs as [|c cs IH]; simpl; [split; eauto|].
  rewrite Forall_cons, <- IH.
  destruct (table_args c) as [|items|a]; simpl.
  - destruct (declare_all cs); simpl; split; intros H; naive_solver.
  - destruct (declare_all cs); simpl; split; intros H; naive_solver.
  - split; [intros [? ?]; discriminate|intros [H _]; by destruct (H a)].
Qed.

(** C22: executing the class statements of create_db.py raises
    [ArgumentError] at class [Person]: its [__table_args__] is
    [(CheckConstraint(...))], a constraint object and not a tuple (the same
    holds for [ClassOffering] and [Class]), so no table is ever created. *)
Theorem create_db_declarations_fail :
  declare_all declared_classes =
  Raise (ArgumentError "__table_args__ value must be a tuple, dict, or None") /\
  ~ Forall (fun c => forall a, table_args c <> PyObject a) declared_classes.
Proof.
  split; [reflexivity|]. rewrite <- declare_all_ok. intros [tabs H]. discriminate.
Qed.

(** The class statements with the trailing comma each one-element
    [__table_args__] lacks. *)
Definition with_trailing_comma (c : declared_class) : declared_class :=
  match table_args c with
  | PyObject a => decl (cls_name c) (tablename c) (PyTuple [a]) (relationships c)
  | _ => c
  end.

(** C23: with the trailing commas added every table is declared, but
    configuring the mappers still fails: [Class.registrations] names the
    class ['Registrations'], which is not declared (the class is
    [Registration]). *)
Theorem create_db_mappers_fail :
  (exists tabs, declare_all (map with_trailing_comma declared_classes) = Ok tabs) /\
  configure_mappers (map with_trailing_comma declared_classes) =
  Raise (InvalidRequestError
           "When initializing mapper Class, expression 'Registrations' failed to locate a name").
Proof. split; [eexists; reflexivity|reflexivity]. Qed.
