(* ===== verification/Catalog.v ===== *)
(** * Catalog: the database files and the DDL the scripts run

    Before any row is read, the scripts build the schema objects of a
    SQLite file: [create_db.py] runs [Base.metadata.create_all(engine)],
    [create_trigger.py] a [CREATE TRIGGER], [create_views.py] a
    [DROP VIEW IF EXISTS] and a [CREATE VIEW] per view, [add_testdata.py]
    [drop_all] and [create_all]; the query scripts reflect nine tables with
    [Table(name, metadata, autoload_with=engine)].  This file models the
    schema catalog of one database ([catalog]: the tables and views, which
    share one namespace, and the triggers with the table each is attached
    to) and each statement with SQLite's checks and messages (SQLite
    3.40).  Each DDL statement is committed on its own (the sqlite3 driver
    opens a transaction only before INSERT, UPDATE and DELETE), so a run of
    statements keeps the ones before a failing statement ([exec_all]).
    The scripts open the file named in their engine URL, relative to the
    working directory; [files] maps each path to its catalog. *)

From stdpp Require Import gmap.
From S2P Require Import Prelude Declarative.

(** ** The catalog of one database file *)

Inductive obj_kind := KTable | KView.

#[export] Instance obj_kind_eq_dec : EqDecision obj_kind.
Proof. solve_decision. Defined.

(** [sqlite_master]: tables and views by name, triggers by name with the
    table they are attached to. *)
Record catalog := mkCatalog {
  objects : gmap string obj_kind;
  triggers : gmap string string }.

Definition empty_catalog : catalog := mkCatalog ∅ ∅.

Definition kind_word (k : obj_kind) : string :=
  match k with KTable => "table" | KView => "view" end.

(** ** SQLite's DDL statements *)

(** [CREATE TABLE name (...)]. *)
Definition create_table (name : string) (c : catalog) : result catalog :=
  match objects c !! name with
  | Some k => Raise (OperationalError (kind_word k +:+ " " +:+ name +:+ " already exists"))
  | None => Ok (mkCatalog (<[name := KTable]> (objects c)) (triggers c))
  end.

(** The triggers not attached to [name]. *)
Definition triggers_off (name : string) (ts : gmap string string) : gmap string string :=
  filter (fun '(_, tbl) => tbl <> name) ts.

(** [DROP TABLE name]: the table's triggers go with it. *)
Definition drop_table (name : string) (c : catalog) : result catalog :=
  match objects c !! name with
  | Some KTable => Ok (mkCatalog (delete name (objects c)) (triggers_off name (triggers c)))
  | Some KView => Raise (OperationalError ("use DROP VIEW to delete view " +:+ name))
  | None => Raise (OperationalError ("no such table: " +:+ name))
  end.

(** [CREATE VIEW name AS SELECT ...]: the SELECT is not checked against
    the catalog when the view is created. *)
Definition create_view (name : string) (c : catalog) : result catalog :=
  match objects c !! name with
  | Some k => Raise (OperationalError (kind_word k +:+ " " +:+ name +:+ " already exists"))
  | None => Ok (mkCatalog (<[name := KView]> (objects c)) (triggers c))
  end.

(** [DROP VIEW IF EXISTS name]. *)
Definition drop_view_if_exists (name : string) (c : catalog) : result catalog :=
  match objects c !! name with
  | None => Ok c
  | Some KView => Ok (mkCatalog (delete name (objects c)) (triggers_off name (triggers c)))
  | Some KTable => Raise (OperationalError ("use DROP TABLE to delete table " +:+ name))
  end.

(** [CREATE TRIGGER name AFTER UPDATE OF ... ON tbl ...]: SQLite looks the
    table up first, then the trigger's name, then refuses an AFTER trigger
    on a view. *)
Definition create_trigger (name tbl : string) (c : catalog) : result catalog :=
  match objects c !! tbl with
  | None => Raise (OperationalError ("no such table: main." +:+ tbl))
  | Some k =>
      match triggers c !! name with
      | Some _ => Raise (OperationalError ("trigger " +:+ name +:+ " already exists"))
      | None =>
          match k with
          | KView => Raise (OperationalError ("cannot create AFTER trigger on view: " +:+ tbl))
          | KTable => Ok (mkCatalog (objects c) (<[name := tbl]> (triggers c)))
          end
      end
  end.

(** Statements executed one after another, each committed on its own: the
    first error ends the run, and what ran before it stays. *)
Fixpoint exec_all (stmts : list (catalog -> result catalog)) (c : catalog) : catalog * result unit :=
  match stmts with
  | [] => (c, Ok tt)
  | s :: stmts' =>
      match s c with
      | Ok c' => exec_all stmts' c'
      | Raise e => (c, Raise e)
      end
  end.

(** ** SQLAlchemy's schema operations *)

(** [dialect.has_table]: [PRAGMA table_info(name)] has rows for a table
    and for a view. *)
Definition has_table (name : string) (c : catalog) : bool := bool_decide (is_Some (objects c !! name)).

(** [metadata.create_all(engine)] (checkfirst): CREATE TABLE for each
    table [has_table] does not find. *)
Definition create_all (tables : list string) (c : catalog) : catalog * result unit :=
  exec_all (map (fun t c => if has_table t c then Ok c else create_table t c) tables) c.

(** [metadata.drop_all(engine)] (checkfirst): DROP TABLE for each table
    [has_table] finds, dependents first. *)
Definition drop_all (tables : list string) (c : catalog) : catalog * result unit :=
  exec_all (map (fun t c => if has_table t c then drop_table t c else Ok c) (reverse tables)) c.

(** [Table(name, metadata, autoload_with=engine)]. *)
Definition reflect_table (name : string) (c : catalog) : result unit :=
  if has_table name c then Ok tt else Raise (NoSuchTableError name).

Fixpoint reflect_all (names : list string) (c : catalog) : result unit :=
  match names with
  | [] => Ok tt
  | n :: names' => _ <- reflect_table n c ;; reflect_all names' c
  end.

(** ** The scripts *)

(** The database files, by the path of the engine URL. *)
Definition files : Type := gmap string catalog.

(** [create_engine('sqlite:///' + path)]: SQLite creates an empty database
    when the file does not exist. *)
Definition open_db (fs : files) (path : string) : catalog :=
  default empty_catalog (fs !! path).

(** Running a script's statements on the file at [path]. *)
Definition run_on (path : string) (script : catalog -> catalog * result unit) (fs : files)
  : files * result unit :=
  let '(c', r) := script (open_db fs path) in (<[path := c']> fs, r).

(** [create_db.py]: the class statements ([Declarative]), then
    [Base.metadata.create_all(engine)] on ['mygym.db']. *)
Definition create_db_script (classes : list declared_class) (c : catalog) : catalog * result unit :=
  match declare_all classes with
  | Raise e => (c, Raise e)
  | Ok tabs => create_all (map fst tabs) c
  end.

(** [create_trigger.py] on ['mygym.db']. *)
Definition create_trigger_script (c : catalog) : catalog * result unit :=
  exec_all [create_trigger "tr_update_leaving" "persons"] c.

Definition view_names : list string :=
  ["vw_classes"; "vw_registrations"; "vw_trainersasparticipants";
   "vw_employeesasinstructors"; "vw_yogaparticipants"].

(** [create_views.py] on ['data/mygym.db']: for each view, DROP VIEW IF
    EXISTS and CREATE VIEW. *)
Definition create_views_script (c : catalog) : catalog * result unit :=
  exec_all (v ← view_names; [drop_view_if_exists v; create_view v]) c.

(** [add_testdata.py], lines 11-12, on ['mygym.db'] (after the import of
    create_db has run [create_db_script]). *)
Definition reset_tables (classes : list declared_class) (c : catalog) : catalog * result unit :=
  match declare_all classes with
  | Raise e => (c, Raise e)
  | Ok tabs =>
      let '(c1, r) := drop_all (map fst tabs) c in
      match r with
      | Ok _ => create_all (map fst tabs) c1
      | Raise e => (c1, Raise e)
      end
  end.

(** The nine tables [create_functions.py] reflects (both versions). *)
Definition reflected_tables : list string :=
  ["persons"; "members"; "employees"; "trainers"; "classes"; "classtypes";
   "classofferings"; "registrations"; "weekdays"].

(** ** The invariant of the catalog *)

(** Every trigger is attached to a table of the catalog. *)
Definition catalog_ok (c : catalog) : Prop :=
  map_Forall (fun _ tbl => objects c !! tbl = Some KTable) (triggers c).

Lemma exec_all_app s1 s2 c :
  exec_all (s1 ++ s2) c =
  let '(c1, r) := exec_all s1 c in
  match r with Ok _ => exec_all s2 c1 | Raise e => (c1, Raise e) end.
Proof.
  revert c. induction s1 as [|s s1 IH]; intros c; simpl; [done|].
  destruct (s c) as [c'|e]; [apply IH|done].
Qed.

(** A run of statements each of which keeps a property keeps it. *)
Lemma exec_all_preserves (P : catalog -> Prop) stmts c c' r :
  (forall s c c', s ∈ stmts -> P c -> s c = Ok c' -> P c') ->
  P c -> exec_all stmts c = (c', r) -> P c'.
Proof.
  revert c. induction stmts as [|s stmts IH]; intros c Hs Hc H; simpl in H.
  - by injection H as <-.
  - destruct (s c) as [c1|e] eqn:E; [|by injection H as <-].
    apply (IH c1); [|eapply Hs; eauto using list_elem_of_here|done].
    intros s' ? ? ?. apply Hs. by apply list_elem_of_further.
Qed.

Lemma map_lookup_triggers_off name ts n :
  triggers_off name ts !! n = match ts !! n with
                              | Some tbl => if decide (tbl = name) then None else Some tbl
                              | None => None end.
Proof.
  unfold triggers_off. rewrite map_lookup_filter.
  destruct (ts !! n) as [tbl|]; simpl; [|done].
  case_guard as Hg; case_decide; simpl; naive_solver.
Qed.

(** Each statement keeps the invariant. *)
Lemma create_table_ok name c c' : catalog_ok c -> create_table name c = Ok c' -> catalog_ok c'.
Proof.
  unfold create_table, catalog_ok. intros Hok H.
  destruct (objects c !! name) eqn:E; [discriminate|injection H as <-]. simpl.
  intros n tbl Ht. specialize (Hok n tbl Ht). simpl in Hok.
  rewrite lookup_insert_ne; [done|]. intros ->. congruence.
Qed.

Lemma drop_table_ok name c c' : catalog_ok c -> drop_table name c = Ok c' -> catalog_ok c'.
Proof.
  unfold drop_table, catalog_ok. intros Hok H.
  destruct (objects c !! name) as [[]|] eqn:E; try discriminate. injection H as <-. simpl.
  intros n tbl Ht. rewrite map_lookup_triggers_off in Ht.
  destruct (triggers c !! n) as [tbl'|] eqn:Et; [|discriminate].
  case_decide; [discriminate|injection Ht as <-].
  rewrite lookup_delete_ne by congruence. by apply (Hok n).
Qed.

Lemma create_view_ok name c c' : catalog_ok c -> create_view name c = Ok c' -> catalog_ok c'.
Proof.
  unfold create_view, catalog_ok. intros Hok H.
  destruct (objects c !! name) eqn:E; [discriminate|injection H as <-]. simpl.
  intros n tbl Ht. specialize (Hok n tbl Ht). simpl in Hok.
  rewrite lookup_insert_ne; [done|]. intros ->. congruence.
Qed.

Lemma drop_view_if_exists_ok name c c' :
  catalog_ok c -> drop_view_if_exists name c = Ok c' -> catalog_ok c'.
Proof.
  unfold drop_view_if_exists, catalog_ok. intros Hok H.
  destruct (objects c !! name) as [[]|] eqn:E; try discriminate; injection H as <-; [|done].
  simpl. intros n tbl Ht. rewrite map_lookup_triggers_off in Ht.
  destruct (triggers c !! n) as [tbl'|] eqn:Et; [|discriminate].
  case_decide; [discriminate|injection Ht as <-].
  rewrite lookup_delete_ne by congruence. by apply (Hok n).
Qed.

Lemma create_trigger_ok name tbl c c' :
  catalog_ok c -> create_trigger name tbl c = Ok c' -> catalog_ok c'.
Proof.
  unfold create_trigger, catalog_ok. intros Hok H.
  destruct (objects c !! tbl) as [k|] eqn:E; [|discriminate].
  destruct (triggers c !! name); [discriminate|].
  destruct k; [injection H as <-|discriminate]. simpl.
  apply map_Forall_insert_2; [done|exact Hok].
Qed.

Lemma catalog_eq c c' : objects c = objects c' -> triggers c = triggers c' -> c = c'.
Proof. destruct c, c'; simpl. by intros -> ->. Qed.

(** No trigger is attached to a view. *)
Lemma triggers_off_view name c :
  catalog_ok c -> objects c !! name = Some KView -> triggers_off name (triggers c) = triggers c.
Proof.
  intros Hok Hv. apply map_eq. intros n. rewrite map_lookup_triggers_off.
  destruct (triggers c !! n) as [tbl|] eqn:Et; [|done].
  case_decide as Heq; [|done]. subst tbl. specialize (Hok n name Et). simpl in Hok. congruence.
Qed.

(** One view of [create_views.py]: DROP VIEW IF EXISTS, then CREATE VIEW. *)
Lemma view_step v c :
  catalog_ok c -> objects c !! v <> Some KTable ->
  exec_all [drop_view_if_exists v; create_view v] c =
  (mkCatalog (<[v := KView]> (objects c)) (triggers c), Ok tt).
Proof.
  intros Hok Hv. cbn [exec_all]. unfold drop_view_if_exists.
  destruct (objects c !! v) as [[]|] eqn:E; [done| |].
  - unfold create_view. simpl. rewrite lookup_delete_eq. simpl.
    by rewrite insert_delete_eq, triggers_off_view.
  - unfold create_view. by rewrite E.
Qed.

Lemma view_step_ok v c :
  catalog_ok c -> objects c !! v <> Some KTable ->
  catalog_ok (mkCatalog (<[v := KView]> (objects c)) (triggers c)).
Proof.
  intros Hok Hv n tbl Ht. specialize (Hok n tbl Ht). simpl in *.
  rewrite lookup_insert_ne; [done|]. intros ->. congruence.
Qed.

(** The views of a list created in turn. *)
Lemma views_run vs c :
  catalog_ok c -> (forall v, v ∈ vs -> objects c !! v <> Some KTable) ->
  exists c', exec_all (v ← vs; [drop_view_if_exists v; create_view v]) c = (c', Ok tt) /\
    catalog_ok c' /\ triggers c' = triggers c /\
    forall n, objects c' !! n = if decide (n ∈ vs) then Some KView else objects c !! n.
Proof.
  revert c. induction vs as [|v vs IH]; intros c Hok Hvs.
  - exists c. do 3 (split; [done|]). intros n. by rewrite decide_False by apply not_elem_of_nil.
  - rewrite bind_cons, exec_all_app, view_step
      by (done || apply Hvs, list_elem_of_here).
    destruct (IH (mkCatalog (<[v := KView]> (objects c)) (triggers c))) as (c' & Hrun & Hok' & Ht & Ho).
    + apply view_step_ok; [done|apply Hvs, list_elem_of_here].
    + intros v' Hv'. simpl. rewrite lookup_insert.
      case_decide; [done|]. by apply Hvs, list_elem_of_further.
    + exists c'. do 3 (split; [done|]). intros n. rewrite Ho. simpl.
      rewrite lookup_insert. repeat case_decide; set_solver.
Qed.

(** [create_all] never fails: it creates the tables [has_table] misses. *)
Lemma create_all_spec tables c :
  exists c', create_all tables c = (c', Ok tt) /\ triggers c' = triggers c /\
    forall n, objects c' !! n =
              if decide (n ∈ tables) then Some (default KTable (objects c !! n)) else objects c !! n.
Proof.
  unfold create_all. revert c. induction tables as [|t ts IH]; intros c.
  - exists c. do 2 (split; [done|]). intros n. by rewrite decide_False by apply not_elem_of_nil.
  - cbn [map exec_all]. unfold has_table. case_bool_decide as Hh.
    + destruct (IH c) as (c' & Hr & Ht & Ho). exists c'. do 2 (split; [done|]).
      intros n. rewrite Ho. destruct Hh as [k Hk].
      destruct (decide (n = t)) as [->|Hne]; [rewrite Hk; repeat case_decide; set_solver|].
      repeat case_decide; set_solver.
    + unfold create_table. destruct (objects c !! t) eqn:Ek; [by destruct Hh|].
      destruct (IH (mkCatalog (<[t := KTable]> (objects c)) (triggers c))) as (c' & Hr & Ht & Ho).
      exists c'. split; [done|]. split; [done|]. intros n. rewrite Ho. simpl.
      rewrite lookup_insert. destruct (decide (t = n)) as [->|Hne].
      * rewrite Ek. repeat case_decide; set_solver.
      * repeat case_decide; set_solver.
Qed.

Lemma triggers_off_absent name c :
  catalog_ok c -> objects c !! name = None -> triggers_off name (triggers c) = triggers c.
Proof.
  intros Hok Hn. apply map_eq. intros n. rewrite map_lookup_triggers_off.
  destruct (triggers c !! n) as [tbl|] eqn:Et; [|done].
  case_decide as Heq; [|done]. subst tbl. specialize (Hok n name Et). simpl in Hok. congruence.
Qed.

(** The triggers attached to none of the tables [l]. *)
Definition triggers_not_on (l : list string) (ts : gmap string string) : gmap string string :=
  filter (fun '(_, tbl) => tbl ∉ l) ts.

Lemma triggers_not_on_cons t l ts :
  triggers_not_on l (triggers_off t ts) = triggers_not_on (t :: l) ts.
Proof.
  apply map_eq. intros n. unfold triggers_not_on. rewrite !map_lookup_filter, map_lookup_triggers_off.
  destruct (ts !! n) as [tbl|]; simpl; [|done].
  case_decide; simpl; repeat case_guard; simpl; set_solver.
Qed.

Lemma triggers_not_on_nil ts : triggers_not_on [] ts = ts.
Proof.
  apply map_eq. intros n. unfold triggers_not_on. rewrite map_lookup_filter.
  by destruct (ts !! n).
Qed.

(** The DROP TABLE statements of [drop_all], over any list of tables none
    of which is a view. *)
Lemma drop_steps_spec l c :
  catalog_ok c -> (forall t, t ∈ l -> objects c !! t <> Some KView) ->
  exists c', exec_all (map (fun t c => if has_table t c then drop_table t c else Ok c) l) c = (c', Ok tt) /\
    catalog_ok c' /\ triggers c' = triggers_not_on l (triggers c) /\
    forall n, objects c' !! n = if decide (n ∈ l) then None else objects c !! n.
Proof.
  revert c. induction l as [|t l IH]; intros c Hok Hl.
  - exists c. split; [done|]. split; [done|]. split; [by rewrite triggers_not_on_nil|].
    intros n. by rewrite decide_False by apply not_elem_of_nil.
  - cbn [map exec_all]. unfold has_table.
    assert (Ht : objects c !! t <> Some KView) by apply Hl, list_elem_of_here.
    set (c1 := mkCatalog (delete t (objects c)) (triggers_off t (triggers c))).
    assert (Hstep : (if bool_decide (is_Some (objects c !! t)) then drop_table t c else Ok c) = Ok c1).
    { unfold drop_table, c1. case_bool_decide as Hh.
      - destruct (objects c !! t) as [[]|] eqn:E; [done|done|by destruct Hh].
      - destruct (objects c !! t) eqn:E; [by destruct Hh; eexists|].
        f_equal. apply catalog_eq; simpl.
        + apply map_eq. intros n. rewrite lookup_delete. case_decide; congruence.
        + by rewrite triggers_off_absent. }
    rewrite Hstep.
    assert (Hok1 : catalog_ok c1).
    { unfold drop_table in Hstep. case_bool_decide.
      - by apply (drop_table_ok t c c1).
      - injection Hstep as <-. done. }
    destruct (IH c1) as (c' & Hr & Hok' & Htr & Ho); [done| |].
    { intros t' Ht'. unfold c1. simpl. rewrite lookup_delete.
      case_decide; [done|]. by apply Hl, list_elem_of_further. }
    exists c'. split; [done|]. split; [done|]. split.
    + rewrite Htr. unfold c1. simpl. apply triggers_not_on_cons.
    + intros n. rewrite Ho. unfold c1. simpl. rewrite lookup_delete.
      repeat case_decide; set_solver.
Qed.

(** The class statements with the repairs [add_testdata.py] needs (the
    trailing commas of [Declarative]). *)
Definition repaired_classes : list declared_class := map with_trailing_comma declared_classes.

(** The tables of create_db.py, in declaration order. *)
Definition schema_tables : list string := map tablename declared_classes.

Lemma declare_all_repaired :
  exists tabs, declare_all repaired_classes = Ok tabs /\ map fst tabs = schema_tables.
Proof. eexists. split; reflexivity. Qed.

(** ** Theorems about the DDL scripts *)

(** C2: [create_trigger.py] cannot be run twice on a database: once it
    has created [tr_update_leaving], running it again raises SQLite's
    "already exists" error and changes nothing ([create_views.py], by
    contrast, drops its views first). *)
Theorem create_trigger_twice c c' :
  create_trigger_script c = (c', Ok tt) ->
  create_trigger_script c' =
  (c', Raise (OperationalError "trigger tr_update_leaving already exists")).
Proof.
  unfold create_trigger_script. cbn [exec_all]. unfold create_trigger.
  destruct (objects c !! "persons") as [k|] eqn:Ek; [|discriminate].
  destruct (triggers c !! "tr_update_leaving"); [discriminate|].
  destruct k; [|discriminate]. intros [= <-]. simpl.
  by rewrite Ek, lookup_insert_eq.
Qed.

(** C25: on any database whose trigger invariant holds and where no
    table bears a view's name, [create_views.py] succeeds, leaves the
    tables and triggers as they were and makes the five names views; and
    running it again gives the same database. *)
Theorem create_views_rerun c :
  catalog_ok c -> (forall v, v ∈ view_names -> objects c !! v <> Some KTable) ->
  exists c', create_views_script c = (c', Ok tt) /\ create_views_script c' = (c', Ok tt) /\
    triggers c' = triggers c /\
    forall n, objects c' !! n = if decide (n ∈ view_names) then Some KView else objects c !! n.
Proof.
  intros Hok Hv. destruct (views_run view_names c Hok Hv) as (c' & Hr & Hok' & Ht & Ho).
  exists c'. split; [done|]. split; [|done].
  destruct (views_run view_names c' Hok') as (c'' & Hr' & _ & Ht' & Ho').
  { intros v Hin. rewrite Ho, decide_True by done. done. }
  unfold create_views_script. rewrite Hr'. do 2 f_equal. apply catalog_eq; [|done].
  apply map_eq. intros n. rewrite Ho', Ho. by case_decide.
Qed.

(** C27: the schema reset of [add_testdata.py] ([drop_all] then
    [create_all]) recreates the twelve tables empty, keeps the views, and
    drops every trigger attached to them, [tr_update_leaving] included:
    after the import the cascade of [Trigger] no longer runs unless
    [create_trigger.py] is run again. *)
Theorem reset_tables_drops_triggers c :
  catalog_ok c -> (forall t, t ∈ schema_tables -> objects c !! t <> Some KView) ->
  exists c', reset_tables repaired_classes c = (c', Ok tt) /\
    triggers c' = triggers_not_on schema_tables (triggers c) /\
    forall n, objects c' !! n = if decide (n ∈ schema_tables) then Some KTable else objects c !! n.
Proof.
  intros Hok Hv. destruct declare_all_repaired as (tabs & Hd & Hnames).
  unfold reset_tables. rewrite Hd, Hnames. unfold drop_all.
  destruct (drop_steps_spec (reverse schema_tables) c Hok) as (c1 & Hr1 & _ & Ht1 & Ho1).
  { intros t Ht. apply Hv. by apply elem_of_reverse in Ht. }
  rewrite Hr1. destruct (create_all_spec schema_tables c1) as (c' & Hr & Ht & Ho).
  exists c'. split; [done|]. split.
  - rewrite Ht, Ht1. apply map_eq. intros n. unfold triggers_not_on.
    rewrite !map_lookup_filter. destruct (triggers c !! n) as [tbl|]; simpl; [|done].
    destruct (decide (tbl ∈ schema_tables)) as [Hin|Hin];
      [rewrite !option_guard_False|rewrite !option_guard_True];
      rewrite ?elem_of_reverse; tauto.
  - intros n. rewrite Ho, Ho1. repeat case_decide; rewrite ?elem_of_reverse in *; tauto.
Qed.

(** ** The scripts in the order of the repository, and witnesses *)

(** ['mygym.db'] after [create_db.py] (with the repairs) and after
    [create_trigger.py]. *)
Definition mygym_tables : catalog := (create_db_script repaired_classes empty_catalog).1.
Definition mygym_with_trigger : catalog := (create_trigger_script mygym_tables).1.

(** The database files of the engine URLs, relative to the working
    directory. *)
Definition create_db_path : string := "mygym.db".
Definition create_trigger_path : string := "mygym.db".
Definition create_views_path : string := "data/mygym.db".
Definition functions_path : string := "data/mygym.db".
Definition legacy_functions_path : string := "mygym.db".

(** The three set-up scripts run from one working directory: create_db.py
    and create_trigger.py write ['mygym.db'], create_views.py writes
    ['data/mygym.db'] (an empty database gets the five views, whose
    SELECTs SQLite does not check), and the newer query script, which
    opens ['data/mygym.db'], cannot reflect [persons]; the older one, on
    ['mygym.db'], can.  (An absent file reads as the empty catalog, so
    creating the file on connection is not observable here.) *)
Definition setup_files : files :=
  let fs1 := (run_on create_db_path (create_db_script repaired_classes) ∅).1 in
  let fs2 := (run_on create_trigger_path create_trigger_script fs1).1 in
  (run_on create_views_path create_views_script fs2).1.

Example setup_two_files :
  reflect_all reflected_tables (open_db setup_files functions_path) =
    Raise (NoSuchTableError "persons") /\
  reflect_all reflected_tables (open_db setup_files legacy_functions_path) = Ok tt.
Proof. split; vm_compute; reflexivity. Qed.

(** create_db.py as written stops at its class statements (C22). *)
Example create_db_as_written :
  create_db_script declared_classes empty_catalog =
  (empty_catalog, Raise (ArgumentError "__table_args__ value must be a tuple, dict, or None")).
Proof. reflexivity. Qed.

Lemma create_trigger_twice_witness :
  create_trigger_script mygym_with_trigger =
  (mygym_with_trigger, Raise (OperationalError "trigger tr_update_leaving already exists")).
Proof. apply (create_trigger_twice mygym_tables). vm_compute. reflexivity. Defined.

Lemma create_views_rerun_witness :
  exists c', create_views_script mygym_with_trigger = (c', Ok tt) /\
    create_views_script c' = (c', Ok tt) /\ triggers c' = triggers mygym_with_trigger /\
    forall n, objects c' !! n =
              if decide (n ∈ view_names) then Some KView else objects mygym_with_trigger !! n.
Proof.
  apply create_views_rerun; [compute_decide|].
  apply Forall_forall. compute_decide.
Defined.

Lemma reset_tables_drops_triggers_witness :
  exists c', reset_tables repaired_classes mygym_with_trigger = (c', Ok tt) /\
    triggers c' = triggers_not_on schema_tables (triggers mygym_with_trigger) /\
    forall n, objects c' !! n =
              if decide (n ∈ schema_tables) then Some KTable else objects mygym_with_trigger !! n.
Proof.
  apply reset_tables_drops_triggers; [compute_decide|].
  apply Forall_forall. compute_decide.
Defined.

(** The trigger of create_trigger.py is gone after add_testdata.py's reset. *)
Example reset_removes_trigger :
  triggers mygym_with_trigger !! "tr_update_leaving" = Some "persons" /\
  triggers (reset_tables repaired_classes mygym_with_trigger).1 !! "tr_update_leaving" = None.
Proof. split; vm_compute; reflexivity. Qed.
