(* ===== verification/Storage.v ===== *)
(** * Storage: the SQLite writes the scripts perform

    [next_rowid] is SQLite's choice of the id of a new row of a table whose
    primary key is an [INTEGER PRIMARY KEY] without AUTOINCREMENT (one more
    than the largest id, 1 for an empty table).  [insert_registration] is
    the statement
    [INSERT INTO registrations (class_id, member_id, startdate) VALUES (...)]
    of [add_registration]: the row gets the next rowid and a NULL [enddate];
    the UNIQUE constraint [uix_class_member] and the CHECK [check_enddate]
    are enforced and raise [IntegrityError]; the foreign keys are not. *)

From S2P Require Import Prelude Schema.

Definition next_rowid {R} `{Keyed R} (t : list R) : Z :=
  match map row_id t with
  | [] => 1
  | i :: js => foldr Z.max i js + 1
  end.

Lemma foldr_max_ge (i : Z) (js : list Z) :
  forall j, j ∈ i :: js -> j <= foldr Z.max i js.
Proof.
  induction js as [|k js IH]; simpl; intros j Hj.
  - apply list_elem_of_singleton in Hj. lia.
  - apply elem_of_cons in Hj as [->|[->|Hj]%elem_of_cons].
    + pose proof (IH i (list_elem_of_here _ _)). lia.
    + lia.
    + pose proof (IH j (list_elem_of_further _ _ _ Hj)). lia.
Qed.

(** The new rowid is fresh. *)
Lemma next_rowid_fresh {R} `{Keyed R} (t : list R) : next_rowid t ∉ map row_id t.
Proof.
  unfold next_rowid. destruct (map row_id t) as [|i js]; [apply not_elem_of_nil|].
  intros Hin. pose proof (foldr_max_ge i js _ Hin). lia.
Qed.

(** Adding one row to a table under the constraints of [registrations]. *)
Definition insert_registration_row (d : db) (r : Registration.t) : result db :=
  if decide (class_member r ∈ map class_member (registrations d)) then
    Raise (IntegrityError
      "UNIQUE constraint failed: registrations.class_id, registrations.member_id")
  else if decide (check_enddate r) then
    Ok (set_registrations d (registrations d ++ [r]))
  else Raise (IntegrityError "CHECK constraint failed: check_enddate").

(** The row the INSERT builds: next rowid, NULL [enddate]. *)
Definition new_registration (d : db) (class_id member_id : Z) (startdate : date)
  : Registration.t :=
  Registration.mk (next_rowid (registrations d)) class_id member_id startdate None.

(** [INSERT INTO registrations (class_id, member_id, startdate) VALUES
    (:class_id, :member_id, :startdate)]. *)
Definition insert_registration (d : db) (class_id member_id : Z) (startdate : date)
  : result db :=
  insert_registration_row d (new_registration d class_id member_id startdate).

Lemma insert_registration_spec d c m s d' :
  insert_registration d c m s = Ok d' <->
  ((c, m) ∉ map class_member (registrations d)) /\
  (d' = set_registrations d (registrations d ++ [new_registration d c m s])).
Proof.
  unfold insert_registration, insert_registration_row. simpl.
  case_decide as Hin; [split; [discriminate|naive_solver]|].
  simpl. naive_solver.
Qed.

(** An INSERT that succeeds keeps the constraints of [registrations]. *)
Lemma insert_registration_row_ok d r d' :
  registrations_ok (registrations d) ->
  insert_registration_row d r = Ok d' ->
  row_id r ∉ map row_id (registrations d) ->
  registrations_ok (registrations d').
Proof.
  unfold insert_registration_row, registrations_ok, pk, unique.
  intros (Hpk & Hu & Hc) Hins Hfresh.
  case_decide as Hin; [discriminate|]. case_decide as Hck; [|discriminate].
  injection Hins as <-. simpl. rewrite !map_app. simpl.
  split; [|split].
  - apply NoDup_app. split; [done|]. split; [|apply NoDup_singleton].
    intros x Hx ->%list_elem_of_singleton. contradiction.
  - apply NoDup_app. split; [done|]. split; [|apply NoDup_singleton].
    intros x Hx ->%list_elem_of_singleton. contradiction.
  - apply Forall_app. split; [done|]. by apply Forall_singleton.
Qed.
