(* ===== verification/Fixture.v ===== *)
(** * Fixture: a small gym database

    A concrete database shaped like the CSV files of [src/tests/add_testdata.py]:
    four persons (two members, one trainer who is also a member, one
    trainer), two class types, three classes and two registrations.  The
    witnesses of the development evaluate the model on it. *)

From S2P Require Import Prelude Schema.

Definition d2021_01_10 := mkDate 2021 1 10.
Definition d2021_03_01 := mkDate 2021 3 1.
Definition d2022_05_20 := mkDate 2022 5 20.
Definition d2023_02_01 := mkDate 2023 2 1.
Definition d2024_06_30 := mkDate 2024 6 30.
Definition t0900 := mkTime 9 0 0.
Definition t1800 := mkTime 18 0 0.

Definition person (i : Z) (sn fn : string) (enter : date) (leave : option date) : Person.t :=
  Person.mk i sn fn (mkDate 1990 1 1) "Main Street" "1" 1 None None None enter leave.

Definition anna := person 1 "Meier" "Anna" d2021_01_10 None.
Definition ben := person 2 "Schulz" "Ben" d2021_03_01 None.
Definition cara := person 3 "Wolf" "Cara" d2022_05_20 (Some d2023_02_01).
Definition dana := person 4 "Braun" "Dana" d2021_01_10 None.
Definition yoga := ClassType.mk 1 "Yoga" 1 2.
Definition spinning := ClassType.mk 2 "Spinning" 2 1.
Definition monday := Weekday.mk 1 "Monday" "Mo".
Definition wednesday := Weekday.mk 3 "Wednesday" "We".
Definition yoga_monday := Class.mk 1 1 1 t0900.
Definition yoga_wednesday := Class.mk 2 1 3 t1800.
Definition spinning_monday := Class.mk 3 2 1 t1800.
Definition offering_yoga_ben := ClassOffering.mk 1 1 1.
Definition offering_spinning_dana := ClassOffering.mk 2 2 2.
Definition reg_anna_yoga := Registration.mk 1 1 1 d2021_03_01 None.
Definition reg_ben_spinning := Registration.mk 2 3 2 d2021_03_01 None.

Definition sample_db : db := {|
  countries := [Country.mk 1 "Germany" (Some "DE") (Some "+49")];
  cities := [City.mk 1 "10115" "Berlin" 1];
  persons := [anna; ben; cara; dana];
  members := [Member.mk 1 1; Member.mk 2 2; Member.mk 3 3];
  employees := [Employee.mk 1 2; Employee.mk 2 4];
  trainers := [Trainer.mk 1 1; Trainer.mk 2 2];
  classtypes := [yoga; spinning];
  rooms := [Room.mk 1 "Studio"; Room.mk 2 "Bike Room"];
  classofferings := [offering_yoga_ben; offering_spinning_dana];
  classes := [yoga_monday; yoga_wednesday; spinning_monday];
  weekdays := [monday; Weekday.mk 2 "Tuesday" "Tu"; wednesday];
  registrations := [reg_anna_yoga; reg_ben_spinning] |}.

(** The day the procedure runs in the examples. *)
Definition today := mkDate 2024 1 1.

(** The same gym where Anna's member row has id 0. *)
Definition zero_db : db := {|
  countries := countries sample_db; cities := cities sample_db;
  persons := persons sample_db;
  members := [Member.mk 0 1; Member.mk 2 2; Member.mk 3 3];
  employees := employees sample_db; trainers := trainers sample_db;
  classtypes := classtypes sample_db; rooms := rooms sample_db;
  classofferings := classofferings sample_db; classes := classes sample_db;
  weekdays := weekdays sample_db; registrations := [reg_ben_spinning] |}.

(** Ben, trainer of the Yoga offering, registers for his own Monday class. *)
Definition self_db : db :=
  set_registrations sample_db [Registration.mk 1 1 2 d2021_03_01 None].

(** A second Yoga offering (led by Dana) with a class at the same slot as
    [yoga_monday]; Anna attends one, Cara the other. *)
Definition offering_yoga_dana := ClassOffering.mk 3 1 2.
Definition yoga_monday_dana := Class.mk 4 3 1 t0900.
Definition merge_db : db := {|
  countries := countries sample_db; cities := cities sample_db;
  persons := persons sample_db; members := members sample_db;
  employees := employees sample_db; trainers := trainers sample_db;
  classtypes := classtypes sample_db; rooms := rooms sample_db;
  classofferings := classofferings sample_db ++ [offering_yoga_dana];
  classes := classes sample_db ++ [yoga_monday_dana];
  weekdays := weekdays sample_db;
  registrations := [reg_anna_yoga; Registration.mk 2 4 3 d2021_03_01 None] |}.

(** Anna's Yoga registration runs until mid-2024; Cara's ended in 2022. *)
Definition yoga_db : db :=
  set_registrations sample_db
    [Registration.mk 1 1 1 d2021_03_01 (Some d2024_06_30);
     Registration.mk 2 2 3 d2021_03_01 (Some d2022_05_20)].
