(* ===== verification/Strptime.v ===== *)
(** * Strptime: [datetime.strptime] for the two formats the import uses

    [src/tests/add_testdata.py] reads dates with
    [datetime.strptime(s, '%Y-%m-%d').date()] and times with
    [datetime.strptime(s, '%H:%M:%S').time()].  This file models CPython's
    [_strptime] for these two formats: the regular expression it builds
    from the format (each directive an ordered alternation, e.g.
    [%m = 1[0-2]|0[1-9]|[1-9]]), matched with [re.match] (alternatives
    tried in order, backtracking into an earlier group when the rest of
    the pattern fails: [first_alt] in continuation-passing style), the
    "unconverted data remains" check, and the range checks of the
    [datetime] constructor.  Digits are the ASCII digits.  The error
    messages are CPython 3.11's; [py_repr] quotes like [repr] for strings
    without quotes or backslashes. *)

From S2P Require Import Prelude.

(** ** Character classes and alternatives *)

Definition in_range (lo hi : ascii) (c : ascii) : bool :=
  (N_of_ascii lo <=? N_of_ascii c)%N && (N_of_ascii c <=? N_of_ascii hi)%N.

Definition is_char (x : ascii) (c : ascii) : bool := Ascii.eqb c x.

(** [\d] *)
Definition is_digit : ascii -> bool := in_range "0" "9".

Definition digit_value (c : ascii) : Z := Z.of_N (N_of_ascii c) - 48.

(** [int(m)] of the matched text: decimal digits, blanks skipped. *)
Fixpoint digits_value_acc (acc : Z) (s : string) : Z :=
  match s with
  | EmptyString => acc
  | String c s' =>
      if Ascii.eqb c " " then digits_value_acc acc s'
      else digits_value_acc (10 * acc + digit_value c) s'
  end.

Definition digits_value (s : string) : Z := digits_value_acc 0 s.

(** One alternative of a directive: a sequence of character classes.
    [match_alt] returns the matched text and the rest. *)
Fixpoint match_alt (a : list (ascii -> bool)) (s : string) : option (string * string) :=
  match a with
  | [] => Some (EmptyString, s)
  | cls :: a' =>
      match s with
      | String c s' =>
          if cls c then
            match match_alt a' s' with
            | Some (m, rest) => Some (String c m, rest)
            | None => None
            end
          else None
      | EmptyString => None
      end
  end.

(** [(?P<x>alt1|alt2|...)] followed by the rest of the pattern [k]: the
    first alternative for which the rest matches. *)
Fixpoint first_alt {R} (alts : list (list (ascii -> bool))) (s : string)
    (k : Z -> string -> option R) : option R :=
  match alts with
  | [] => None
  | a :: alts' =>
      match match_alt a s with
      | Some (m, rest) =>
          match k (digits_value m) rest with
          | Some r => Some r
          | None => first_alt alts' s k
          end
      | None => first_alt alts' s k
      end
  end.

(** A literal character of the format. *)
Definition lit {R} (x : ascii) (s : string) (k : string -> option R) : option R :=
  match s with
  | String c s' => if Ascii.eqb c x then k s' else None
  | EmptyString => None
  end.

(** ** The directives, as in [_strptime.TimeRE] *)

(** [%Y = \d\d\d\d] *)
Definition Y_alts := [[is_digit; is_digit; is_digit; is_digit]].
(** [%m = 1[0-2]|0[1-9]|[1-9]] *)
Definition m_alts := [[is_char "1"; in_range "0" "2"]; [is_char "0"; in_range "1" "9"];
                      [in_range "1" "9"]].
(** [%d = 3[0-1]|[1-2]\d|0[1-9]|[1-9]| [1-9]] *)
Definition d_alts := [[is_char "3"; in_range "0" "1"]; [in_range "1" "2"; is_digit];
                      [is_char "0"; in_range "1" "9"]; [in_range "1" "9"];
                      [is_char " "; in_range "1" "9"]].
(** [%H = 2[0-3]|[0-1]\d|\d] *)
Definition H_alts := [[is_char "2"; in_range "0" "3"]; [in_range "0" "1"; is_digit]; [is_digit]].
(** [%M = [0-5]\d|\d] *)
Definition M_alts := [[in_range "0" "5"; is_digit]; [is_digit]].
(** [%S = 6[0-1]|[0-5]\d|\d] *)
Definition S_alts := [[is_char "6"; in_range "0" "1"]; [in_range "0" "5"; is_digit]; [is_digit]].

(** [-%m-%d] after the year. *)
Definition regex_md (s : string) : option (Z * Z * string) :=
  lit "-" s (fun s1 =>
  first_alt m_alts s1 (fun m s2 =>
  lit "-" s2 (fun s3 =>
  first_alt d_alts s3 (fun d rest => Some (m, d, rest))))).

(** [re.match] of the pattern of ['%Y-%m-%d']. *)
Definition regex_date (s : string) : option (Z * Z * Z * string) :=
  first_alt Y_alts s (fun y s1 =>
    match regex_md s1 with
    | Some (m, d, rest) => Some (y, m, d, rest)
    | None => None
    end).

(** [:%M:%S] after the hour. *)
Definition regex_ms (s : string) : option (Z * Z * string) :=
  lit ":" s (fun s1 =>
  first_alt M_alts s1 (fun mi s2 =>
  lit ":" s2 (fun s3 =>
  first_alt S_alts s3 (fun se rest => Some (mi, se, rest))))).

(** [re.match] of the pattern of ['%H:%M:%S']. *)
Definition regex_time (s : string) : option (Z * Z * Z * string) :=
  first_alt H_alts s (fun h s1 =>
    match regex_ms s1 with
    | Some (mi, se, rest) => Some (h, mi, se, rest)
    | None => None
    end).

(** ** Calendar checks of the [date] constructor *)

Definition is_leap (y : Z) : bool :=
  (Z.eqb (y mod 4) 0 && negb (Z.eqb (y mod 100) 0)) || Z.eqb (y mod 400) 0.

Definition days_in_month (y m : Z) : Z :=
  if Z.eqb m 2 then (if is_leap y then 29 else 28)
  else if (Z.eqb m 4 || Z.eqb m 6 || Z.eqb m 9 || Z.eqb m 11) then 30 else 31.

(** The dates [datetime.date] accepts. *)
Definition valid_date (dt : date) : Prop :=
  1 <= year dt <= 9999 /\ 1 <= month dt <= 12 /\ 1 <= day dt <= days_in_month (year dt) (month dt).

#[export] Instance valid_date_dec dt : Decision (valid_date dt).
Proof. unfold valid_date. apply _. Defined.

(** [repr] of a string without quotes or backslashes. *)
Definition py_repr (s : string) : string := "'" +:+ s +:+ "'".

(** [datetime.strptime(s, '%Y-%m-%d').date()]. *)
Definition strptime_date (s : string) : result date :=
  match regex_date s with
  | None => Raise (ValueError ("time data " +:+ py_repr s +:+ " does not match format '%Y-%m-%d'"))
  | Some (y, m, d, rest) =>
      if negb (String.eqb rest "") then Raise (ValueError ("unconverted data remains: " +:+ rest))
      else if Z.eqb y 0 then Raise (ValueError "year 0 is out of range")
      else if Z.ltb (days_in_month y m) d then Raise (ValueError "day is out of range for month")
      else Ok (mkDate y m d)
  end.

(** [datetime.strptime(s, '%H:%M:%S').time()]. *)
Definition strptime_time (s : string) : result time :=
  match regex_time s with
  | None => Raise (ValueError ("time data " +:+ py_repr s +:+ " does not match format '%H:%M:%S'"))
  | Some (h, mi, se, rest) =>
      if negb (String.eqb rest "") then Raise (ValueError ("unconverted data remains: " +:+ rest))
      else if Z.ltb 59 se then Raise (ValueError "second must be in 0..59")
      else Ok (mkTime h mi se)
  end.

(** [date.isoformat()]: ['%04d-%02d-%02d']. *)
Definition date_isoformat (dt : date) : string :=
  pad_zeros 4 (py_str (year dt)) +:+ "-" +:+ pad_zeros 2 (py_str (month dt)) +:+ "-" +:+
  pad_zeros 2 (py_str (day dt)).

(** [time.isoformat()]: ['%02d:%02d:%02d']. *)
Definition time_isoformat (t : time) : string :=
  pad_zeros 2 (py_str (hour t)) +:+ ":" +:+ pad_zeros 2 (py_str (minute t)) +:+ ":" +:+
  pad_zeros 2 (py_str (second t)).

(** ** Round trips *)

(** The times [datetime.time] accepts from [%H:%M:%S]. *)
Definition valid_time (t : time) : Prop :=
  0 <= hour t <= 23 /\ 0 <= minute t <= 59 /\ 0 <= second t <= 59.

#[export] Instance valid_time_dec t : Decision (valid_time t).
Proof. unfold valid_time. apply _. Defined.

Definition four_digits (s : string) : bool :=
  match s with
  | String a (String b (String c (String e EmptyString))) =>
      is_digit a && is_digit b && is_digit c && is_digit e
  | _ => false
  end.

(** [%Y] consumes exactly four digits, whatever follows. *)
Lemma first_alt_Y {R} s4 rest (k : Z -> string -> option R) :
  four_digits s4 = true -> first_alt Y_alts (s4 +:+ rest) k = k (digits_value s4) rest.
Proof.
  destruct s4 as [|a [|b [|c [|e [|]]]]]; intros H; try discriminate H.
  cbn [four_digits] in H.
  destruct (is_digit a) eqn:Ha, (is_digit b) eqn:Hb, (is_digit c) eqn:Hc, (is_digit e) eqn:He;
    try discriminate H.
  change (String a (String b (String c (String e ""))) +:+ rest)
    with (String a (String b (String c (String e rest)))).
  cbn -[is_digit digits_value]. rewrite Ha, Hb, Hc, He. by destruct (k _ rest).
Qed.

(** The years [1..9999] print as four digits that read back as the year
    (checked over the range by evaluation). *)
Lemma year_digits y :
  1 <= y <= 9999 ->
  four_digits (pad_zeros 4 (py_str y)) = true /\ digits_value (pad_zeros 4 (py_str y)) = y.
Proof.
  intros Hy.
  assert (Hall : forallb (fun y => four_digits (pad_zeros 4 (py_str y)) &&
                                  Z.eqb (digits_value (pad_zeros 4 (py_str y))) y)
                         (seqZ 1 9999) = true) by (vm_compute; reflexivity).
  rewrite forallb_forall in Hall. specialize (Hall y).
  rewrite <- list_elem_of_In, elem_of_seqZ in Hall.
  apply andb_prop in Hall as [? ?%Z.eqb_eq]; [done|lia].
Qed.

(** [-%m-%d] reads back every printed month and day (by evaluation). *)
Lemma regex_md_iso m d :
  1 <= m <= 12 -> 1 <= d <= 31 ->
  regex_md ("-" +:+ pad_zeros 2 (py_str m) +:+ "-" +:+ pad_zeros 2 (py_str d)) = Some (m, d, "").
Proof.
  intros Hm Hd.
  assert (Hall : forallb (fun m => forallb (fun d =>
            bool_decide (regex_md ("-" +:+ pad_zeros 2 (py_str m) +:+ "-" +:+ pad_zeros 2 (py_str d))
                         = Some (m, d, ""))) (seqZ 1 31)) (seqZ 1 12) = true)
    by (vm_compute; reflexivity).
  rewrite forallb_forall in Hall. specialize (Hall m).
  rewrite <- list_elem_of_In, elem_of_seqZ in Hall. rewrite forallb_forall in Hall.
  specialize (Hall ltac:(lia) d). rewrite <- list_elem_of_In, elem_of_seqZ in Hall.
  apply bool_decide_eq_true in Hall; [done|lia].
Qed.

Lemma days_in_month_le y m : days_in_month y m <= 31.
Proof. unfold days_in_month. repeat case_match; lia. Qed.

(** Every time [time.isoformat()] prints reads back (by evaluation over
    all 86400 seconds of the day). *)
Lemma strptime_time_all :
  forallb (fun h => forallb (fun mi => forallb (fun se =>
     bool_decide (strptime_time (time_isoformat (mkTime h mi se)) = Ok (mkTime h mi se)))
     (seqZ 0 60)) (seqZ 0 60)) (seqZ 0 24) = true.
Proof. vm_compute. reflexivity. Qed.

(** ** What a successful match gives *)

Lemma first_alt_Some {R} alts s (k : Z -> string -> option R) r :
  first_alt alts s k = Some r ->
  exists a m rest, a ∈ alts /\ match_alt a s = Some (m, rest) /\ k (digits_value m) rest = Some r.
Proof.
  induction alts as [|a alts IH]; simpl; [discriminate|].
  destruct (match_alt a s) as [[m rest]|] eqn:Hm.
  - destruct (k (digits_value m) rest) eqn:Hk.
    + intros [= <-]. exists a, m, rest. split; [by left|done].
    + intros (a' & m' & r' & ? & ? & ?)%IH. exists a', m', r'. split; [by right|done].
  - intros (a' & m' & r' & ? & ? & ?)%IH. exists a', m', r'. split; [by right|done].
Qed.

Lemma lit_Some {R} x s (k : string -> option R) r :
  lit x s k = Some r -> exists s', s = String x s' /\ k s' = Some r.
Proof.
  destruct s as [|c s']; simpl; [discriminate|].
  destruct (Ascii.eqb_spec c x) as [->|]; [eauto|discriminate].
Qed.

Lemma match_alt_cons cls a' s m rest :
  match_alt (cls :: a') s = Some (m, rest) ->
  exists c s' m', s = String c s' /\ cls c = true /\ match_alt a' s' = Some (m', rest) /\
                  m = String c m'.
Proof.
  destruct s as [|c s']; simpl; [discriminate|].
  destruct (cls c) eqn:Hc; [|discriminate].
  destruct (match_alt a' s') as [[m' r']|] eqn:Hm; [|discriminate].
  intros [= <- <-]. eauto 10.
Qed.

Lemma in_range_bounds lo hi c :
  in_range lo hi c = true -> (N_of_ascii lo <= N_of_ascii c <= N_of_ascii hi)%N.
Proof. unfold in_range. intros [?%N.leb_le ?%N.leb_le]%andb_prop. lia. Qed.

Lemma is_char_eq x c : is_char x c = true -> c = x.
Proof. unfold is_char. by destruct (Ascii.eqb_spec c x). Qed.

Lemma not_blank c : (48 <= N_of_ascii c)%N -> Ascii.eqb c " " = false.
Proof. intros H. destruct (Ascii.eqb_spec c " ") as [->|]; [simpl in H; lia|done]. Qed.

(** Peel a successful [match_alt] into the characters it read and the
    bounds their classes give. *)
Ltac alt_chars :=
  repeat match goal with
  | H : match_alt (_ :: _) _ = Some _ |- _ =>
      let c := fresh "c" in
      apply match_alt_cons in H as (c & ? & ? & -> & ?Hc & H & ->)
  | H : match_alt [] _ = Some _ |- _ => injection H as <- <-
  | H : in_range _ _ _ = true |- _ => apply in_range_bounds in H; simpl in H
  | H : is_digit _ = true |- _ => apply in_range_bounds in H; simpl in H
  | H : is_char _ _ = true |- _ => apply is_char_eq in H; subst
  end.

(** The value read from digits with the given bounds. *)
Ltac digits_bounds :=
  unfold digits_value; cbn [digits_value_acc];
  repeat match goal with
  | H : (_ <= N_of_ascii ?c <= _)%N |- context [Ascii.eqb ?c " "] =>
      rewrite (not_blank c) by lia
  end;
  cbn [digits_value_acc]; unfold digit_value; simpl in *; lia.

Ltac alt_cases Ha :=
  repeat (apply elem_of_cons in Ha as [->|Ha]); [..|by apply not_elem_of_nil in Ha].

Lemma Y_alts_value a s m rest :
  a ∈ Y_alts -> match_alt a s = Some (m, rest) -> 0 <= digits_value m <= 9999.
Proof. intros Ha Hm. alt_cases Ha. alt_chars. digits_bounds. Qed.

Lemma m_alts_value a s m rest :
  a ∈ m_alts -> match_alt a s = Some (m, rest) -> 1 <= digits_value m <= 12.
Proof. intros Ha Hm. alt_cases Ha; alt_chars; digits_bounds. Qed.

Lemma d_alts_value a s m rest :
  a ∈ d_alts -> match_alt a s = Some (m, rest) -> 1 <= digits_value m <= 31.
Proof. intros Ha Hm. alt_cases Ha; alt_chars; digits_bounds. Qed.

Lemma H_alts_value a s m rest :
  a ∈ H_alts -> match_alt a s = Some (m, rest) -> 0 <= digits_value m <= 23.
Proof. intros Ha Hm. alt_cases Ha; alt_chars; digits_bounds. Qed.

Lemma M_alts_value a s m rest :
  a ∈ M_alts -> match_alt a s = Some (m, rest) -> 0 <= digits_value m <= 59.
Proof. intros Ha Hm. alt_cases Ha; alt_chars; digits_bounds. Qed.

Lemma S_alts_value a s m rest :
  a ∈ S_alts -> match_alt a s = Some (m, rest) -> 0 <= digits_value m <= 61.
Proof. intros Ha Hm. alt_cases Ha; alt_chars; digits_bounds. Qed.

(** Whatever [strptime(_, '%Y-%m-%d').date()] returns is a date of the
    calendar. *)
Lemma strptime_date_valid s dt : strptime_date s = Ok dt -> valid_date dt.
Proof.
  unfold strptime_date. destruct (regex_date s) as [[[[y m] d] rest]|] eqn:Hr; [|discriminate].
  destruct (negb _); [discriminate|]. destruct (Z.eqb_spec y 0); [discriminate|].
  destruct (Z.ltb_spec (days_in_month y m) d); [discriminate|]. intros [= <-].
  apply first_alt_Some in Hr as (a & ym & s1 & Ha & Hm & Hk).
  pose proof (Y_alts_value _ _ _ _ Ha Hm).
  destruct (regex_md s1) as [[[m' d'] rest']|] eqn:Hmd; [|discriminate].
  injection Hk as <- <- <- <-.
  apply lit_Some in Hmd as (s2 & -> & Hmd).
  apply first_alt_Some in Hmd as (a2 & mm & s3 & Ha2 & Hm2 & Hk2).
  pose proof (m_alts_value _ _ _ _ Ha2 Hm2).
  apply lit_Some in Hk2 as (s4 & -> & Hk2).
  apply first_alt_Some in Hk2 as (a3 & dd & s5 & Ha3 & Hm3 & [= <- <- <-]).
  pose proof (d_alts_value _ _ _ _ Ha3 Hm3).
  unfold valid_date. simpl. lia.
Qed.

(** Whatever [strptime(_, '%H:%M:%S').time()] returns is a time of day. *)
Lemma strptime_time_valid s t : strptime_time s = Ok t -> valid_time t.
Proof.
  unfold strptime_time. destruct (regex_time s) as [[[[h mi] se] rest]|] eqn:Hr; [|discriminate].
  destruct (negb _); [discriminate|]. destruct (Z.ltb_spec 59 se); [discriminate|].
  intros [= <-].
  apply first_alt_Some in Hr as (a & hh & s1 & Ha & Hm & Hk).
  pose proof (H_alts_value _ _ _ _ Ha Hm).
  destruct (regex_ms s1) as [[[mi' se'] rest']|] eqn:Hms; [|discriminate].
  injection Hk as <- <- <- <-.
  apply lit_Some in Hms as (s2 & -> & Hms).
  apply first_alt_Some in Hms as (a2 & mm & s3 & Ha2 & Hm2 & Hk2).
  pose proof (M_alts_value _ _ _ _ Ha2 Hm2).
  apply lit_Some in Hk2 as (s4 & -> & Hk2).
  apply first_alt_Some in Hk2 as (a3 & ss & s5 & Ha3 & Hm3 & [= <- <- <-]).
  pose proof (S_alts_value _ _ _ _ Ha3 Hm3).
  unfold valid_time. simpl. lia.
Qed.

(** Every calendar date printed by [date.isoformat()] reads back. *)
Lemma strptime_date_isoformat dt : valid_date dt -> strptime_date (date_isoformat dt) = Ok dt.
Proof.
  destruct dt as [y m d]. intros (Hy & Hm & Hd). simpl in *.
  destruct (year_digits y Hy) as [H4 Hv].
  unfold strptime_date, regex_date, date_isoformat. cbn [year month day].
  rewrite first_alt_Y by done. rewrite Hv.
  rewrite regex_md_iso by (pose proof (days_in_month_le y m); lia). simpl.
  destruct (Z.eqb_spec y 0); [lia|]. destruct (Z.ltb_spec (days_in_month y m) d); [lia|].
  done.
Qed.

(** Every time of day printed by [time.isoformat()] reads back. *)
Lemma strptime_time_isoformat t : valid_time t -> strptime_time (time_isoformat t) = Ok t.
Proof.
  destruct t as [h mi se]. intros (Hh & Hmi & Hse). simpl in *.
  pose proof strptime_time_all as Hall.
  rewrite forallb_forall in Hall. specialize (Hall h).
  rewrite <- list_elem_of_In, elem_of_seqZ, forallb_forall in Hall.
  specialize (Hall ltac:(lia) mi). rewrite <- list_elem_of_In, elem_of_seqZ, forallb_forall in Hall.
  specialize (Hall ltac:(lia) se). rewrite <- list_elem_of_In, elem_of_seqZ in Hall.
  apply bool_decide_eq_true in Hall; [done|lia].
Qed.
