(* ===== verification/BulkImport.v ===== *)
(** * BulkImport: the CSV import of [tests/add_testdata.py]

    The script reads one CSV file per table ([csv.reader] rows, lists of
    strings), builds an ORM object per row ([Country(name=row[0], ...)]),
    adds them to one session, and commits once.  The model follows it:
    - [csv_files] holds the rows of the twelve files;
    - [country_of_row], ..., [registration_of_row] translate the keyword
      arguments in Python's evaluation order: [row[i]] raises [IndexError]
      on a short row, [strptime] raises [ValueError] ([Strptime]); the
      result is the row as a function of the id it will get;
    - [import_all] parses the files in the order of the script (the first
      exception aborts it before anything is written), numbers the rows of
      each table [1..n] (the tables were just recreated, so SQLite's rowids
      start at 1), then inserts the tables in dependency order, SQLite
      checking on each INSERT the CHECK constraints and then the UNIQUE
      constraints of the table ([insert_all]); a violation raises
      [IntegrityError] and the commit does not happen.
    The integer columns receive the CSV text; SQLite's INTEGER affinity
    stores a decimal numeral as the integer.  Any other text would be
    stored as text, which the typed model of [Schema] cannot represent:
    such an input is outside the model and [import_all] answers [None]
    for it.  The model takes the schema as the classes of [create_db.py]
    declare it, i.e. with the [__table_args__] tuples of [Declarative]
    repaired (as written, importing [create_db] already fails) and with
    [relationship('Registrations')] naming [Registration] (as written,
    building the first object fails when the mappers are configured).
    [export_csv] writes a database as the CSV files the import reads (the
    format the files of [example data] use); it is the inverse the round
    trip of the import is stated with. *)

From S2P Require Import Prelude Schema Strptime Fixture.

(** ** Outcomes: outside the model, or the script's result *)

Definition imp (A : Type) : Type := option (result A).

Definition imp_bind {A B} (c : imp A) (k : A -> imp B) : imp B :=
  match c with
  | None => None
  | Some (Ok a) => k a
  | Some (Raise e) => Some (Raise e)
  end.

Notation "x <~ c ;; k" := (imp_bind c (fun x => k))
  (at level 60, c at next level, right associativity) : py_scope.

Definition imp_ret {A} (a : A) : imp A := Some (Ok a).

(** ** Fields of a CSV row *)

(** [row[i]]. *)
Definition field (row : list string) (i : nat) : imp string := Some (py_index row i).

Fixpoint digits_only (s : string) : bool :=
  match s with
  | EmptyString => true
  | String c s' => is_digit c && digits_only s'
  end.

(** SQLite's INTEGER affinity on a decimal numeral (an optional sign and
    digits); [None] for any other text. *)
Definition sqlite_int (s : string) : option Z :=
  match s with
  | String "-" s' => if digits_only s' && negb (String.eqb s' "") then Some (- digits_value s') else None
  | String "+" s' => if digits_only s' && negb (String.eqb s' "") then Some (digits_value s') else None
  | _ => if digits_only s && negb (String.eqb s "") then Some (digits_value s) else None
  end.

(** [row[i]] bound to an Integer column. *)
Definition int_field (row : list string) (i : nat) : imp Z :=
  s <~ field row i ;; (Ok <$> sqlite_int s).

(** [datetime.strptime(row[i], '%Y-%m-%d').date()]. *)
Definition date_field (row : list string) (i : nat) : imp date :=
  s <~ field row i ;; Some (strptime_date s).

(** [datetime.strptime(row[i], '%H:%M:%S').time()]. *)
Definition time_field (row : list string) (i : nat) : imp time :=
  s <~ field row i ;; Some (strptime_time s).

(** [datetime.strptime(row[i], '%Y-%m-%d').date() if row[i] and row[i] != 'NULL' else None]. *)
Definition null_date_field (row : list string) (i : nat) : imp (option date) :=
  s <~ field row i ;;
  if bool_decide (s <> "" /\ s <> "NULL")
  then Some (d <- strptime_date s ;; Ok (Some d))
  else imp_ret None.

(** ** One ORM object per row, as a function of its future id *)

Definition country_of_row (row : list string) : imp (Z -> Country.t) :=
  name <~ field row 0 ;; abbreviation <~ field row 1 ;; code <~ field row 2 ;;
  imp_ret (fun id => Country.mk id name (Some abbreviation) (Some code)).

Definition city_of_row (row : list string) : imp (Z -> City.t) :=
  postcode <~ field row 0 ;; name <~ field row 1 ;; country_id <~ int_field row 2 ;;
  imp_ret (fun id => City.mk id postcode name country_id).

Definition person_of_row (row : list string) : imp (Z -> Person.t) :=
  surname <~ field row 0 ;; forename <~ field row 1 ;; birthdate <~ date_field row 2 ;;
  street <~ field row 3 ;; housenumber <~ field row 4 ;; city_id <~ int_field row 5 ;;
  landline <~ field row 6 ;; mobile <~ field row 7 ;; email <~ field row 8 ;;
  enterdate <~ date_field row 9 ;; leavedate <~ null_date_field row 10 ;;
  imp_ret (fun id => Person.mk id surname forename birthdate street housenumber city_id
                               (Some landline) (Some mobile) (Some email) enterdate leavedate).

Definition member_of_row (row : list string) : imp (Z -> Member.t) :=
  person_id <~ int_field row 0 ;; imp_ret (fun id => Member.mk id person_id).

Definition employee_of_row (row : list string) : imp (Z -> Employee.t) :=
  person_id <~ int_field row 0 ;; imp_ret (fun id => Employee.mk id person_id).

Definition trainer_of_row (row : list string) : imp (Z -> Trainer.t) :=
  employee_id <~ int_field row 0 ;; imp_ret (fun id => Trainer.mk id employee_id).

Definition room_of_row (row : list string) : imp (Z -> Room.t) :=
  name <~ field row 0 ;; imp_ret (fun id => Room.mk id name).

Definition classtype_of_row (row : list string) : imp (Z -> ClassType.t) :=
  name <~ field row 0 ;; room_id <~ int_field row 1 ;; maxparticipants <~ int_field row 2 ;;
  imp_ret (fun id => ClassType.mk id name room_id maxparticipants).

Definition classoffering_of_row (row : list string) : imp (Z -> ClassOffering.t) :=
  classtype_id <~ int_field row 0 ;; trainer_id <~ int_field row 1 ;;
  imp_ret (fun id => ClassOffering.mk id classtype_id trainer_id).

Definition weekday_of_row (row : list string) : imp (Z -> Weekday.t) :=
  name <~ field row 0 ;; abbreviation <~ field row 1 ;;
  imp_ret (fun id => Weekday.mk id name abbreviation).

Definition class_of_row (row : list string) : imp (Z -> Class.t) :=
  classoffering_id <~ int_field row 0 ;; weekday_id <~ int_field row 1 ;;
  time <~ time_field row 2 ;;
  imp_ret (fun id => Class.mk id classoffering_id weekday_id time).

Definition registration_of_row (row : list string) : imp (Z -> Registration.t) :=
  class_id <~ int_field row 0 ;; member_id <~ int_field row 1 ;;
  startdate <~ date_field row 2 ;; enddate <~ null_date_field row 3 ;;
  imp_ret (fun id => Registration.mk id class_id member_id startdate enddate).

(** [[X(...) for row in reader]]: the rows in order, the first exception
    ending the comprehension. *)
Fixpoint parse_rows {R} (f : list string -> imp R) (rows : list (list string)) : imp (list R) :=
  match rows with
  | [] => imp_ret []
  | row :: rows' => r <~ f row ;; rs <~ parse_rows f rows' ;; imp_ret (r :: rs)
  end.

(** The rowids [n, n+1, ...] of the rows inserted into an empty table. *)
Fixpoint number_from {R} (n : Z) (fs : list (Z -> R)) : list R :=
  match fs with
  | [] => []
  | f :: fs' => f n :: number_from (n + 1) fs'
  end.

(** ** The commit: INSERTs checked by SQLite *)

(** A constraint of a table: its error message and whether inserting a
    row after the rows already in the table violates it. *)
Definition constraint (R : Type) : Type := string * (list R -> R -> bool).

(** [CheckConstraint(..., name=name)]. *)
Definition check_c {R} (name : string) (ok : R -> Prop) `{forall r, Decision (ok r)} : constraint R :=
  ("CHECK constraint failed: " +:+ name, fun _ r => negb (bool_decide (ok r))).

(** [unique=True] on a NOT NULL column, or a [UniqueConstraint]. *)
Definition unique_c {R A} `{EqDecision A} (cols : string) (f : R -> A) : constraint R :=
  ("UNIQUE constraint failed: " +:+ cols, fun prev r => bool_decide (f r ∈ map f prev)).

(** [unique=True] on a nullable column: NULL collides with nothing. *)
Definition unique_null_c {R A} `{EqDecision A} (cols : string) (f : R -> option A) : constraint R :=
  ("UNIQUE constraint failed: " +:+ cols,
   fun prev r => match f r with
                 | Some a => bool_decide (a ∈ omap f prev)
                 | None => false
                 end).

Fixpoint first_violation {R} (cs : list (constraint R)) (prev : list R) (r : R) : option string :=
  match cs with
  | [] => None
  | (msg, violated) :: cs' => if violated prev r then Some msg else first_violation cs' prev r
  end.

(** The INSERTs of one table, in order, after the rows [prev]. *)
Fixpoint insert_all {R} (cs : list (constraint R)) (prev rows : list R) : result (list R) :=
  match rows with
  | [] => Ok prev
  | r :: rows' =>
      match first_violation cs prev r with
      | Some msg => Raise (IntegrityError msg)
      | None => insert_all cs (prev ++ [r]) rows'
      end
  end.

(** The constraints of each table, CHECK before UNIQUE, in the order of
    the columns and [__table_args__] of [create_db.py]. *)
Definition country_constraints : list (constraint Country.t) :=
  [unique_c "countries.name" Country.name;
   unique_null_c "countries.abbreviation" Country.abbreviation;
   unique_null_c "countries.code" Country.code].
Definition city_constraints : list (constraint City.t) :=
  [unique_c "cities.postcode" City.postcode].
Definition person_constraints : list (constraint Person.t) :=
  [check_c "check_leavedate" check_leavedate;
   unique_null_c "persons.mobile" Person.mobile;
   unique_null_c "persons.email" Person.email].
Definition member_constraints : list (constraint Member.t) :=
  [unique_c "members.person_id" Member.person_id].
Definition employee_constraints : list (constraint Employee.t) :=
  [unique_c "employees.person_id" Employee.person_id].
Definition trainer_constraints : list (constraint Trainer.t) :=
  [unique_c "trainers.employee_id" Trainer.employee_id].
Definition room_constraints : list (constraint Room.t) :=
  [unique_c "rooms.name" Room.name].
Definition classtype_constraints : list (constraint ClassType.t) :=
  [unique_c "classtypes.name" ClassType.name].
Definition classoffering_constraints : list (constraint ClassOffering.t) :=
  [unique_c "classofferings.classtype_id, classofferings.trainer_id"
     (fun o => (ClassOffering.classtype_id o, ClassOffering.trainer_id o))].
Definition weekday_constraints : list (constraint Weekday.t) :=
  [unique_c "weekdays.name" Weekday.name; unique_c "weekdays.abbreviation" Weekday.abbreviation].
Definition class_constraints : list (constraint Class.t) :=
  [unique_c "classes.classoffering_id, classes.weekday_id, classes.time"
     (fun c => (Class.classoffering_id c, Class.weekday_id c, Class.time c))].
Definition registration_constraints : list (constraint Registration.t) :=
  [check_c "check_enddate" check_enddate;
   unique_c "registrations.class_id, registrations.member_id" class_member].

(** The CSV files, as [csv.reader] yields them. *)
Record csv_files := mkCsv {
  countries_csv : list (list string);
  cities_csv : list (list string);
  persons_csv : list (list string);
  members_csv : list (list string);
  employees_csv : list (list string);
  trainers_csv : list (list string);
  rooms_csv : list (list string);
  classtypes_csv : list (list string);
  classofferings_csv : list (list string);
  weekdays_csv : list (list string);
  classes_csv : list (list string);
  registrations_csv : list (list string) }.

(** The whole script after [drop_all]/[create_all]: parse every file, then
    commit the session. *)
Definition import_all (f : csv_files) : imp db :=
  cos <~ parse_rows country_of_row (countries_csv f) ;;
  cis <~ parse_rows city_of_row (cities_csv f) ;;
  pes <~ parse_rows person_of_row (persons_csv f) ;;
  mes <~ parse_rows member_of_row (members_csv f) ;;
  ems <~ parse_rows employee_of_row (employees_csv f) ;;
  trs <~ parse_rows trainer_of_row (trainers_csv f) ;;
  ros <~ parse_rows room_of_row (rooms_csv f) ;;
  cts <~ parse_rows classtype_of_row (classtypes_csv f) ;;
  ofs <~ parse_rows classoffering_of_row (classofferings_csv f) ;;
  wds <~ parse_rows weekday_of_row (weekdays_csv f) ;;
  cls <~ parse_rows class_of_row (classes_csv f) ;;
  rgs <~ parse_rows registration_of_row (registrations_csv f) ;;
  Some (
    countries <- insert_all country_constraints [] (number_from 1 cos) ;;
    cities <- insert_all city_constraints [] (number_from 1 cis) ;;
    persons <- insert_all person_constraints [] (number_from 1 pes) ;;
    members <- insert_all member_constraints [] (number_from 1 mes) ;;
    employees <- insert_all employee_constraints [] (number_from 1 ems) ;;
    trainers <- insert_all trainer_constraints [] (number_from 1 trs) ;;
    rooms <- insert_all room_constraints [] (number_from 1 ros) ;;
    classtypes <- insert_all classtype_constraints [] (number_from 1 cts) ;;
    classofferings <- insert_all classoffering_constraints [] (number_from 1 ofs) ;;
    weekdays <- insert_all weekday_constraints [] (number_from 1 wds) ;;
    classes <- insert_all class_constraints [] (number_from 1 cls) ;;
    registrations <- insert_all registration_constraints [] (number_from 1 rgs) ;;
    Ok (mkDb countries cities persons members employees trainers classtypes rooms
             classofferings classes weekdays registrations)).

(** ** The CSV files a database is written to

    One line per row, in the column order the import reads: the ids are
    left out (the import numbers the rows), integers as [str] writes
    them, dates and times in ISO format, a missing date as [NULL]. *)

(** The text of an optional date as the CSV files hold it. *)
Definition date_text (o : option date) : string :=
  match o with
  | None => "NULL"
  | Some dt => date_isoformat dt
  end.

Definition country_csv_row (c : Country.t) : list string :=
  [Country.name c; default "" (Country.abbreviation c); default "" (Country.code c)].
Definition city_csv_row (c : City.t) : list string :=
  [City.postcode c; City.name c; py_str (City.country_id c)].
Definition person_csv_row (p : Person.t) : list string :=
  [Person.surname p; Person.forename p; date_isoformat (Person.birthdate p); Person.street p;
   Person.housenumber p; py_str (Person.city_id p); default "" (Person.landline p);
   default "" (Person.mobile p); default "" (Person.email p); date_isoformat (Person.enterdate p);
   date_text (Person.leavedate p)].
Definition member_csv_row (m : Member.t) : list string := [py_str (Member.person_id m)].
Definition employee_csv_row (e : Employee.t) : list string := [py_str (Employee.person_id e)].
Definition trainer_csv_row (t : Trainer.t) : list string := [py_str (Trainer.employee_id t)].
Definition room_csv_row (r : Room.t) : list string := [Room.name r].
Definition classtype_csv_row (ct : ClassType.t) : list string :=
  [ClassType.name ct; py_str (ClassType.room_id ct); py_str (ClassType.maxparticipants ct)].
Definition classoffering_csv_row (o : ClassOffering.t) : list string :=
  [py_str (ClassOffering.classtype_id o); py_str (ClassOffering.trainer_id o)].
Definition weekday_csv_row (w : Weekday.t) : list string := [Weekday.name w; Weekday.abbreviation w].
Definition class_csv_row (c : Class.t) : list string :=
  [py_str (Class.classoffering_id c); py_str (Class.weekday_id c); time_isoformat (Class.time c)].
Definition registration_csv_row (r : Registration.t) : list string :=
  [py_str (Registration.class_id r); py_str (Registration.member_id r);
   date_isoformat (Registration.startdate r); date_text (Registration.enddate r)].

Definition export_csv (d : db) : csv_files := {|
  countries_csv := country_csv_row <$> countries d; cities_csv := city_csv_row <$> cities d;
  persons_csv := person_csv_row <$> persons d; members_csv := member_csv_row <$> members d;
  employees_csv := employee_csv_row <$> employees d; trainers_csv := trainer_csv_row <$> trainers d;
  rooms_csv := room_csv_row <$> rooms d; classtypes_csv := classtype_csv_row <$> classtypes d;
  classofferings_csv := classoffering_csv_row <$> classofferings d;
  weekdays_csv := weekday_csv_row <$> weekdays d; classes_csv := class_csv_row <$> classes d;
  registrations_csv := registration_csv_row <$> registrations d |}.

(** The rows of a table carry the ids [1, 2, ...] in order. *)
Definition numbered {R} `{Keyed R} (t : list R) : Prop := map row_id t = seqZ 1 (Z.of_nat (length t)).

Definition valid_opt_date (o : option date) : Prop :=
  match o with Some dt => valid_date dt | None => True end.

#[export] Instance valid_opt_date_dec o : Decision (valid_opt_date o).
Proof. destruct o; simpl; apply _. Defined.

(** The databases the import can produce: tables numbered from 1, the
    optional text columns the import always fills present, valid dates
    and times. *)
Definition importable (d : db) : Prop :=
  numbered (countries d) /\ numbered (cities d) /\ numbered (persons d) /\ numbered (members d) /\
  numbered (employees d) /\ numbered (trainers d) /\ numbered (rooms d) /\
  numbered (classtypes d) /\ numbered (classofferings d) /\ numbered (weekdays d) /\
  numbered (classes d) /\ numbered (registrations d) /\
  Forall (fun c => is_Some (Country.abbreviation c) /\ is_Some (Country.code c)) (countries d) /\
  Forall (fun p => valid_date (Person.birthdate p) /\ is_Some (Person.landline p) /\
                   is_Some (Person.mobile p) /\ is_Some (Person.email p) /\
                   valid_date (Person.enterdate p) /\ valid_opt_date (Person.leavedate p))
    (persons d) /\
  Forall (fun c => valid_time (Class.time c)) (classes d) /\
  Forall (fun r => valid_date (Registration.startdate r) /\ valid_opt_date (Registration.enddate r))
    (registrations d).

#[export] Instance importable_dec d : Decision (importable d).
Proof. unfold importable, numbered. apply _. Defined.

(** Column [i] of a CSV row holds a decimal numeral between 1 and [n]:
    a row number of a file of [n] rows, i.e. an id the import gives. *)
Definition cell_refers (row : list string) (i : nat) (n : nat) : Prop :=
  match row !! i ≫= sqlite_int with
  | Some z => 1 <= z <= Z.of_nat n
  | None => False
  end.

#[export] Instance cell_refers_dec row i n : Decision (cell_refers row i n).
Proof. unfold cell_refers. destruct (row !! i ≫= sqlite_int); apply _. Defined.

(** Every foreign-key column of the CSV files names a row of the file of
    the table it refers to, in the order of the foreign keys of
    [create_db.py]. *)
Definition csv_refs_ok (f : csv_files) : Prop :=
  Forall (fun row => cell_refers row 2 (length (countries_csv f))) (cities_csv f) /\
  Forall (fun row => cell_refers row 5 (length (cities_csv f))) (persons_csv f) /\
  Forall (fun row => cell_refers row 0 (length (persons_csv f))) (members_csv f) /\
  Forall (fun row => cell_refers row 0 (length (persons_csv f))) (employees_csv f) /\
  Forall (fun row => cell_refers row 0 (length (employees_csv f))) (trainers_csv f) /\
  Forall (fun row => cell_refers row 1 (length (rooms_csv f))) (classtypes_csv f) /\
  Forall (fun row => cell_refers row 0 (length (classtypes_csv f)) /\
                     cell_refers row 1 (length (trainers_csv f))) (classofferings_csv f) /\
  Forall (fun row => cell_refers row 0 (length (classofferings_csv f)) /\
                     cell_refers row 1 (length (weekdays_csv f))) (classes_csv f) /\
  Forall (fun row => cell_refers row 0 (length (classes_csv f)) /\
                     cell_refers row 1 (length (members_csv f))) (registrations_csv f).

#[export] Instance csv_refs_ok_dec f : Decision (csv_refs_ok f).
Proof. unfold csv_refs_ok. apply _. Defined.

(** ** Lemmas on parsing and inserting *)

Lemma imp_bind_Ok {A B} (c : imp A) (k : A -> imp B) r :
  imp_bind c k = Some (Ok r) -> exists a, c = Some (Ok a) /\ k a = Some (Ok r).
Proof. destruct c as [[a|e]|]; simpl; [eauto|discriminate|discriminate]. Qed.

Lemma imp_bind_None {A B} (c : imp A) (k : A -> imp B) :
  imp_bind c k = None -> c = None \/ exists a, c = Some (Ok a) /\ k a = None.
Proof. destruct c as [[a|e]|]; simpl; [eauto|discriminate|auto]. Qed.

(** Peel the binds of a successful computation into equations. *)
Ltac imp_inv :=
  repeat match goal with
  | H : imp_bind _ _ = Some (Ok _) |- _ =>
      let a := fresh "a" in
      let Ha := fresh "Ha" in
      apply imp_bind_Ok in H as (a & Ha & H)
  | H : bind _ _ = Ok _ |- _ =>
      let a := fresh "a" in
      let Ha := fresh "Ha" in
      apply bind_ok in H as (a & Ha & H)
  | H : imp_ret _ = Some (Ok _) |- _ => injection H as H; subst
  | H : Some _ = Some _ |- _ => injection H as H; subst
  | H : Ok _ = Ok _ |- _ => injection H as H; subst
  end.

(** Each row of a parsed file comes from its CSV row, in order. *)
Lemma parse_rows_lookup {R} (g : list string -> imp R) rows rs :
  parse_rows g rows = Some (Ok rs) ->
  length rs = length rows /\
  forall i row, rows !! i = Some row -> exists r, rs !! i = Some r /\ g row = Some (Ok r).
Proof.
  revert rs. induction rows as [|row rows IH]; intros rs H; simpl in H; imp_inv.
  - split; [done|]. intros i row' Hi. by rewrite lookup_nil in Hi.
  - destruct (IH _ Ha0) as [Hlen Hl]. split; [simpl; lia|].
    intros [|i] row' Hi; simpl in Hi; [injection Hi as <-; eauto|by apply Hl].
Qed.

Lemma parse_rows_Forall {R} (g : list string -> imp R) rows rs :
  parse_rows g rows = Some (Ok rs) -> Forall (fun r => exists row, g row = Some (Ok r)) rs.
Proof.
  revert rs. induction rows as [|row rows IH]; intros rs H; simpl in H; imp_inv; [done|].
  constructor; eauto.
Qed.

Lemma number_from_lookup {R} (fs : list (Z -> R)) n i f :
  fs !! i = Some f -> number_from n fs !! i = Some (f (n + Z.of_nat i)).
Proof.
  revert n i. induction fs as [|g fs IH]; intros n [|i] Hi; simpl in *; try discriminate.
  - injection Hi as <-. by rewrite Z.add_0_r.
  - rewrite (IH (n + 1) i Hi). do 2 f_equal. lia.
Qed.

Lemma Forall_number_from {R} (P : R -> Prop) (fs : list (Z -> R)) n :
  Forall (fun f => forall i, P (f i)) fs -> Forall P (number_from n fs).
Proof.
  revert n. induction fs as [|f fs IH]; intros n H; simpl; [done|].
  inversion_clear H. constructor; auto.
Qed.

(** The rows numbered from [n] carry the ids [n, n+1, ...]. *)
Lemma number_from_ids {R} (key : R -> Z) (fs : list (Z -> R)) n :
  Forall (fun f => forall i, key (f i) = i) fs -> map key (number_from n fs) = seqZ n (Z.of_nat (length fs)).
Proof.
  revert n. induction fs as [|f fs IH]; intros n H; [done|]. inversion_clear H.
  simpl. rewrite seqZ_cons by lia. rewrite H0, IH by done. do 2 f_equal. lia.
Qed.

Lemma first_violation_None {R} cs prev (r : R) :
  first_violation cs prev r = None -> forall msg v, (msg, v) ∈ cs -> v prev r = false.
Proof.
  induction cs as [|[m w] cs IH]; simpl; [intros _ ? ? []%not_elem_of_nil|].
  destruct (w prev r) eqn:Hw; [discriminate|].
  intros H msg v [Heq|Hin]%elem_of_cons.
  - injection Heq as -> ->. exact Hw.
  - exact (IH H msg v Hin).
Qed.

(** ** Reading back what [str] writes *)

Lemma uint_digits_only u : digits_only (NilEmpty.string_of_uint u) = true.
Proof. induction u; [done|..]; cbn [NilEmpty.string_of_uint digits_only]; by rewrite IHu. Qed.

Lemma uint_value_acc u acc :
  Z.pos (Pos.of_uint_acc u acc) = digits_value_acc (Z.pos acc) (NilEmpty.string_of_uint u).
Proof. revert acc. induction u; intros acc; simpl; [done|..]; rewrite IHu; f_equal;
  unfold digit_value; simpl N_of_ascii; lia.
Qed.

Lemma uint_value u : Z.of_N (Pos.of_uint u) = digits_value (NilEmpty.string_of_uint u).
Proof.
  unfold digits_value. induction u; simpl; [done|exact IHu|..];
    rewrite uint_value_acc; f_equal; unfold digit_value; simpl N_of_ascii; lia.
Qed.

(** SQLite's INTEGER affinity reads back the text Python's [str] gives an
    int. *)
Lemma sqlite_int_py_str z : sqlite_int (py_str z) = Some z.
Proof.
  transitivity (Some (Z.of_int (Z.to_int z))); [|by rewrite DecimalZ.of_to].
  unfold py_str. destruct (to_int_nonnil z) as [H1 H2].
  pose proof uint_value as Hv. pose proof uint_digits_only as Hd.
  destruct (Z.to_int z) as [u|u]; simpl; unfold Z.of_uint; rewrite Hv;
    (destruct u; [congruence|..]); simpl; rewrite ?Hd; reflexivity.
Qed.

Lemma field_ok row i s : row !! i = Some s -> field row i = Some (Ok s).
Proof. unfold field, py_index. by intros ->. Qed.

Lemma int_field_ok row i z : row !! i = Some (py_str z) -> int_field row i = Some (Ok z).
Proof. intros H. unfold int_field. rewrite (field_ok _ _ _ H). simpl. by rewrite sqlite_int_py_str. Qed.

Lemma date_field_ok row i dt :
  row !! i = Some (date_isoformat dt) -> valid_date dt -> date_field row i = Some (Ok dt).
Proof. intros H Hv. unfold date_field. rewrite (field_ok _ _ _ H). simpl. by rewrite strptime_date_isoformat. Qed.

Lemma time_field_ok row i t :
  row !! i = Some (time_isoformat t) -> valid_time t -> time_field row i = Some (Ok t).
Proof. intros H Hv. unfold time_field. rewrite (field_ok _ _ _ H). simpl. by rewrite strptime_time_isoformat. Qed.

Lemma first_violation_None_2 {R} (cs : list (constraint R)) prev r :
  Forall (fun c => snd c prev r = false) cs -> first_violation cs prev r = None.
Proof. induction 1 as [|[m v] cs Hv _ IH]; simpl in *; [done|]. by rewrite Hv. Qed.

(** The INSERTs of rows that break none of the constraints all succeed. *)
Lemma insert_all_accepts {R} (cs : list (constraint R)) prev rows :
  Forall (fun c => forall l1 r l2, rows = l1 ++ r :: l2 -> snd c (prev ++ l1) r = false) cs ->
  insert_all cs prev rows = Ok (prev ++ rows).
Proof.
  revert prev. induction rows as [|r rows IH]; intros prev Hcs; simpl; [by rewrite app_nil_r|].
  rewrite first_violation_None_2.
  - rewrite IH, <- app_assoc; [done|]. eapply Forall_impl; [exact Hcs|].
    intros c Hc l1 r' l2 ->. rewrite <- app_assoc. by apply (Hc (r :: l1) r' l2).
  - eapply Forall_impl; [exact Hcs|]. intros c Hc. rewrite <- (app_nil_r prev). by apply (Hc [] r rows).
Qed.

Lemma unique_c_holds {R A} `{EqDecision A} cols (f : R -> A) t :
  unique f t -> forall l1 r l2, t = l1 ++ r :: l2 -> snd (unique_c cols f) ([] ++ l1) r = false.
Proof.
  unfold unique. intros Hnd l1 r l2 ->. simpl. apply bool_decide_eq_false. intros Hin.
  rewrite map_app in Hnd. apply NoDup_app in Hnd as (_ & Hd & _).
  apply (Hd (f r)); [done|]. apply list_elem_of_here.
Qed.

Lemma unique_null_c_holds {R A} `{EqDecision A} cols (f : R -> option A) t :
  unique_nullable f t -> forall l1 r l2, t = l1 ++ r :: l2 -> snd (unique_null_c cols f) ([] ++ l1) r = false.
Proof.
  unfold unique_nullable. intros Hnd l1 r l2 ->. simpl. destruct (f r) as [a|] eqn:Hfr; [|done].
  apply bool_decide_eq_false. intros Hin.
  rewrite omap_app in Hnd. apply NoDup_app in Hnd as (_ & Hd & _).
  apply (Hd a); [done|]. simpl. rewrite Hfr. apply list_elem_of_here.
Qed.

Lemma check_c_holds {R} name (ok : R -> Prop) `{forall r, Decision (ok r)} t :
  Forall ok t -> forall l1 r l2, t = l1 ++ r :: l2 -> snd (check_c name ok) ([] ++ l1) r = false.
Proof.
  intros Hall l1 r l2 ->. simpl. apply Forall_app in Hall as [_ Hr%Forall_cons].
  rewrite bool_decide_true; [done|]. apply Hr.
Qed.

(** Each table satisfying its constraints is inserted as it is. *)
Ltac table_accepted :=
  apply (insert_all_accepts _ []);
  repeat (constructor; [first [eapply unique_c_holds | eapply unique_null_c_holds
                               | eapply check_c_holds]; eassumption|]);
  constructor.

(** Rows written by [exp] and numbered from [n] are parsed back. *)
Lemma parse_rows_export {R} `{Keyed R} (g : list string -> imp (Z -> R)) (exp : R -> list string)
    (t : list R) n :
  (forall r, r ∈ t -> exists f, g (exp r) = Some (Ok f) /\ f (row_id r) = r) ->
  map row_id t = seqZ n (Z.of_nat (length t)) ->
  exists fs, parse_rows g (exp <$> t) = Some (Ok fs) /\ number_from n fs = t.
Proof.
  revert n. induction t as [|r t IH]; intros n Hg Hids; [by exists []|].
  rewrite length_cons, Nat2Z.inj_succ, seqZ_cons in Hids by lia.
  injection Hids as Hr Hids. rewrite Z.pred_succ in Hids.
  destruct (Hg r (list_elem_of_here _ _)) as (f & Hf & Hfr).
  destruct (IH (Z.succ n)) as (fs & Hp & Hn); [intros; apply Hg; by apply list_elem_of_further|done|].
  exists (f :: fs). csimpl. rewrite Hf. simpl. rewrite Hp. simpl. split; [done|].
  change (n + 1) with (Z.succ n). rewrite Hn, <- Hr, Hfr. done.
Qed.

(** What every INSERT of [insert_all] checked holds of the whole table. *)
Lemma insert_all_inv {R} (P : list R -> Prop) cs msg v prev rows out :
  (msg, v) ∈ cs -> (forall l r, P l -> v l r = false -> P (l ++ [r])) ->
  P prev -> insert_all cs prev rows = Ok out -> P out.
Proof.
  intros Hc Hstep. revert prev. induction rows as [|r rows IH]; intros prev Hp; simpl.
  - by intros [= <-].
  - destruct (first_violation cs prev r) eqn:Hf; [discriminate|].
    apply IH, Hstep; [done|]. by apply (first_violation_None cs prev r Hf msg).
Qed.

Lemma insert_all_Ok {R} cs (prev rows out : list R) :
  insert_all cs prev rows = Ok out -> out = prev ++ rows.
Proof.
  revert prev. induction rows as [|r rows IH]; intros prev; simpl.
  - intros [= <-]. by rewrite app_nil_r.
  - destruct (first_violation cs prev r); [discriminate|].
    intros ->%IH. by rewrite <- app_assoc.
Qed.

Lemma insert_all_unique {R A} `{EqDecision A} cs cols (f : R -> A) rows out :
  unique_c cols f ∈ cs -> insert_all cs [] rows = Ok out -> unique f out.
Proof.
  intros Hc. apply (insert_all_inv (unique f) cs _ _ [] rows out Hc); [|constructor].
  intros l r Hl Hv%bool_decide_eq_false. unfold unique in *. rewrite map_app.
  apply NoDup_app. split; [done|]. split; [|apply NoDup_singleton].
  intros x Hx ->%list_elem_of_singleton. by apply Hv.
Qed.

Lemma insert_all_unique_null {R A} `{EqDecision A} cs cols (f : R -> option A) rows out :
  unique_null_c cols f ∈ cs -> insert_all cs [] rows = Ok out -> unique_nullable f out.
Proof.
  intros Hc. apply (insert_all_inv (unique_nullable f) cs _ _ [] rows out Hc); [|constructor].
  intros l r Hl Hv. unfold unique_nullable in *. rewrite omap_app. simpl.
  destruct (f r) as [a|] eqn:Hfr; [|by rewrite app_nil_r].
  apply bool_decide_eq_false in Hv. apply NoDup_app. split; [done|].
  split; [|apply NoDup_singleton]. intros x Hx ->%list_elem_of_singleton. by apply Hv.
Qed.

Lemma insert_all_check {R} cs name (ok : R -> Prop) `{forall r, Decision (ok r)} rows out :
  check_c name ok ∈ cs -> insert_all cs [] rows = Ok out -> Forall ok out.
Proof.
  intros Hc. apply (insert_all_inv (Forall ok) cs _ _ [] rows out Hc); [|constructor].
  intros l r Hl Hv%negb_false_iff%bool_decide_eq_true. apply Forall_app. auto.
Qed.

(** A table numbered from 1 and inserted has distinct ids. *)
Lemma insert_all_pk {R} `{Keyed R} cs (fs : list (Z -> R)) out :
  Forall (fun f => forall i, row_id (f i) = i) fs ->
  insert_all cs [] (number_from 1 fs) = Ok out -> pk out.
Proof.
  intros Hids ->%insert_all_Ok. unfold pk. simpl.
  rewrite (number_from_ids row_id fs 1 Hids). apply NoDup_seqZ.
Qed.

(** Every row built from a CSV row carries the id it is given. *)
Definition builds_ids {R} `{Keyed R} (g : list string -> imp (Z -> R)) : Prop :=
  forall row f, g row = Some (Ok f) -> forall i, row_id (f i) = i.

Ltac builder_ids := intros row f H i; cbv [country_of_row city_of_row person_of_row
  member_of_row employee_of_row trainer_of_row room_of_row classtype_of_row
  classoffering_of_row weekday_of_row class_of_row registration_of_row] in H; imp_inv; reflexivity.

Lemma country_ids : builds_ids country_of_row. Proof. builder_ids. Qed.
Lemma city_ids : builds_ids city_of_row. Proof. builder_ids. Qed.
Lemma person_ids : builds_ids person_of_row. Proof. builder_ids. Qed.
Lemma member_ids : builds_ids member_of_row. Proof. builder_ids. Qed.
Lemma employee_ids : builds_ids employee_of_row. Proof. builder_ids. Qed.
Lemma trainer_ids : builds_ids trainer_of_row. Proof. builder_ids. Qed.
Lemma room_ids : builds_ids room_of_row. Proof. builder_ids. Qed.
Lemma classtype_ids : builds_ids classtype_of_row. Proof. builder_ids. Qed.
Lemma classoffering_ids : builds_ids classoffering_of_row. Proof. builder_ids. Qed.
Lemma weekday_ids : builds_ids weekday_of_row. Proof. builder_ids. Qed.
Lemma class_ids : builds_ids class_of_row. Proof. builder_ids. Qed.
Lemma registration_ids : builds_ids registration_of_row. Proof. builder_ids. Qed.

#[export] Hint Resolve country_ids city_ids person_ids member_ids employee_ids trainer_ids
  room_ids classtype_ids classoffering_ids weekday_ids class_ids registration_ids : gym.

Lemma parse_pk {R} `{Keyed R} (g : list string -> imp (Z -> R)) rows fs cs out :
  builds_ids g -> parse_rows g rows = Some (Ok fs) ->
  insert_all cs [] (number_from 1 fs) = Ok out -> pk out.
Proof.
  intros Hg Hp. apply insert_all_pk. eapply Forall_impl; [by apply parse_rows_Forall in Hp|].
  intros f (row & Hrow). by apply (Hg row).
Qed.

(** One goal of [constraints_ok] after [import_all]: a primary key, a
    UNIQUE or a CHECK of a table, from the INSERTs that built it. *)
Ltac import_constraint :=
  match goal with
  | Hi : insert_all _ [] (number_from 1 ?fs) = Ok ?out, Hp : parse_rows _ _ = Some (Ok ?fs)
    |- pk ?out => eapply parse_pk; [eauto with gym|exact Hp|exact Hi]
  | Hi : insert_all _ [] _ = Ok ?out |- unique _ ?out =>
      eapply insert_all_unique; [|exact Hi]; repeat (apply list_elem_of_here || apply list_elem_of_further)
  | Hi : insert_all _ [] _ = Ok ?out |- unique_nullable _ ?out =>
      eapply insert_all_unique_null; [|exact Hi]; repeat (apply list_elem_of_here || apply list_elem_of_further)
  | Hi : insert_all _ [] _ = Ok ?out |- Forall _ ?out =>
      eapply insert_all_check; [|exact Hi]; repeat (apply list_elem_of_here || apply list_elem_of_further)
  end.

(** A database the import commits satisfies every constraint SQLite
    enforces: primary keys, UNIQUE columns and constraints, and the two
    CHECK constraints. *)
Lemma import_all_constraints f d : import_all f = Some (Ok d) -> constraints_ok d.
Proof.
  unfold import_all. intros H. imp_inv.
  unfold constraints_ok, static_ok, persons_ok, registrations_ok. simpl.
  repeat split; import_constraint.
Qed.

(** ** The tables the import builds *)

Lemma import_all_tables f d :
  import_all f = Some (Ok d) ->
  (exists fs, parse_rows person_of_row (persons_csv f) = Some (Ok fs) /\
              insert_all person_constraints [] (number_from 1 fs) = Ok (persons d)) /\
  (exists fs, parse_rows class_of_row (classes_csv f) = Some (Ok fs) /\
              insert_all class_constraints [] (number_from 1 fs) = Ok (classes d)) /\
  (exists fs, parse_rows registration_of_row (registrations_csv f) = Some (Ok fs) /\
              insert_all registration_constraints [] (number_from 1 fs) = Ok (registrations d)).
Proof. unfold import_all. intros H. imp_inv. simpl. eauto 10. Qed.

Lemma person_of_row_email row g s :
  person_of_row row = Some (Ok g) -> row !! 8%nat = Some s -> forall i, Person.email (g i) = Some s.
Proof.
  unfold person_of_row. intros H Hs i. imp_inv.
  unfold field, py_index in Ha7. rewrite Hs in Ha7. by injection Ha7 as <-.
Qed.

Lemma length_number_from {R} (fs : list (Z -> R)) n : length (number_from n fs) = length fs.
Proof. revert n. induction fs; intros n; simpl; auto. Qed.

(** In a list whose non-NULL values are distinct, two rows with the
    same value are the same row. *)
Lemma NoDup_omap_lookup {A B} (f : A -> option B) l i j a b x :
  NoDup (omap f l) -> l !! i = Some a -> l !! j = Some b -> f a = Some x -> f b = Some x -> i = j.
Proof.
  revert i j. induction l as [|c l IH]; intros i j Hnd Hi Hj Ha Hb; [by rewrite lookup_nil in Hi|].
  simpl in Hnd. destruct i as [|i], j as [|j]; simpl in Hi, Hj; try done.
  - injection Hi as ->. rewrite Ha in Hnd. apply NoDup_cons in Hnd as [Hn _].
    exfalso. apply Hn. apply list_elem_of_omap. exists b. split; [|done].
    by apply list_elem_of_lookup_2 with j.
  - injection Hj as ->. rewrite Hb in Hnd. apply NoDup_cons in Hnd as [Hn _].
    exfalso. apply Hn. apply list_elem_of_omap. exists a. split; [|done].
    by apply list_elem_of_lookup_2 with i.
  - f_equal. apply (IH i j); try done. destruct (f c); [by apply NoDup_cons in Hnd as [_ ?]|done].
Qed.

Lemma date_isoformat_not_null dt : valid_date dt -> date_isoformat dt <> "" /\ date_isoformat dt <> "NULL".
Proof.
  intros (Hy & _). destruct (year_digits (year dt) Hy) as [H4 _].
  unfold date_isoformat. destruct (pad_zeros 4 (py_str (year dt))) as [|a [|b [|c [|e [|]]]]];
    try discriminate H4. simpl in H4.
  split; [discriminate|]. intros [=].
Qed.

(** The import reads back an optional date written as [date_text]. *)
Lemma null_date_field_ok row i o :
  row !! i = Some (date_text o) -> valid_opt_date o -> null_date_field row i = Some (Ok o).
Proof.
  intros Hrow Hv. unfold null_date_field, field, py_index. rewrite Hrow. cbn [imp_bind].
  destruct o as [dt|]; cbn [date_text].
  - destruct (date_isoformat_not_null dt Hv).
    rewrite bool_decide_true by tauto. by rewrite strptime_date_isoformat by auto.
  - by rewrite bool_decide_false by tauto.
Qed.

(** Reads the fields of a row written by the [*_csv_row] functions. *)
Ltac read_fields :=
  repeat first [ erewrite int_field_ok by reflexivity
               | erewrite date_field_ok by (reflexivity || eassumption)
               | erewrite time_field_ok by (reflexivity || eassumption)
               | erewrite null_date_field_ok by (reflexivity || eassumption) ];
  cbn; eexists; split; [reflexivity|].

Lemma country_csv_roundtrip c :
  is_Some (Country.abbreviation c) /\ is_Some (Country.code c) ->
  exists f, country_of_row (country_csv_row c) = Some (Ok f) /\ f (Country.id c) = c.
Proof. intros [[a Ha] [k Hk]]. unfold country_of_row. read_fields. destruct c; simpl in *; by subst. Qed.

Lemma city_csv_roundtrip c : exists f, city_of_row (city_csv_row c) = Some (Ok f) /\ f (City.id c) = c.
Proof. unfold city_of_row. read_fields. by destruct c. Qed.

Lemma person_csv_roundtrip p :
  valid_date (Person.birthdate p) /\ is_Some (Person.landline p) /\ is_Some (Person.mobile p) /\
  is_Some (Person.email p) /\ valid_date (Person.enterdate p) /\ valid_opt_date (Person.leavedate p) ->
  exists f, person_of_row (person_csv_row p) = Some (Ok f) /\ f (Person.id p) = p.
Proof.
  intros (Hb & [l Hl] & [m Hm] & [e He] & Hen & Hlv). unfold person_of_row. read_fields.
  destruct p; simpl in *; by subst.
Qed.

Lemma member_csv_roundtrip m : exists f, member_of_row (member_csv_row m) = Some (Ok f) /\ f (Member.id m) = m.
Proof. unfold member_of_row. read_fields. by destruct m. Qed.

Lemma employee_csv_roundtrip e :
  exists f, employee_of_row (employee_csv_row e) = Some (Ok f) /\ f (Employee.id e) = e.
Proof. unfold employee_of_row. read_fields. by destruct e. Qed.

Lemma trainer_csv_roundtrip t :
  exists f, trainer_of_row (trainer_csv_row t) = Some (Ok f) /\ f (Trainer.id t) = t.
Proof. unfold trainer_of_row. read_fields. by destruct t. Qed.

Lemma room_csv_roundtrip r : exists f, room_of_row (room_csv_row r) = Some (Ok f) /\ f (Room.id r) = r.
Proof. unfold room_of_row. read_fields. by destruct r. Qed.

Lemma classtype_csv_roundtrip ct :
  exists f, classtype_of_row (classtype_csv_row ct) = Some (Ok f) /\ f (ClassType.id ct) = ct.
Proof. unfold classtype_of_row. read_fields. by destruct ct. Qed.

Lemma classoffering_csv_roundtrip o :
  exists f, classoffering_of_row (classoffering_csv_row o) = Some (Ok f) /\ f (ClassOffering.id o) = o.
Proof. unfold classoffering_of_row. read_fields. by destruct o. Qed.

Lemma weekday_csv_roundtrip w :
  exists f, weekday_of_row (weekday_csv_row w) = Some (Ok f) /\ f (Weekday.id w) = w.
Proof. unfold weekday_of_row. read_fields. by destruct w. Qed.

Lemma class_csv_roundtrip c :
  valid_time (Class.time c) -> exists f, class_of_row (class_csv_row c) = Some (Ok f) /\ f (Class.id c) = c.
Proof. intros Ht. unfold class_of_row. read_fields. by destruct c. Qed.

Lemma registration_csv_roundtrip r :
  valid_date (Registration.startdate r) /\ valid_opt_date (Registration.enddate r) ->
  exists f, registration_of_row (registration_csv_row r) = Some (Ok f) /\ f (Registration.id r) = r.
Proof. intros [Hs He]. unfold registration_of_row. read_fields. by destruct r. Qed.

(** C35: an optional date written as the CSV files write it (ISO text, or
    [NULL] for none) is read back by the import's
    [strptime(...).date() if row[i] and row[i] != 'NULL' else None] as the
    same value. *)
Theorem null_date_field_roundtrip row i o :
  (forall dt, o = Some dt -> valid_date dt) -> row !! i = Some (date_text o) ->
  null_date_field row i = Some (Ok o).
Proof.
  intros Hv Hrow. apply null_date_field_ok; [done|]. destruct o as [dt|]; [by apply Hv|done].
Qed.

(** C36: a database the import can commit (its tables numbered from 1,
    the optional text columns present, its dates and times valid) and
    that satisfies the constraints SQLite enforces is read back unchanged
    from its CSV files: every column is read from the position it is
    written to, ids are given in row order, and no INSERT is refused. *)
Theorem import_all_export d :
  constraints_ok d -> importable d -> import_all (export_csv d) = Some (Ok d).
Proof.
  intros ((? & ? & ? & ? & ? & ? & ? & ? & ? & ? & ? & ? & ? & ? & ? & ? & ? & ? & ? & ? & ? & ? & ?)
          & (? & ? & ? & ?) & (? & ? & ?))
         (N1 & N2 & N3 & N4 & N5 & N6 & N7 & N8 & N9 & N10 & N11 & N12 & Hco & Hpe & Hcl & Hrg).
  rewrite Forall_forall in Hco; rewrite Forall_forall in Hpe;
  rewrite Forall_forall in Hcl; rewrite Forall_forall in Hrg.
  destruct (parse_rows_export country_of_row country_csv_row (countries d) 1) as (fco & P1 & E1);
    [intros; by apply country_csv_roundtrip, Hco|done|].
  destruct (parse_rows_export city_of_row city_csv_row (cities d) 1) as (fci & P2 & E2);
    [intros; apply city_csv_roundtrip|done|].
  destruct (parse_rows_export person_of_row person_csv_row (persons d) 1) as (fpe & P3 & E3);
    [intros; by apply person_csv_roundtrip, Hpe|done|].
  destruct (parse_rows_export member_of_row member_csv_row (members d) 1) as (fme & P4 & E4);
    [intros; apply member_csv_roundtrip|done|].
  destruct (parse_rows_export employee_of_row employee_csv_row (employees d) 1) as (fem & P5 & E5);
    [intros; apply employee_csv_roundtrip|done|].
  destruct (parse_rows_export trainer_of_row trainer_csv_row (trainers d) 1) as (ftr & P6 & E6);
    [intros; apply trainer_csv_roundtrip|done|].
  destruct (parse_rows_export room_of_row room_csv_row (rooms d) 1) as (fro & P7 & E7);
    [intros; apply room_csv_roundtrip|done|].
  destruct (parse_rows_export classtype_of_row classtype_csv_row (classtypes d) 1) as (fct & P8 & E8);
    [intros; apply classtype_csv_roundtrip|done|].
  destruct (parse_rows_export classoffering_of_row classoffering_csv_row (classofferings d) 1)
    as (fof & P9 & E9); [intros; apply classoffering_csv_roundtrip|done|].
  destruct (parse_rows_export weekday_of_row weekday_csv_row (weekdays d) 1) as (fwd & P10 & E10);
    [intros; apply weekday_csv_roundtrip|done|].
  destruct (parse_rows_export class_of_row class_csv_row (classes d) 1) as (fcl & P11 & E11);
    [intros; by apply class_csv_roundtrip, Hcl|done|].
  destruct (parse_rows_export registration_of_row registration_csv_row (registrations d) 1)
    as (frg & P12 & E12); [intros; by apply registration_csv_roundtrip, Hrg|done|].
  unfold import_all, export_csv. cbn [countries_csv cities_csv persons_csv members_csv employees_csv
    trainers_csv rooms_csv classtypes_csv classofferings_csv weekdays_csv classes_csv registrations_csv].
  rewrite P1, P2, P3, P4, P5, P6, P7, P8, P9, P10, P11, P12. cbn [imp_bind].
  rewrite E1, E2, E3, E4, E5, E6, E7, E8, E9, E10, E11, E12.
  assert (I1 : insert_all country_constraints [] (countries d) = Ok (countries d)) by table_accepted.
  assert (I2 : insert_all city_constraints [] (cities d) = Ok (cities d)) by table_accepted.
  assert (I3 : insert_all person_constraints [] (persons d) = Ok (persons d)) by table_accepted.
  assert (I4 : insert_all member_constraints [] (members d) = Ok (members d)) by table_accepted.
  assert (I5 : insert_all employee_constraints [] (employees d) = Ok (employees d)) by table_accepted.
  assert (I6 : insert_all trainer_constraints [] (trainers d) = Ok (trainers d)) by table_accepted.
  assert (I7 : insert_all room_constraints [] (rooms d) = Ok (rooms d)) by table_accepted.
  assert (I8 : insert_all classtype_constraints [] (classtypes d) = Ok (classtypes d)) by table_accepted.
  assert (I9 : insert_all classoffering_constraints [] (classofferings d) = Ok (classofferings d))
    by table_accepted.
  assert (I10 : insert_all weekday_constraints [] (weekdays d) = Ok (weekdays d)) by table_accepted.
  assert (I11 : insert_all class_constraints [] (classes d) = Ok (classes d)) by table_accepted.
  assert (I12 : insert_all registration_constraints [] (registrations d) = Ok (registrations d))
    by table_accepted.
  rewrite I1, I2, I3, I4, I5, I6, I7, I8, I9, I10, I11, I12. by destruct d.
Qed.

Lemma int_field_cell row i z : int_field row i = Some (Ok z) -> row !! i ≫= sqlite_int = Some z.
Proof.
  unfold int_field, field, py_index. destruct (row !! i); simpl; [|discriminate].
  destruct (sqlite_int s); simpl; congruence.
Qed.

(** A property of each imported row is one of its CSV line. *)
Lemma import_forall_iff {R} (g : list string -> imp (Z -> R)) (P : R -> Prop)
    (Q : list string -> Prop) rows fs n :
  parse_rows g rows = Some (Ok fs) ->
  (forall row h, g row = Some (Ok h) -> forall id, P (h id) <-> Q row) ->
  Forall P (number_from n fs) <-> Forall Q rows.
Proof.
  intros Hp Hg. revert fs n Hp. induction rows as [|row rows IH]; intros fs n Hp; simpl in Hp; imp_inv;
    simpl; [split; constructor|].
  rewrite !Forall_cons, (Hg row a Ha n), (IH _ (n + 1) Ha0). done.
Qed.

(** An id refers to an imported table exactly when it is one of its row
    numbers. *)
Lemma refers_imported {R} `{Keyed R} (g : list string -> imp (Z -> R)) rows fs x :
  builds_ids g -> parse_rows g rows = Some (Ok fs) ->
  refers (number_from 1 fs) x <-> 1 <= x <= Z.of_nat (length rows).
Proof.
  intros Hg Hp. destruct (parse_rows_lookup _ _ _ Hp) as [Hlen _]. unfold refers.
  rewrite (number_from_ids row_id fs 1), elem_of_seqZ, Hlen; [lia|].
  eapply Forall_impl; [by apply parse_rows_Forall in Hp|]. intros f (row & Hrow). by apply (Hg row).
Qed.

Lemma cell_refers_col {R} `{Keyed R} (g : list string -> imp (Z -> R)) rows fs row i z :
  builds_ids g -> parse_rows g rows = Some (Ok fs) -> row !! i ≫= sqlite_int = Some z ->
  refers (number_from 1 fs) z <-> cell_refers row i (length rows).
Proof. intros Hg Hp Hz. unfold cell_refers. rewrite Hz. by apply (refers_imported g). Qed.

Lemma iff_and (A B C D : Prop) : (A <-> C) -> (B <-> D) -> (A /\ B <-> C /\ D).
Proof. tauto. Qed.

(** A foreign-key column of an imported table against the CSV line its
    builder read. *)
Ltac fk_column Hh :=
  eapply cell_refers_col; [|eassumption|]; [eauto with gym|];
  cbv [city_of_row person_of_row member_of_row employee_of_row trainer_of_row classtype_of_row
       classoffering_of_row class_of_row registration_of_row] in Hh;
  imp_inv; simpl; by apply int_field_cell.

(** C37: the database the import commits has referential integrity
    exactly when every foreign-key column of the CSV files holds the row
    number of a line of the file of the table it refers to (SQLite does
    not check foreign keys: the import commits dangling references
    silently). *)
Theorem import_all_fk f d : import_all f = Some (Ok d) -> fk_ok d <-> csv_refs_ok f.
Proof.
  unfold import_all. intros H. imp_inv.
  repeat match goal with Hi : insert_all _ [] _ = Ok _ |- _ =>
    apply insert_all_Ok in Hi; simpl in Hi; subst end.
  unfold fk_ok, fk_static, fk_registrations, csv_refs_ok. cbn [cities countries persons members
    employees trainers rooms classtypes classofferings weekdays classes registrations].
  repeat rewrite Logic.and_assoc. repeat apply iff_and;
    (eapply import_forall_iff; [eassumption|]); intros row h Hh id; repeat apply iff_and; fk_column Hh.
Qed.


(** C38: the import stores an empty email field as the empty string, not
    as NULL, so two persons rows with an empty email make the commit fail
    on the UNIQUE constraint of [persons.email]: no database is
    imported. *)
Theorem import_all_empty_emails f i j row1 row2 :
  i <> j -> persons_csv f !! i = Some row1 -> persons_csv f !! j = Some row2 ->
  row1 !! 8%nat = Some "" -> row2 !! 8%nat = Some "" ->
  forall d, import_all f <> Some (Ok d).
Proof.
  intros Hij H1 H2 He1 He2 d ((fp & Hp & Hip) & _)%import_all_tables.
  pose proof (insert_all_unique_null _ _ Person.email _ _ (ltac:(right; right; left)) Hip) as Hu.
  apply insert_all_Ok in Hip. simpl in Hip. rewrite Hip in Hu.
  destruct (parse_rows_lookup _ _ _ Hp) as [_ Hl].
  destruct (Hl i row1 H1) as (g1 & Hg1 & Hb1). destruct (Hl j row2 H2) as (g2 & Hg2 & Hb2).
  apply Hij, (NoDup_omap_lookup Person.email _ i j (g1 (1 + Z.of_nat i)) (g2 (1 + Z.of_nat j)) "" Hu);
    [by apply number_from_lookup|by apply number_from_lookup|..];
    eapply person_of_row_email; eauto.
Qed.

(** The [i]-th row of persons.csv becomes the person with id [i + 1],
    built from that row, and the table has one person per row. *)
Theorem import_all_persons f d :
  import_all f = Some (Ok d) ->
  length (persons d) = length (persons_csv f) /\
  forall i row, persons_csv f !! i = Some row ->
    exists g, person_of_row row = Some (Ok g) /\ persons d !! i = Some (g (1 + Z.of_nat i)).
Proof.
  intros ((fp & Hp & Hip) & _)%import_all_tables. apply insert_all_Ok in Hip. simpl in Hip.
  destruct (parse_rows_lookup _ _ _ Hp) as [Hlen Hl]. rewrite Hip.
  split; [by rewrite length_number_from|].
  intros i row Hrow. destruct (Hl i row Hrow) as (g & Hg & Hb). exists g. split; [done|].
  by apply number_from_lookup.
Qed.

(** ** A concrete import *)

Definition person_row (sn fn mobile email enter leave : string) : list string :=
  [sn; fn; "1990-01-01"; "Main Street"; "1"; "1"; ""; mobile; email; enter; leave].

Definition cara_row := person_row "Wolf" "Cara" "0151 3" "cara@example.org" "2022-05-20" "2023-02-01".

(** The files of the gym of [Fixture], with distinct mobiles and emails. *)
Definition sample_csv : csv_files := {|
  countries_csv := [["Germany"; "DE"; "+49"]];
  cities_csv := [["10115"; "Berlin"; "1"]];
  persons_csv :=
    [person_row "Meier" "Anna" "0151 1" "anna@example.org" "2021-01-10" "NULL";
     person_row "Schulz" "Ben" "0151 2" "ben@example.org" "2021-03-01" "";
     cara_row;
     person_row "Braun" "Dana" "0151 4" "dana@example.org" "2021-01-10" "NULL"];
  members_csv := [["1"]; ["2"]; ["3"]];
  employees_csv := [["2"]; ["4"]];
  trainers_csv := [["1"]; ["2"]];
  rooms_csv := [["Studio"]; ["Bike Room"]];
  classtypes_csv := [["Yoga"; "1"; "2"]; ["Spinning"; "2"; "1"]];
  classofferings_csv := [["1"; "1"]; ["2"; "2"]];
  weekdays_csv := [["Monday"; "Mo"]; ["Tuesday"; "Tu"]; ["Wednesday"; "We"]];
  classes_csv := [["1"; "1"; "09:00:00"]; ["1"; "3"; "18:00:00"]; ["2"; "1"; "18:00:00"]];
  registrations_csv := [["1"; "1"; "2021-03-01"; "NULL"]; ["3"; "2"; "2021-03-01"; ""]] |}.

Definition sample_import : db :=
  match import_all sample_csv with
  | Some (Ok d) => d
  | _ => sample_db
  end.

(** The same files where Anna and Ben left their email empty. *)
Definition anna_row_no_email :=
  person_row "Meier" "Anna" "0151 1" "" "2021-01-10" "NULL".
Definition ben_row_no_email :=
  person_row "Schulz" "Ben" "0151 2" "" "2021-03-01" "".
Definition no_email_csv : csv_files :=
  {| countries_csv := countries_csv sample_csv; cities_csv := cities_csv sample_csv;
     persons_csv := [anna_row_no_email; ben_row_no_email; cara_row];
     members_csv := members_csv sample_csv; employees_csv := employees_csv sample_csv;
     trainers_csv := trainers_csv sample_csv; rooms_csv := rooms_csv sample_csv;
     classtypes_csv := classtypes_csv sample_csv;
     classofferings_csv := classofferings_csv sample_csv;
     weekdays_csv := weekdays_csv sample_csv; classes_csv := classes_csv sample_csv;
     registrations_csv := registrations_csv sample_csv |}.

Lemma null_date_field_roundtrip_witness :
  null_date_field ["2023-02-01"] 0 = Some (Ok (Some d2023_02_01)).
Proof.
  apply null_date_field_roundtrip; [|reflexivity].
  intros dt [= <-]. compute_decide.
Defined.

Lemma import_all_export_witness : import_all (export_csv sample_import) = Some (Ok sample_import).
Proof. apply (import_all_export sample_import); compute_decide. Defined.

Lemma import_all_fk_witness : fk_ok sample_import.
Proof. apply (import_all_fk sample_csv); [vm_compute; reflexivity|compute_decide]. Defined.

(** The sample files with a registration of member 9, which
    members.csv does not have: the import commits it. *)
Definition dangling_csv : csv_files :=
  {| countries_csv := countries_csv sample_csv; cities_csv := cities_csv sample_csv;
     persons_csv := persons_csv sample_csv; members_csv := members_csv sample_csv;
     employees_csv := employees_csv sample_csv; trainers_csv := trainers_csv sample_csv;
     rooms_csv := rooms_csv sample_csv; classtypes_csv := classtypes_csv sample_csv;
     classofferings_csv := classofferings_csv sample_csv;
     weekdays_csv := weekdays_csv sample_csv; classes_csv := classes_csv sample_csv;
     registrations_csv := [["1"; "9"; "2021-03-01"; "NULL"]] |}.

Example import_dangling : exists d, import_all dangling_csv = Some (Ok d) /\ ~ fk_ok d.
Proof. eexists. split; [vm_compute; reflexivity|compute_decide]. Qed.

Lemma import_all_empty_emails_witness :
  import_all no_email_csv = Some (Raise (IntegrityError "UNIQUE constraint failed: persons.email")) /\
  import_all no_email_csv <> Some (Ok sample_import).
Proof.
  split; [vm_compute; reflexivity|].
  apply (import_all_empty_emails no_email_csv 0 1 anna_row_no_email ben_row_no_email);
    (lia || reflexivity).
Defined.

