(* ===== verification/Lookups.v ===== *)
(** * Lookups: the helpers at the top of [create_functions.py]

    [check_exists] is generic over the table, as in the source, through the
    [Keyed] interface of [Schema]; its four instances follow.  A SELECT
    over joined tables is written as the nested loop over its FROM clause
    (stdpp's list bind), keeping the rows that satisfy the ON and WHERE
    conditions; [fetchone] takes the first row. *)

From S2P Require Import Prelude Schema.

Definition fetchone {A} (rows : list A) : option A := head rows.

(** [select(table.c.id).where(table.c.id == record_id)] is not empty. *)
Definition check_exists {R} `{Keyed R} (table : list R) (record_id : Z) : bool :=
  existsb (fun r => row_id r =? record_id) table.

Definition check_member_exists (d : db) (member_id : Z) : bool :=
  check_exists (members d) member_id.
Definition check_trainer_exists (d : db) (trainer_id : Z) : bool :=
  check_exists (trainers d) trainer_id.
Definition check_class_exists (d : db) (class_id : Z) : bool :=
  check_exists (classes d) class_id.
Definition check_weekday_exists (d : db) (weekday_id : Z) : bool :=
  check_exists (weekdays d) weekday_id.

(** Python's [if x:] on an optional int argument: [None] and [0] are false. *)
Definition truthy (o : option Z) : option Z :=
  match o with
  | Some z => if decide (z = 0) then None else Some z
  | None => None
  end.

(** persons JOIN employees JOIN trainers WHERE trainers.id = trainer_id. *)
Definition trainer_name_rows (d : db) (trainer_id : Z) : list (string * string) :=
  p ← persons d; e ← employees d; t ← trainers d;
  if decide (Person.id p = Employee.person_id e /\ Employee.id e = Trainer.employee_id t /\
             Trainer.id t = trainer_id)
  then [(Person.surname p, Person.forename p)] else [].

(** persons JOIN members WHERE members.id = member_id. *)
Definition member_name_rows (d : db) (member_id : Z) : list (string * string) :=
  p ← persons d; m ← members d;
  if decide (Person.id p = Member.person_id m /\ Member.id m = member_id)
  then [(Person.surname p, Person.forename p)] else [].

(** [get_person_name(member_id=None, trainer_id=None)]: the trainer branch
    wins when [trainer_id] is truthy; with neither argument truthy the
    variable [query] is never bound. *)
Definition get_person_name (d : db) (member_id trainer_id : option Z)
  : result (option (string * string)) :=
  match truthy trainer_id with
  | Some tid => Ok (fetchone (trainer_name_rows d tid))
  | None =>
      match truthy member_id with
      | Some mid => Ok (fetchone (member_name_rows d mid))
      | None => Raise (UnboundLocalError
          "cannot access local variable 'query' where it is not associated with a value")
      end
  end.

(** classes JOIN classofferings JOIN classtypes JOIN weekdays
    WHERE classes.id = class_id, projected on the two names. *)
Definition class_weekday_rows (d : db) (class_id : Z) : list (string * string) :=
  c ← classes d; o ← classofferings d; ct ← classtypes d; w ← weekdays d;
  if decide (Class.classoffering_id c = ClassOffering.id o /\
             ClassOffering.classtype_id o = ClassType.id ct /\
             Class.weekday_id c = Weekday.id w /\ Class.id c = class_id)
  then [(ClassType.name ct, Weekday.name w)] else [].

Definition get_class_and_weekday (d : db) (class_id : Z) : option (string * string) :=
  fetchone (class_weekday_rows d class_id).

(** ** Lemmas *)

Lemma check_exists_spec {R} `{Keyed R} (t : list R) x :
  check_exists t x = true <-> refers t x.
Proof.
  unfold check_exists, refers. rewrite existsb_exists, list_elem_of_In, in_map_iff.
  split; intros [r [H1 H2]]; exists r; rewrite ?Z.eqb_eq in *; auto.
Qed.

Lemma check_exists_false {R} `{Keyed R} (t : list R) x :
  check_exists t x = false <-> ~ refers t x.
Proof. rewrite <- check_exists_spec. destruct (check_exists t x); naive_solver. Qed.

Lemma fetchone_Some {A} (l : list A) : l <> [] -> exists a, fetchone l = Some a /\ a ∈ l.
Proof. destruct l as [|a l]; [done|]. intros _. exists a. split; [done|]. left. Qed.

Lemma truthy_Some z : z <> 0 -> truthy (Some z) = Some z.
Proof. intros Hz. simpl. by rewrite decide_False. Qed.

#[export] Hint Resolve truthy_Some : gym.

(** ** The rows the lookups find *)

(** The person row behind member [m]. *)
Definition member_person (d : db) (m : Z) (p : Person.t) : Prop :=
  exists mm, mm ∈ members d /\ Member.id mm = m /\
             p ∈ persons d /\ Person.id p = Member.person_id mm.

(** The person row behind trainer [t], through [employees]. *)
Definition trainer_person (d : db) (t : Z) (p : Person.t) : Prop :=
  exists tt e, tt ∈ trainers d /\ Trainer.id tt = t /\
               e ∈ employees d /\ Employee.id e = Trainer.employee_id tt /\
               p ∈ persons d /\ Person.id p = Employee.person_id e.

(** The class type and weekday of class [c]. *)
Definition class_info (d : db) (c : Z) (ct : ClassType.t) (w : Weekday.t) : Prop :=
  exists cc o, cc ∈ classes d /\ Class.id cc = c /\
               o ∈ classofferings d /\ ClassOffering.id o = Class.classoffering_id cc /\
               ct ∈ classtypes d /\ ClassType.id ct = ClassOffering.classtype_id o /\
               w ∈ weekdays d /\ Weekday.id w = Class.weekday_id cc.

Lemma pk_same {R} `{Keyed R} (t : list R) r1 r2 x :
  pk t -> r1 ∈ t -> r2 ∈ t -> row_id r1 = x -> row_id r2 = x -> r1 = r2.
Proof. intros Hpk H1 H2 <- E. by apply (pk_row_unique t). Qed.

(** Rows of a keyed table whose ids equal the same value are one row. *)
Ltac same_by tbl idf pkl Hok :=
  repeat match goal with
  | H : ?x = idf ?r |- _ =>
      lazymatch x with idf _ => fail | _ => symmetry in H end
  end;
  repeat match goal with
  | H1 : ?r1 ∈ tbl ?d, H2 : ?r2 ∈ tbl ?d, E : idf ?r1 = idf ?r2 |- _ =>
      assert_fails (constr_eq r1 r2);
      pose proof (pk_same _ r1 r2 (idf r2) (pkl d Hok) H1 H2 E eq_refl); subst r2
  | H1 : ?r1 ∈ tbl ?d, H2 : ?r2 ∈ tbl ?d, E1 : idf ?r1 = ?x, E2 : idf ?r2 = ?x |- _ =>
      assert_fails (constr_eq r1 r2);
      pose proof (pk_same _ r1 r2 x (pkl d Hok) H1 H2 E1 E2); subst r2
  end.

Ltac same_rows Hok :=
  same_by members Member.id pk_members Hok;
  same_by trainers Trainer.id pk_trainers Hok;
  same_by employees Employee.id pk_employees Hok;
  same_by persons Person.id pk_persons Hok;
  same_by classes Class.id pk_classes Hok;
  same_by classofferings ClassOffering.id pk_classofferings Hok;
  same_by classtypes ClassType.id pk_classtypes Hok;
  same_by weekdays Weekday.id pk_weekdays Hok.

(** Membership in the lookups' results, by their join conditions. *)
Lemma member_name_rows_spec d m x :
  x ∈ member_name_rows d m <-> exists p, member_person d m p /\ x = (Person.surname p, Person.forename p).
Proof. unfold member_name_rows, member_person. join_simpl. naive_solver. Qed.

Lemma trainer_name_rows_spec d t x :
  x ∈ trainer_name_rows d t <-> exists p, trainer_person d t p /\ x = (Person.surname p, Person.forename p).
Proof. unfold trainer_name_rows, trainer_person. join_simpl. naive_solver. Qed.

Lemma class_weekday_rows_spec d c x :
  x ∈ class_weekday_rows d c <->
  exists ct w, class_info d c ct w /\ x = (ClassType.name ct, Weekday.name w).
Proof. unfold class_weekday_rows, class_info. join_simpl. naive_solver. Qed.

(** The first row of a result that is the image of a unique row. *)
Lemma head_of_unique {A B} (l : list B) (P : A -> Prop) (f : A -> B) a :
  (forall x, x ∈ l <-> exists y, P y /\ x = f y) -> P a -> (forall y, P y -> y = a) ->
  head l = Some (f a).
Proof.
  intros Hl Ha Hu. apply head_unique.
  - exists (f a). apply Hl. eauto.
  - intros x (y & Hy & ->)%Hl. by rewrite (Hu y Hy).
Qed.

Section Rows.
Context (d : db) (Hok : constraints_ok d).

Lemma member_person_unique m p1 p2 :
  member_person d m p1 -> member_person d m p2 -> p1 = p2.
Proof using Hok. intros (?&?&?&?&?) (?&?&?&?&?). same_rows Hok. reflexivity. Qed.

Lemma trainer_person_unique t p1 p2 :
  trainer_person d t p1 -> trainer_person d t p2 -> p1 = p2.
Proof using Hok. intros (?&?&?&?&?&?&?&?) (?&?&?&?&?&?&?&?). same_rows Hok. reflexivity. Qed.

Lemma class_info_unique c ct1 w1 ct2 w2 :
  class_info d c ct1 w1 -> class_info d c ct2 w2 -> ct1 = ct2 /\ w1 = w2.
Proof using Hok.
  intros (?&?&?&?&?&?&?&?&?&?) (?&?&?&?&?&?&?&?&?&?). same_rows Hok. auto.
Qed.

Lemma member_name_rows_head m p :
  member_person d m p ->
  fetchone (member_name_rows d m) = Some (Person.surname p, Person.forename p).
Proof using Hok.
  intros Hp. apply (head_of_unique _ (member_person d m) (fun p => (Person.surname p, Person.forename p)));
    [apply member_name_rows_spec|done|].
  intros y Hy. by apply (member_person_unique m).
Qed.

Lemma trainer_name_rows_head t p :
  trainer_person d t p ->
  fetchone (trainer_name_rows d t) = Some (Person.surname p, Person.forename p).
Proof using Hok.
  intros Hp. apply (head_of_unique _ (trainer_person d t) (fun p => (Person.surname p, Person.forename p)));
    [apply trainer_name_rows_spec|done|].
  intros y Hy. by apply (trainer_person_unique t).
Qed.

Lemma get_class_and_weekday_info c ct w :
    class_info d c ct w ->
    get_class_and_weekday d c = Some (ClassType.name ct, Weekday.name w).
  Proof using Hok.
    intros Hi. unfold get_class_and_weekday, fetchone.
    apply (head_of_unique _ (fun '(ct, w) => class_info d c ct w)
             (fun '(ct, w) => (ClassType.name ct, Weekday.name w)) (ct, w)); [|done|].
    - intros x. rewrite class_weekday_rows_spec. split.
      + intros (ct' & w' & ?). by exists (ct', w').
      + intros [[ct' w'] ?]. eauto.
    - intros [ct' w'] Hy. destruct (class_info_unique c ct' w' ct w) as [-> ->]; auto.
  Qed.
End Rows.

(** Under referential integrity every member, trainer and class has its rows. *)
Section Exists.
Context (d : db) (Hfk : fk_ok d).

Lemma member_person_exists m : refers (members d) m -> exists p, member_person d m p.
  Proof using Hfk.
    intros (mm & Hmm & Hid)%refers_row.
    destruct (refers_row _ _ (fk_member_person d Hfk mm Hmm)) as (p & Hp & Hpid).
    exists p, mm. auto.
  Qed.

Lemma trainer_person_exists t : refers (trainers d) t -> exists p, trainer_person d t p.
  Proof using Hfk.
    intros (tt & Htt & Hid)%refers_row.
    destruct (refers_row _ _ (fk_trainer_employee d Hfk tt Htt)) as (e & He & Heid).
    destruct (refers_row _ _ (fk_employee_person d Hfk e He)) as (p & Hp & Hpid).
    exists p, tt, e. auto 8.
  Qed.

Lemma class_info_exists c : refers (classes d) c -> exists ct w, class_info d c ct w.
  Proof using Hfk.
    intros (cc & Hcc & Hid)%refers_row.
    destruct (fk_offering d Hfk cc Hcc) as [(o & Ho & Hoid)%refers_row (w & Hw & Hwid)%refers_row].
    destruct (fk_classtype d Hfk o Ho) as [(ct & Hct & Hctid)%refers_row _].
    exists ct, w, cc, o. auto 12.
  Qed.
End Exists.

Lemma check_member_exists_spec d m : check_member_exists d m = true <-> refers (members d) m.
Proof. apply check_exists_spec. Qed.
Lemma check_trainer_exists_spec d t : check_trainer_exists d t = true <-> refers (trainers d) t.
Proof. apply check_exists_spec. Qed.
Lemma check_class_exists_spec d c : check_class_exists d c = true <-> refers (classes d) c.
Proof. apply check_exists_spec. Qed.
Lemma check_weekday_exists_spec d w : check_weekday_exists d w = true <-> refers (weekdays d) w.
Proof. apply check_exists_spec. Qed.
