(* ===== verification/Queries.v ===== *)
(** * Queries: the seven questions of [scripts/python/create_functions.py]

    Each function takes the database and its Python arguments and returns
    the Python value (the tuple the source returns) or the exception it
    raises.  The existence checks raise [ValueError] with the source's
    message; unpacking a [None] row raises [TypeError].  The lemmas below
    characterise the results; the claims are in the later sections. *)

From S2P Require Import Prelude Schema Lookups Fixture.

Definition member_not_found (member_id : Z) : py_exc :=
  ValueError ("Member with ID " +:+ py_str member_id +:+ " not found.").
Definition trainer_not_found (trainer_id : Z) : py_exc :=
  ValueError ("Trainer with ID " +:+ py_str trainer_id +:+ " not found.").
Definition class_not_found (class_id : Z) : py_exc :=
  ValueError ("Class with ID " +:+ py_str class_id +:+ " not found.").
Definition weekday_not_found (weekday_id : Z) : py_exc :=
  ValueError ("Weekday with ID " +:+ py_str weekday_id +:+ " doesn't exist!").

(** 1. [count_registrations_by_year(year)]: persons whose
    [strftime('%Y', enterdate)] equals [str(year)]. *)
Definition count_registrations_by_year (d : db) (year : Z) : result Z :=
  Ok (Z.of_nat (length (filter (fun p => strftime_Y (Prelude.year (Person.enterdate p)) = py_str year)
                                (persons d)))).

(** persons JOIN members WHERE members.id = member_id, three columns. *)
Definition membership_rows (d : db) (member_id : Z) : list (string * string * option date) :=
  p ← persons d; m ← members d;
  if decide (Person.id p = Member.person_id m /\ Member.id m = member_id)
  then [(Person.surname p, Person.forename p, Person.leavedate p)] else [].

(** [leavedate is not None and leavedate < datetime.now().date()]. *)
Definition terminated_before (now : date) (leavedate : option date) : bool :=
  match leavedate with
  | Some l => date_ltb l now
  | None => false
  end.

(** 2. [is_membership_terminated(member_id)]. *)
Definition is_membership_terminated (d : db) (now : date) (member_id : Z)
  : result (bool * string * string) :=
  if negb (check_member_exists d member_id) then Raise (member_not_found member_id) else
  row <- unpack (fetchone (membership_rows d member_id)) ;;
  let '(surname, forename, leavedate) := row in
  Ok (terminated_before now leavedate, forename, surname).

(** classtypes JOIN classofferings JOIN classes
    WHERE classofferings.trainer_id = trainer_id AND classes.weekday_id = weekday_id. *)
Definition trainer_class_rows (d : db) (trainer_id weekday_id : Z) : list (string * time) :=
  ct ← classtypes d; o ← classofferings d; c ← classes d;
  if decide (ClassType.id ct = ClassOffering.classtype_id o /\
             ClassOffering.id o = Class.classoffering_id c /\
             ClassOffering.trainer_id o = trainer_id /\ Class.weekday_id c = weekday_id)
  then [(ClassType.name ct, Class.time c)] else [].

Definition weekday_name_rows (d : db) (weekday_id : Z) : list string :=
  w ← weekdays d; if decide (Weekday.id w = weekday_id) then [Weekday.name w] else [].

(** 3. [get_classes_by_trainer(trainer_id, weekday_id)]. *)
Definition get_classes_by_trainer (d : db) (trainer_id weekday_id : Z)
  : result (string * string * string * list (string * time)) :=
  if negb (check_trainer_exists d trainer_id) then Raise (trainer_not_found trainer_id) else
  if negb (check_weekday_exists d weekday_id) then Raise (weekday_not_found weekday_id) else
  name <- get_person_name d None (Some trainer_id) ;;
  sf <- unpack name ;;
  let '(surname, forename) := sf in
  weekday <- subscript (fetchone (weekday_name_rows d weekday_id)) ;;
  Ok (forename, surname, weekday, trainer_class_rows d trainer_id weekday_id).

(** classofferings JOIN trainers JOIN employees JOIN members
    (ON employees.person_id = members.person_id) JOIN classes
    WHERE members.id = member_id AND classes.id = class_id. *)
Definition instructor_rows (d : db) (member_id class_id : Z) : list Z :=
  o ← classofferings d; t ← trainers d; e ← employees d; m ← members d; c ← classes d;
  if decide (ClassOffering.trainer_id o = Trainer.id t /\ Trainer.employee_id t = Employee.id e /\
             Employee.person_id e = Member.person_id m /\
             ClassOffering.id o = Class.classoffering_id c /\
             Member.id m = member_id /\ Class.id c = class_id)
  then [Class.id c] else [].

(** 4. [is_member_instructor(member_id, class_id)]. *)
Definition is_member_instructor (d : db) (member_id class_id : Z)
  : result (string * string * string * string * bool) :=
  if negb (check_member_exists d member_id) then Raise (member_not_found member_id) else
  if negb (check_class_exists d class_id) then Raise (class_not_found class_id) else
  name <- get_person_name d (Some member_id) None ;;
  sf <- unpack name ;;
  let '(surname, forename) := sf in
  cw <- unpack (get_class_and_weekday d class_id) ;;
  let '(class_, weekday) := cw in
  Ok (forename, surname, class_, weekday,
      bool_decide (instructor_rows d member_id class_id <> [])).

(** registrations JOIN members WHERE registrations.class_id = class_id. *)
Definition class_member_rows (d : db) (class_id : Z) : list Registration.t :=
  r ← registrations d; m ← members d;
  if decide (Member.id m = Registration.member_id r /\ Registration.class_id r = class_id)
  then [r] else [].

(** 5. [get_registrations_by_class(class_id)]. *)
Definition get_registrations_by_class (d : db) (class_id : Z) : result (string * string * Z) :=
  if negb (check_class_exists d class_id) then Raise (class_not_found class_id) else
  cw <- unpack (get_class_and_weekday d class_id) ;;
  let '(class_, weekday) := cw in
  Ok (class_, weekday, Z.of_nat (length (class_member_rows d class_id))).

(** registrations WHERE member_id = member_id AND class_id = class_id. *)
Definition registration_rows (d : db) (member_id class_id : Z) : list Z :=
  r ← registrations d;
  if decide (Registration.member_id r = member_id /\ Registration.class_id r = class_id)
  then [Registration.id r] else [].

(** 6. [is_member_registered(member_id, class_id)]. *)
Definition is_member_registered (d : db) (member_id class_id : Z)
  : result (string * string * string * string * bool) :=
  if negb (check_member_exists d member_id) then Raise (member_not_found member_id) else
  if negb (check_class_exists d class_id) then Raise (class_not_found class_id) else
  name <- get_person_name d (Some member_id) None ;;
  sf <- unpack name ;;
  let '(surname, forename) := sf in
  cw <- unpack (get_class_and_weekday d class_id) ;;
  let '(class_, weekday) := cw in
  Ok (forename, surname, class_, weekday,
      bool_decide (registration_rows d member_id class_id <> [])).

(** [select(func.count()).select_from(registrations).where(class_id == ...)]. *)
Definition occupied_spots (d : db) (class_id : Z) : Z :=
  Z.of_nat (length (filter (fun r => Registration.class_id r = class_id) (registrations d))).

(** classes JOIN classofferings JOIN classtypes WHERE classes.id = class_id. *)
Definition max_spots_rows (d : db) (class_id : Z) : list Z :=
  c ← classes d; o ← classofferings d; ct ← classtypes d;
  if decide (Class.classoffering_id c = ClassOffering.id o /\
             ClassOffering.classtype_id o = ClassType.id ct /\ Class.id c = class_id)
  then [ClassType.maxparticipants ct] else [].

(** 7. [count_free_spots_by_class(class_id)]. *)
Definition count_free_spots_by_class (d : db) (class_id : Z) : result (string * string * Z) :=
  if negb (check_class_exists d class_id) then Raise (class_not_found class_id) else
  cw <- unpack (get_class_and_weekday d class_id) ;;
  let '(class_, weekday) := cw in
  max_spots <- subscript (fetchone (max_spots_rows d class_id)) ;;
  Ok (class_, weekday, Z.max (max_spots - occupied_spots d class_id) 0).

(** ** What the queries look for *)

(** The class type behind class [c]. *)
Definition class_type_of (d : db) (c : Z) (ct : ClassType.t) : Prop :=
  exists cc o, cc ∈ classes d /\ Class.id cc = c /\
               o ∈ classofferings d /\ ClassOffering.id o = Class.classoffering_id cc /\
               ct ∈ classtypes d /\ ClassType.id ct = ClassOffering.classtype_id o.

(** The trainer of the offering class [c] belongs to. *)
Definition class_trainer (d : db) (c : Z) (t : Z) : Prop :=
  exists cc o, cc ∈ classes d /\ Class.id cc = c /\
               o ∈ classofferings d /\ ClassOffering.id o = Class.classoffering_id cc /\
               ClassOffering.trainer_id o = t.

(** Member [m] holds a registration row for class [c]. *)
Definition registered (d : db) (m c : Z) : Prop :=
  exists r, r ∈ registrations d /\ Registration.member_id r = m /\ Registration.class_id r = c.

#[export] Instance registered_dec d m c : Decision (registered d m c).
Proof. unfold registered. apply list_exist_dec. intros r. apply _. Defined.

#[export] Instance class_trainer_dec d c t : Decision (class_trainer d c t).
Proof.
  assert (Decision (exists cc, cc ∈ classes d /\ exists o, o ∈ classofferings d /\
            Class.id cc = c /\ ClassOffering.id o = Class.classoffering_id cc /\
            ClassOffering.trainer_id o = t)) as [H|H]
    by (apply list_exist_dec; intros cc; apply list_exist_dec; intros o; apply _).
  - left. unfold class_trainer. naive_solver.
  - right. unfold class_trainer. naive_solver.
Defined.

Lemma class_info_type d c ct w : class_info d c ct w -> class_type_of d c ct.
Proof. intros (cc & o & ?). exists cc, o. naive_solver. Qed.

Lemma member_person_refers d m p : member_person d m p -> refers (members d) m.
Proof. intros (mm & Hmm & <- & _). by apply list_elem_of_fmap_2. Qed.

Lemma trainer_person_refers d t p : trainer_person d t p -> refers (trainers d) t.
Proof. intros (tt & e & Htt & <- & _). by apply list_elem_of_fmap_2. Qed.

Lemma class_info_refers d c ct w : class_info d c ct w -> refers (classes d) c.
Proof. intros (cc & o & Hcc & <- & _). by apply list_elem_of_fmap_2. Qed.

Lemma membership_rows_spec d m x :
  x ∈ membership_rows d m <->
  exists p, member_person d m p /\
            x = (Person.surname p, Person.forename p, Person.leavedate p).
Proof. unfold membership_rows, member_person. join_simpl. naive_solver. Qed.

Lemma max_spots_rows_spec d c x :
  x ∈ max_spots_rows d c <-> exists ct, class_type_of d c ct /\ x = ClassType.maxparticipants ct.
Proof. unfold max_spots_rows, class_type_of. join_simpl. naive_solver. Qed.

Lemma registration_rows_spec d m c : registration_rows d m c <> [] <-> registered d m c.
Proof. rewrite nonempty_iff. unfold registration_rows, registered. join_simpl. naive_solver. Qed.

Lemma trainer_class_rows_spec d t w x :
  x ∈ trainer_class_rows d t w <->
  exists ct o c, ct ∈ classtypes d /\ o ∈ classofferings d /\ c ∈ classes d /\
    ClassType.id ct = ClassOffering.classtype_id o /\
    ClassOffering.id o = Class.classoffering_id c /\
    ClassOffering.trainer_id o = t /\ Class.weekday_id c = w /\
    x = (ClassType.name ct, Class.time c).
Proof. unfold trainer_class_rows. join_simpl. naive_solver. Qed.

Section Answers.
Context (d : db) (Hok : constraints_ok d).

Lemma class_type_of_unique c ct1 ct2 :
  class_type_of d c ct1 -> class_type_of d c ct2 -> ct1 = ct2.
Proof using Hok. intros (?&?&?&?&?&?&?&?) (?&?&?&?&?&?&?&?). same_rows Hok. done. Qed.

Lemma membership_rows_head m p :
  member_person d m p ->
  fetchone (membership_rows d m) = Some (Person.surname p, Person.forename p, Person.leavedate p).
Proof using Hok.
  intros Hp. apply (head_of_unique _ (member_person d m)
    (fun p => (Person.surname p, Person.forename p, Person.leavedate p)));
    [apply membership_rows_spec|done|].
  intros y Hy. by apply (member_person_unique d Hok m).
Qed.

Lemma max_spots_rows_head c ct :
  class_type_of d c ct -> fetchone (max_spots_rows d c) = Some (ClassType.maxparticipants ct).
Proof using Hok.
  intros Hct. apply (head_of_unique _ (class_type_of d c) ClassType.maxparticipants);
    [apply max_spots_rows_spec|done|].
  intros y Hy. by apply (class_type_of_unique c).
Qed.

Lemma weekday_name_rows_head w :
    w ∈ weekdays d -> fetchone (weekday_name_rows d (Weekday.id w)) = Some (Weekday.name w).
  Proof using Hok.
    intros Hw. apply (head_of_unique _ (fun w' => w' ∈ weekdays d /\ Weekday.id w' = Weekday.id w)
                        Weekday.name); [|done|].
    - intros x. unfold weekday_name_rows. join_simpl. naive_solver.
    - intros y [Hy Hid]. same_rows Hok. done.
  Qed.
End Answers.

(** The join with [members] counts exactly the registrations of the class
    when every registration names an existing member. *)
Lemma class_member_rows_length d c :
  pk (members d) ->
  Forall (fun r => refers (members d) (Registration.member_id r)) (registrations d) ->
  length (class_member_rows d c) =
  length (filter (fun r => Registration.class_id r = c) (registrations d)).
Proof.
  unfold class_member_rows. intros Hpk.
  induction (registrations d) as [|r rs IH]; intros Hall; [done|].
  apply Forall_cons in Hall as [Hr Hrs].
  rewrite bind_cons, length_app, IH, filter_cons by done.
  rewrite (length_bind_guard _ (fun m => Member.id m = Registration.member_id r)).
  case_decide; simpl; [|done].
  by rewrite (length_filter_key_unique Member.id).
Qed.

Lemma get_person_name_member d m p :
  constraints_ok d -> m <> 0 -> member_person d m p ->
  get_person_name d (Some m) None = Ok (Some (Person.surname p, Person.forename p)).
Proof.
  intros Hok Hm Hp. unfold get_person_name. rewrite truthy_Some by done. simpl.
  by rewrite (member_name_rows_head d Hok m p).
Qed.

Lemma get_person_name_trainer d t p :
  constraints_ok d -> t <> 0 -> trainer_person d t p ->
  get_person_name d None (Some t) = Ok (Some (Person.surname p, Person.forename p)).
Proof.
  intros Hok Ht Hp. unfold get_person_name. rewrite truthy_Some by done.
  by rewrite (trainer_name_rows_head d Hok t p).
Qed.

(** The member–instructor join relates the member and the trainer of the
    class through the employee row of the same person. *)
Definition instructs (d : db) (m c : Z) : Prop :=
  exists p t, member_person d m p /\ class_trainer d c t /\ trainer_person d t p.

Lemma instructor_rows_spec d m c :
  fk_ok d -> instructor_rows d m c <> [] <-> instructs d m c.
Proof.
  intros Hfk. rewrite nonempty_iff. unfold instructor_rows, instructs, member_person,
    class_trainer, trainer_person. join_simpl. split.
  - intros (x & o & (t & (e & (mm & (cc & ((Hto & Hte & Hep & Hoc & Hm & Hc) & ->) & Hcc) & Hmm)
            & He) & Ht) & Ho).
    destruct (refers_row _ _ (fk_member_person d Hfk mm Hmm)) as (p & Hp & Hpid).
    exists p, (Trainer.id t). split; [eauto 6|]. split; [eauto 8|].
    exists t, e. unfold_keys. repeat split; auto; congruence.
  - intros (p & t & (mm & Hmm & Hm & Hp & Hpid) & (cc & o & Hcc & Hc & Ho & Hoc & Hto) &
            (tt & e & Htt & Htid & He & Heid & Hp' & Hpe)).
    exists (Class.id cc), o. split; [|done]. exists tt. split; [|done].
    exists e. split; [|done]. exists mm. split; [|done]. exists cc.
    split; [|done]. split; [|done]. repeat split; congruence.
Qed.

Lemma is_member_instructor_eq d m c p ct w :
  constraints_ok d -> m <> 0 -> member_person d m p -> class_info d c ct w ->
  is_member_instructor d m c =
  Ok (Person.forename p, Person.surname p, ClassType.name ct, Weekday.name w,
      bool_decide (instructor_rows d m c <> [])).
Proof.
  intros Hok Hm Hp Hi. unfold is_member_instructor.
  rewrite (proj2 (check_member_exists_spec _ _) (member_person_refers _ _ _ Hp)),
          (proj2 (check_class_exists_spec _ _) (class_info_refers _ _ _ _ Hi)). simpl.
  rewrite (get_person_name_member d m p Hok Hm Hp). simpl.
  by rewrite (get_class_and_weekday_info d Hok c ct w Hi).
Qed.

(** ** Theorems about the queries *)

Section QueryTheorems.
Context (d : db).

Lemma count_free_spots_by_class_eq c ct w :
  constraints_ok d -> class_info d c ct w ->
  count_free_spots_by_class d c =
  Ok (ClassType.name ct, Weekday.name w,
      Z.max (ClassType.maxparticipants ct - occupied_spots d c) 0).
Proof.
  intros Hok Hi. unfold count_free_spots_by_class.
  rewrite (proj2 (check_class_exists_spec _ _) (class_info_refers _ _ _ _ Hi)). simpl.
  rewrite (get_class_and_weekday_info d Hok c ct w Hi). simpl.
  by rewrite (max_spots_rows_head d Hok c ct (class_info_type _ _ _ _ Hi)).
Qed.

(** C11: on a well-formed database, [count_free_spots_by_class] answers
    the class type's and weekday's names and
    [max(maxparticipants - occupied, 0)], where [occupied] counts every
    registration row of the class. *)
Theorem count_free_spots_by_class_ok c ct w :
  constraints_ok d -> class_info d c ct w ->
  count_free_spots_by_class d c =
  Ok (ClassType.name ct, Weekday.name w,
      Z.max (ClassType.maxparticipants ct - occupied_spots d c) 0).
Proof. exact (count_free_spots_by_class_eq c ct w). Qed.

(** The number of free spots [count_free_spots_by_class] returns is
    never negative, on any database. *)
Theorem count_free_spots_nonneg c class_ weekday n :
  count_free_spots_by_class d c = Ok (class_, weekday, n) -> 0 <= n.
Proof.
  unfold count_free_spots_by_class.
  destruct (check_class_exists d c); simpl; [|discriminate].
  destruct (get_class_and_weekday d c) as [[? ?]|]; simpl; [|discriminate].
  destruct (fetchone (max_spots_rows d c)); simpl; [|discriminate].
  intros [= _ _ <-]. lia.
Qed.

(** C13: under the schema's constraints and referential integrity,
    [get_registrations_by_class] (which joins [members]) counts the same
    rows as the occupancy count of [count_free_spots_by_class] (which
    does not). *)
Theorem get_registrations_by_class_agrees c ct w :
  wf d -> class_info d c ct w ->
  get_registrations_by_class d c =
  Ok (ClassType.name ct, Weekday.name w, occupied_spots d c).
Proof.
  intros [Hok Hfk] Hi. unfold get_registrations_by_class, occupied_spots.
  rewrite (proj2 (check_class_exists_spec _ _) (class_info_refers _ _ _ _ Hi)). simpl.
  rewrite (get_class_and_weekday_info d Hok c ct w Hi). simpl.
  rewrite class_member_rows_length; [done|by apply pk_members|].
  apply Forall_forall. intros r Hr. apply (fk_registration d Hfk r Hr).
Qed.

Lemma is_membership_terminated_eq now m p :
  constraints_ok d -> member_person d m p ->
  is_membership_terminated d now m =
  Ok (terminated_before now (Person.leavedate p), Person.forename p, Person.surname p).
Proof.
  intros Hok Hp. unfold is_membership_terminated.
  rewrite (proj2 (check_member_exists_spec _ _) (member_person_refers _ _ _ Hp)). simpl.
  by rewrite (membership_rows_head d Hok m p Hp).
Qed.

(** C16: [is_membership_terminated] answers, for an existing member, whether
    the member's person has a leave date strictly before today, with the
    person's names. *)
Theorem is_membership_terminated_ok now m p :
  constraints_ok d -> member_person d m p ->
  is_membership_terminated d now m =
  Ok (terminated_before now (Person.leavedate p), Person.forename p, Person.surname p).
Proof. exact (is_membership_terminated_eq now m p). Qed.

Lemma is_member_registered_eq m c p ct w :
  constraints_ok d -> m <> 0 -> member_person d m p -> class_info d c ct w ->
  is_member_registered d m c =
  Ok (Person.forename p, Person.surname p, ClassType.name ct, Weekday.name w,
      bool_decide (registered d m c)).
Proof.
  intros Hok Hm Hp Hi. unfold is_member_registered.
  rewrite (proj2 (check_member_exists_spec _ _) (member_person_refers _ _ _ Hp)),
          (proj2 (check_class_exists_spec _ _) (class_info_refers _ _ _ _ Hi)). simpl.
  rewrite (get_person_name_member d m p Hok Hm Hp). simpl.
  rewrite (get_class_and_weekday_info d Hok c ct w Hi). simpl.
  do 2 f_equal. apply bool_decide_ext, registration_rows_spec.
Qed.

(** C15: [is_member_registered] answers whether a registration row with
    that member and that class exists (for a member id other than 0). *)
Theorem is_member_registered_ok m c p ct w :
  constraints_ok d -> m <> 0 -> member_person d m p -> class_info d c ct w ->
  is_member_registered d m c =
  Ok (Person.forename p, Person.surname p, ClassType.name ct, Weekday.name w,
      bool_decide (registered d m c)).
Proof. exact (is_member_registered_eq m c p ct w). Qed.

(** C14: [is_member_instructor] answers whether the member's person is the
    person behind the trainer of the class's offering: the join through
    [employees.person_id = members.person_id] is exactly "same person". *)
Theorem is_member_instructor_ok m c p ct w :
  wf d -> m <> 0 -> member_person d m p -> class_info d c ct w ->
  exists b, is_member_instructor d m c =
            Ok (Person.forename p, Person.surname p, ClassType.name ct, Weekday.name w, b) /\
            (b = true <-> instructs d m c).
Proof.
  intros [Hok Hfk] Hm Hp Hi. rewrite (is_member_instructor_eq d m c p ct w Hok Hm Hp Hi).
  eexists. split; [reflexivity|]. rewrite bool_decide_eq_true.
  by apply instructor_rows_spec.
Qed.
(** The answer of [get_classes_by_trainer] for an existing trainer and
    weekday: the names and the rows of the main query. *)
Lemma get_classes_by_trainer_eq t p w :
  constraints_ok d -> t <> 0 -> trainer_person d t p -> w ∈ weekdays d ->
  get_classes_by_trainer d t (Weekday.id w) =
  Ok (Person.forename p, Person.surname p, Weekday.name w,
      trainer_class_rows d t (Weekday.id w)).
Proof.
  intros Hok Ht Hp Hw. unfold get_classes_by_trainer.
  rewrite (proj2 (check_trainer_exists_spec _ _) (trainer_person_refers _ _ _ Hp)).
  rewrite (proj2 (check_weekday_exists_spec _ _)) by by apply list_elem_of_fmap_2.
  simpl. rewrite (get_person_name_trainer d t p Hok Ht Hp). simpl.
  by rewrite (weekday_name_rows_head d Hok w Hw).
Qed.

(** A trainer with no class on the weekday has no row in the main query. *)
Lemma trainer_class_rows_nil t w :
  (forall o c, o ∈ classofferings d -> c ∈ classes d -> ClassOffering.trainer_id o = t ->
               ClassOffering.id o = Class.classoffering_id c -> Class.weekday_id c <> Weekday.id w) ->
  trainer_class_rows d t (Weekday.id w) = [].
Proof.
  intros Hnone. destruct (trainer_class_rows d t (Weekday.id w)) as [|x rows] eqn:Hrows; [done|].
  exfalso.
  destruct (proj1 (trainer_class_rows_spec d t (Weekday.id w) x)) as (ct & o & c & _ & Ho & Hc & _ & Hoc & Hto & Hcw & _).
  { rewrite Hrows. apply list_elem_of_here. }
  by apply (Hnone o c).
Qed.

(** C24: for an existing trainer (id other than 0) and weekday,
    [get_classes_by_trainer] returns the trainer's names, the weekday's
    name and exactly the (class type, time) pairs of the classes of the
    trainer's offerings on that weekday; a trainer who teaches no class
    that day gets an empty list, not an error. *)
Theorem get_classes_by_trainer_ok t p w :
  constraints_ok d -> t <> 0 -> trainer_person d t p -> w ∈ weekdays d ->
  exists rows,
    get_classes_by_trainer d t (Weekday.id w) =
    Ok (Person.forename p, Person.surname p, Weekday.name w, rows) /\
    (forall x, x ∈ rows <->
      exists ct o c, ct ∈ classtypes d /\ o ∈ classofferings d /\ c ∈ classes d /\
        ClassType.id ct = ClassOffering.classtype_id o /\
        ClassOffering.id o = Class.classoffering_id c /\
        ClassOffering.trainer_id o = t /\ Class.weekday_id c = Weekday.id w /\
        x = (ClassType.name ct, Class.time c)) /\
    ((forall o c, o ∈ classofferings d -> c ∈ classes d -> ClassOffering.trainer_id o = t ->
                  ClassOffering.id o = Class.classoffering_id c -> Class.weekday_id c <> Weekday.id w) ->
     rows = []).
Proof.
  intros Hok Ht Hp Hw. rewrite (get_classes_by_trainer_eq t p w Hok Ht Hp Hw).
  eexists. split; [reflexivity|]. split; [apply trainer_class_rows_spec|].
  apply trainer_class_rows_nil.
Qed.
(** For a four-digit year [y], [count_registrations_by_year] counts
    exactly the persons whose enter date lies in year [y]. *)
Lemma count_registrations_by_year_4digits y :
  1000 <= y <= 9999 ->
  count_registrations_by_year d y =
  Ok (Z.of_nat (length (filter (fun p => year (Person.enterdate p) = y) (persons d)))).
Proof.
  intros Hy. unfold count_registrations_by_year. do 4 f_equal.
  apply list_filter_iff. intros p. by apply strftime_Y_4digits.
Qed.

(** For a year below 1000 [count_registrations_by_year] answers 0:
    [strftime('%Y', enterdate)] has four digits and [str(year)] fewer. *)
Lemma count_registrations_by_year_small y :
  0 <= y < 1000 -> count_registrations_by_year d y = Ok 0.
Proof.
  intros Hy. unfold count_registrations_by_year.
  rewrite filter_none; [done|]. intros p. by apply strftime_Y_short.
Qed.

(** C26: for a year of 1 to 9999, [count_registrations_by_year] counts
    the persons whose enter date lies in that year when the year has four
    digits, and answers 0 for every year below 1000, whatever the
    database: [strftime('%Y', enterdate)] is zero-padded to four digits
    and [str(year)] is not. *)
Theorem count_registrations_by_year_ok y :
  1 <= y <= 9999 ->
  count_registrations_by_year d y =
  Ok (if 1000 <=? y
      then Z.of_nat (length (filter (fun p => year (Person.enterdate p) = y) (persons d)))
      else 0).
Proof.
  intros Hy. destruct (Z.leb_spec 1000 y).
  - apply count_registrations_by_year_4digits. lia.
  - apply count_registrations_by_year_small. lia.
Qed.

End QueryTheorems.

(** ** Witnesses on the fixture *)

Lemma sample_class_info_spinning : class_info sample_db 3 spinning monday.
Proof. exists spinning_monday, offering_spinning_dana. repeat split; compute_decide. Qed.

Lemma count_free_spots_by_class_ok_witness :
  count_free_spots_by_class sample_db 3 =
  Ok ("Spinning", "Monday", Z.max (ClassType.maxparticipants spinning - occupied_spots sample_db 3) 0).
Proof.
  apply (count_free_spots_by_class_ok sample_db 3 spinning monday).
  - compute_decide.
  - exists spinning_monday, offering_spinning_dana. repeat split; compute_decide.
Defined.

Lemma get_registrations_by_class_agrees_witness :
  get_registrations_by_class sample_db 3 = Ok ("Spinning", "Monday", occupied_spots sample_db 3).
Proof.
  apply (get_registrations_by_class_agrees sample_db 3 spinning monday).
  - compute_decide.
  - exists spinning_monday, offering_spinning_dana. repeat split; compute_decide.
Defined.

Lemma is_membership_terminated_ok_witness :
  is_membership_terminated sample_db (mkDate 2024 1 1) 3 =
  Ok (terminated_before (mkDate 2024 1 1) (Person.leavedate cara), "Cara", "Wolf").
Proof.
  apply (is_membership_terminated_ok sample_db (mkDate 2024 1 1) 3 cara).
  - compute_decide.
  - exists (Member.mk 3 3). repeat split; compute_decide.
Defined.

Lemma is_member_registered_ok_witness :
  is_member_registered sample_db 1 1 =
  Ok ("Anna", "Meier", "Yoga", "Monday", bool_decide (registered sample_db 1 1)).
Proof.
  apply (is_member_registered_ok sample_db 1 1 anna yoga monday).
  - compute_decide.
  - lia.
  - exists (Member.mk 1 1). repeat split; compute_decide.
  - exists yoga_monday, offering_yoga_ben. repeat split; compute_decide.
Defined.

Lemma is_member_instructor_ok_witness :
  exists b, is_member_instructor sample_db 2 1 = Ok ("Ben", "Schulz", "Yoga", "Monday", b) /\
            (b = true <-> instructs sample_db 2 1).
Proof.
  apply (is_member_instructor_ok sample_db 2 1 ben yoga monday).
  - compute_decide.
  - lia.
  - exists (Member.mk 2 2). repeat split; compute_decide.
  - exists yoga_monday, offering_yoga_ben. repeat split; compute_decide.
Defined.

(** Dana (trainer 2) teaches nothing on Wednesday. *)
Lemma get_classes_by_trainer_ok_witness :
  exists rows,
    get_classes_by_trainer sample_db 2 (Weekday.id wednesday) =
    Ok ("Dana", "Braun", "Wednesday", rows) /\
    (forall x, x ∈ rows <->
      exists ct o c, ct ∈ classtypes sample_db /\ o ∈ classofferings sample_db /\
        c ∈ classes sample_db /\
        ClassType.id ct = ClassOffering.classtype_id o /\
        ClassOffering.id o = Class.classoffering_id c /\
        ClassOffering.trainer_id o = 2 /\ Class.weekday_id c = Weekday.id wednesday /\
        x = (ClassType.name ct, Class.time c)) /\
    ((forall o c, o ∈ classofferings sample_db -> c ∈ classes sample_db ->
                  ClassOffering.trainer_id o = 2 -> ClassOffering.id o = Class.classoffering_id c ->
                  Class.weekday_id c <> Weekday.id wednesday) ->
     rows = []).
Proof.
  apply (get_classes_by_trainer_ok sample_db 2 dana wednesday).
  - compute_decide.
  - lia.
  - exists (Trainer.mk 2 2), (Employee.mk 2 4). repeat split; compute_decide.
  - compute_decide.
Defined.

Lemma count_registrations_by_year_ok_witness :
  count_registrations_by_year sample_db 2021 = Ok 3.
Proof. rewrite (count_registrations_by_year_ok sample_db 2021); [reflexivity|lia]. Defined.

