(* ===== verification/Legacy.v ===== *)
(** * Legacy: the older query script [src/create_functions.py]

    The file predates [scripts/python/create_functions.py] and shares most
    of its functions word for word; those are modelled once, in [Lookups]
    and [Queries].  Module [Legacy] holds the two functions whose code
    differs: [is_trainer_instructor], which the newer script replaced by
    [is_member_instructor], and the older [is_member_registered], whose
    query joins [members] and [classes].  The theorems characterise the
    first and show that the second answers exactly as the newer one, on
    every database. *)

From S2P Require Import Prelude Schema Lookups Fixture Queries.

Module Legacy.

(** classes JOIN classofferings
    WHERE classofferings.trainer_id = trainer_id AND classes.id = class_id. *)
Definition trainer_instructor_rows (d : db) (trainer_id class_id : Z) : list Z :=
  c ← classes d; o ← classofferings d;
  if decide (Class.classoffering_id c = ClassOffering.id o /\
             ClassOffering.trainer_id o = trainer_id /\ Class.id c = class_id)
  then [Class.id c] else [].

(** 4. [is_trainer_instructor(trainer_id, class_id)]. *)
Definition is_trainer_instructor (d : db) (trainer_id class_id : Z)
  : result (string * string * string * string * bool) :=
  if negb (check_trainer_exists d trainer_id) then Raise (trainer_not_found trainer_id) else
  if negb (check_class_exists d class_id) then Raise (class_not_found class_id) else
  name <- get_person_name d None (Some trainer_id) ;;
  sf <- unpack name ;;
  let '(surname, forename) := sf in
  cw <- unpack (get_class_and_weekday d class_id) ;;
  let '(class_, weekday) := cw in
  Ok (forename, surname, class_, weekday,
      bool_decide (trainer_instructor_rows d trainer_id class_id <> [])).

(** registrations JOIN members ON members.id = registrations.member_id
    JOIN classes ON registrations.class_id = classes.id
    WHERE members.id = member_id AND registrations.class_id = class_id. *)
Definition member_class_rows (d : db) (member_id class_id : Z) : list Z :=
  r ← registrations d; m ← members d; c ← classes d;
  if decide (Member.id m = Registration.member_id r /\
             Registration.class_id r = Class.id c /\
             Member.id m = member_id /\ Registration.class_id r = class_id)
  then [Registration.id r] else [].

(** 6. [is_member_registered(member_id, class_id)], older version. *)
Definition is_member_registered (d : db) (member_id class_id : Z)
  : result (string * string * string * string * bool) :=
  if negb (check_member_exists d member_id) then Raise (member_not_found member_id) else
  if negb (check_class_exists d class_id) then Raise (class_not_found class_id) else
  name <- get_person_name d (Some member_id) None ;;
  sf <- unpack name ;;
  let '(surname, forename) := sf in
  cw <- unpack (get_class_and_weekday d class_id) ;;
  let '(class_, weekday) := cw in
  Ok (forename, surname, class_, weekday,
      bool_decide (member_class_rows d member_id class_id <> [])).

Lemma trainer_instructor_rows_spec d t c :
  trainer_instructor_rows d t c <> [] <-> class_trainer d c t.
Proof.
  rewrite nonempty_iff. unfold trainer_instructor_rows, class_trainer. join_simpl.
  naive_solver.
Qed.

(** Once [members] holds [m] and [classes] holds [c], the two joins of the
    older query add nothing to the newer query's filter. *)
Lemma member_class_rows_spec d m c :
  refers (members d) m -> refers (classes d) c ->
  member_class_rows d m c <> [] <-> registration_rows d m c <> [].
Proof.
  intros (mm & Hmm & Hmid)%refers_row (cc & Hcc & Hcid)%refers_row.
  rewrite !nonempty_iff. unfold member_class_rows, registration_rows. join_simpl.
  split.
  - intros (x & r & (m' & (c' & ((Hrm & Hrc & Hm & Hc) & ->) & _) & _) & Hr). exists (Registration.id r), r. split; [|done]. split; [|done]. split; congruence.
  - intros (x & r & ((Hrm & Hrc) & ->) & Hr).
    exists (Registration.id r), r. split; [|done]. exists mm. split; [|done].
    exists cc. unfold_keys. split; [|done]. split; [|done]. repeat split; lia.
Qed.

(** C28: for an existing trainer (id other than 0) and class, the older
    [is_trainer_instructor] returns the trainer's names, the class type's
    and weekday's names, and whether the class's offering is led by that
    trainer. *)
Theorem is_trainer_instructor_ok d t c p ct w :
  constraints_ok d -> t <> 0 -> trainer_person d t p -> class_info d c ct w ->
  is_trainer_instructor d t c =
  Ok (Person.forename p, Person.surname p, ClassType.name ct, Weekday.name w,
      bool_decide (class_trainer d c t)).
Proof.
  intros Hok Ht Hp Hi. unfold is_trainer_instructor.
  rewrite (proj2 (check_trainer_exists_spec _ _) (trainer_person_refers _ _ _ Hp)),
          (proj2 (check_class_exists_spec _ _) (class_info_refers _ _ _ _ Hi)). simpl.
  rewrite (get_person_name_trainer d t p Hok Ht Hp). simpl.
  rewrite (get_class_and_weekday_info d Hok c ct w Hi). simpl.
  do 2 f_equal. apply bool_decide_ext, trainer_instructor_rows_spec.
Qed.

(** C29: the older [is_member_registered], which joins [members] and
    [classes], returns exactly what the newer one returns, errors
    included, on every database. *)
Theorem is_member_registered_agrees d m c :
  is_member_registered d m c = Queries.is_member_registered d m c.
Proof.
  unfold is_member_registered, Queries.is_member_registered.
  destruct (check_member_exists d m) eqn:Hm; [|done].
  destruct (check_class_exists d c) eqn:Hc; [|done]. simpl.
  destruct (get_person_name d (Some m) None) as [[[sn fn]|]|]; simpl; [|done|done].
  destruct (get_class_and_weekday d c) as [[cl wk]|]; simpl; [|done].
  do 2 f_equal. apply bool_decide_ext, member_class_rows_spec;
    [by apply check_member_exists_spec|by apply check_class_exists_spec].
Qed.

Lemma is_trainer_instructor_ok_witness :
  is_trainer_instructor sample_db 1 1 = Ok ("Ben", "Schulz", "Yoga", "Monday", true).
Proof.
  rewrite (is_trainer_instructor_ok sample_db 1 1 ben yoga monday).
  - vm_compute. reflexivity.
  - compute_decide.
  - lia.
  - exists (Trainer.mk 1 1), (Employee.mk 1 2). repeat split; compute_decide.
  - exists yoga_monday, offering_yoga_ben. repeat split; compute_decide.
Defined.

End Legacy.
