(* ===== verification/Views.v ===== *)
(** * Views: the five views of [scripts/python/create_views.py]

    Each view is a SELECT over inner (and, for
    [vw_employeesasinstructors], left) joins, optionally a GROUP BY, and
    an ORDER BY.  A join is the nested loop over its FROM clause in the
    order written ([Prelude.join_simpl] turns membership in it into the
    join condition).  The rows of a view are computed with their ORDER BY
    key (the keyed rows) and then sorted by that key ([order_by], stdpp's
    merge sort): SQLite promises only some order consistent with the key,
    so the theorems state the rows up to the order of rows with equal keys
    and the order as an explicit relation on the ORDER BY columns.  To
    count rows, a join is rewritten as the list of its chains of table
    rows ([classes_chains], [reg_chains], [yoga_chains]); under the
    schema's keys the chains are distinct and determined by the row of one
    table.  [DATE('now')] is the parameter [now]. *)

From stdpp Require Import sorting.
From S2P Require Import Prelude Schema Lookups Fixture Queries.

(** ** ORDER BY *)

Section OrderBy.
Context {A : Type}.

(** A comparison of rows is antisymmetric when swapping its arguments
    swaps the answer; this is what makes [<= ] total. *)
Definition antisym_cmp (cmp : A -> A -> comparison) : Prop :=
  forall a b, cmp b a = CompOpp (cmp a b).

(** [ORDER BY k1, k2]: compare by [k1], then by [k2] on ties. *)
Definition then_cmp (c1 c2 : A -> A -> comparison) (a b : A) : comparison :=
  match c1 a b with
  | Eq => c2 a b
  | c => c
  end.

Definition by_key {K} (f : A -> K) (cmp : K -> K -> comparison) (a b : A) : comparison :=
  cmp (f a) (f b).

Definition cmp_le (cmp : A -> A -> comparison) (a b : A) : Prop := cmp a b <> Gt.

#[export] Instance cmp_le_dec cmp a b : Decision (cmp_le cmp a b).
Proof. unfold cmp_le. apply _. Defined.

(** The rows in an order consistent with [cmp]. *)
Definition order_by (cmp : A -> A -> comparison) (l : list A) : list A :=
  merge_sort (cmp_le cmp) l.

Lemma then_cmp_antisym c1 c2 : antisym_cmp c1 -> antisym_cmp c2 -> antisym_cmp (then_cmp c1 c2).
Proof.
  intros H1 H2 a b. unfold then_cmp. rewrite (H1 a b), (H2 a b).
  by destruct (c1 a b).
Qed.

Lemma by_key_antisym {K} (f : A -> K) cmp :
  (forall x y, cmp y x = CompOpp (cmp x y)) -> antisym_cmp (by_key f cmp).
Proof. intros H a b. apply H. Qed.

#[export] Instance cmp_le_total cmp : antisym_cmp cmp -> Total (cmp_le cmp).
Proof.
  intros Hanti a b. unfold cmp_le. rewrite (Hanti a b).
  destruct (cmp a b); [left|left|right]; discriminate.
Qed.

Lemma order_by_Permutation cmp l : order_by cmp l ≡ₚ l.
Proof. apply merge_sort_Permutation. Qed.

Lemma order_by_Sorted cmp l : antisym_cmp cmp -> Sorted (cmp_le cmp) (order_by cmp l).
Proof. intros Hanti. apply Sorted_merge_sort, cmp_le_total, Hanti. Qed.

Lemma elem_of_order_by cmp l x : x ∈ order_by cmp l <-> x ∈ l.
Proof. apply elem_of_Permutation_proper, order_by_Permutation. Qed.

End OrderBy.

(** [SELECT cols ... ORDER BY keys]: the keyed rows sorted by key, then
    the key dropped (the ORDER BY columns need not be selected). *)
Definition select_order_by {K R} (cmp : K -> K -> comparison) (rows : list (K * R)) : list R :=
  snd <$> order_by (by_key fst cmp) rows.

Lemma elem_of_select_order_by {K R} (cmp : K -> K -> comparison) rows (x : R) :
  x ∈ select_order_by cmp rows <-> exists k, (k, x) ∈ rows.
Proof.
  unfold select_order_by. rewrite list_elem_of_fmap. setoid_rewrite elem_of_order_by.
  split; [intros ([k y] & -> & H); by exists k|intros (k & H); by exists (k, x)].
Qed.

(** The sortedness every view inherits from its ORDER BY. *)
Lemma select_order_by_sorted {K R} (cmp : K -> K -> comparison) (rows : list (K * R)) :
  (forall x y, cmp y x = CompOpp (cmp x y)) ->
  exists kr, kr ≡ₚ rows /\ Sorted (cmp_le (by_key fst cmp)) kr /\ select_order_by cmp rows = snd <$> kr.
Proof.
  intros Hanti. exists (order_by (by_key fst cmp) rows).
  split; [apply order_by_Permutation|]. split; [|done].
  by apply order_by_Sorted, by_key_antisym.
Qed.

(** ** The chains of rows behind a join

    A row of an inner join is built from one chain of table rows (one row
    per table of the FROM clause) that satisfies the ON conditions.  When
    the chains are distinct and one table's row determines its chain
    (every other table is reached through primary keys), the view has
    exactly one row per row of that table that has a chain. *)

Lemma fmap_list_bind {A B C} (f : B -> C) (g : A -> list B) (l : list A) :
  f <$> (l ≫= g) = l ≫= (fun x => f <$> g x).
Proof. induction l as [|x l IH]; [done|]. by rewrite !bind_cons, fmap_app, IH. Qed.

Lemma fmap_guard_singleton {A B} (f : A -> B) (P : Prop) `{Decision P} (a : A) :
  f <$> (if decide P then [a] else []) = if decide P then [f a] else [].
Proof. by case_decide. Qed.

Lemma fmap_map_eq {A B} (f : A -> B) (l : list A) : f <$> l = map f l.
Proof. induction l as [|x l IH]; [done|]. simpl. by rewrite <- IH. Qed.

(** A table with a primary key has no duplicate rows. *)
Lemma NoDup_table {R} `{Keyed R} (t : list R) : pk t -> NoDup t.
Proof. unfold pk. rewrite <- fmap_map_eq. apply NoDup_fmap_1. Qed.

(** Sortedness carried from one image of a list to another. *)
Lemma Sorted_fmap_transfer {A B C} (R : B -> B -> Prop) (S : C -> C -> Prop)
    (f : A -> B) (g : A -> C) (l : list A) :
  (forall x y, x ∈ l -> y ∈ l -> R (f x) (f y) -> S (g x) (g y)) ->
  Sorted R (f <$> l) -> Sorted S (g <$> l).
Proof.
  induction l as [|x l IH]; intros Hf Hs; simpl in *; [constructor|].
  apply Sorted_inv in Hs as [Hs Hhd]. constructor.
  - apply IH; [|done]. intros y z Hy Hz. apply Hf; by apply list_elem_of_further.
  - destruct l as [|y l]; [constructor|]. simpl in *. apply HdRel_inv in Hhd.
    constructor. apply Hf; [apply list_elem_of_here|apply list_elem_of_further, list_elem_of_here|done].
Qed.

(** A view over chains: the chains are distinct and determined by their
    image [pi]; each chain's row is related to its image by [rel], and
    the ORDER BY key of two chains orders their images by [S].  Then the
    view lists one row per image, in an order sorted by [S]. *)
Lemma select_order_by_chains {T A K R} (cmp : K -> K -> comparison) (chains : list T)
    (pi : T -> A) (key : T -> K) (row : T -> R) (rel : A -> R -> Prop) (S : A -> A -> Prop) :
  (forall x y, cmp y x = CompOpp (cmp x y)) ->
  NoDup chains ->
  (forall t1 t2, t1 ∈ chains -> t2 ∈ chains -> pi t1 = pi t2 -> t1 = t2) ->
  (forall t, t ∈ chains -> rel (pi t) (row t)) ->
  (forall t1 t2, t1 ∈ chains -> t2 ∈ chains -> cmp (key t1) (key t2) <> Gt -> S (pi t1) (pi t2)) ->
  exists cs, NoDup cs /\ (forall a, a ∈ cs <-> exists t, t ∈ chains /\ pi t = a) /\
    Forall2 rel cs (select_order_by cmp ((fun t => (key t, row t)) <$> chains)) /\ Sorted S cs.
Proof.
  intros Hanti Hnd Hinj Hrel Hord.
  pose proof (order_by_Permutation (by_key fst cmp) ((fun t => (key t, row t)) <$> chains)) as Hp.
  rewrite fmap_map_eq in Hp. apply Permutation_map_inv in Hp as (ch & Hkr & Hch).
  rewrite <- !fmap_map_eq in Hkr.
  assert (Hmem : forall t, t ∈ ch <-> t ∈ chains) by (intros t; by rewrite Hch).
  exists (pi <$> ch). split_and!.
  - apply NoDup_fmap_2_strong; [intros t1 t2 H1 H2; apply Hinj; by apply Hmem|by rewrite <- Hch].
  - intros a. rewrite list_elem_of_fmap. setoid_rewrite Hmem. naive_solver.
  - unfold select_order_by. rewrite Hkr, <- list_fmap_compose.
    apply Forall2_fmap, Forall_Forall2_diag, Forall_forall. intros t Ht. apply Hrel, Hmem, Ht.
  - pose proof (order_by_Sorted (by_key fst cmp) ((fun t => (key t, row t)) <$> chains)
                  (by_key_antisym fst cmp Hanti)) as Hs.
    rewrite Hkr in Hs. revert Hs. apply Sorted_fmap_transfer.
    intros t1 t2 H1 H2. apply Hord; by apply Hmem.
Qed.

(** The same, when the images are exactly the rows of a table. *)
Lemma select_order_by_table {T A K R} (cmp : K -> K -> comparison) (chains : list T)
    (pi : T -> A) (key : T -> K) (row : T -> R) (rel : A -> R -> Prop) (S : A -> A -> Prop)
    (tbl : list A) :
  (forall x y, cmp y x = CompOpp (cmp x y)) ->
  NoDup chains ->
  (forall t1 t2, t1 ∈ chains -> t2 ∈ chains -> pi t1 = pi t2 -> t1 = t2) ->
  (forall t, t ∈ chains -> rel (pi t) (row t)) ->
  (forall t1 t2, t1 ∈ chains -> t2 ∈ chains -> cmp (key t1) (key t2) <> Gt -> S (pi t1) (pi t2)) ->
  NoDup tbl -> (forall a, a ∈ tbl <-> exists t, t ∈ chains /\ pi t = a) ->
  exists cs, cs ≡ₚ tbl /\
    Forall2 rel cs (select_order_by cmp ((fun t => (key t, row t)) <$> chains)) /\ Sorted S cs.
Proof.
  intros Hanti Hnd Hinj Hrel Hord Htbl Hmem.
  destruct (select_order_by_chains cmp chains pi key row rel S Hanti Hnd Hinj Hrel Hord)
    as (cs & Hcs & Hmem' & Hrows & Hsort).
  exists cs. split; [|done]. apply NoDup_Permutation; [done|done|].
  intros a. by rewrite Hmem, Hmem'.
Qed.

(** The comparisons of the columns the views sort by. *)
Lemma Z_compare_antisym' (x y : Z) : (y ?= x) = CompOpp (x ?= y).
Proof. apply Z.compare_antisym. Qed.

Lemma time_compare_antisym (x y : time) : time_compare y x = CompOpp (time_compare x y).
Proof. apply lex3_antisym. Qed.

Lemma date_compare_antisym (x y : date) : date_compare y x = CompOpp (date_compare x y).
Proof. apply lex3_antisym. Qed.

Lemma string_compare_antisym (x y : string) : String.compare y x = CompOpp (String.compare x y).
Proof. apply String.compare_antisym. Qed.

#[export] Hint Resolve then_cmp_antisym by_key_antisym Z_compare_antisym' time_compare_antisym
  date_compare_antisym string_compare_antisym : gym.

(** [ORDER BY weekdays.id, classes.time]. *)
Definition weekday_time_cmp : Z * time -> Z * time -> comparison :=
  then_cmp (by_key fst Z.compare) (by_key snd time_compare).

Lemma weekday_time_cmp_antisym x y :
  weekday_time_cmp y x = CompOpp (weekday_time_cmp x y).
Proof. apply then_cmp_antisym; auto with gym. Qed.

Lemma cmp_then_le {A} (c1 c2 : A -> A -> comparison) a b :
  then_cmp c1 c2 a b <> Gt <-> c1 a b = Lt \/ c1 a b = Eq /\ c2 a b <> Gt.
Proof. unfold then_cmp. destruct (c1 a b); naive_solver. Qed.

Lemma weekday_time_cmp_le w1 t1 w2 t2 :
  weekday_time_cmp (w1, t1) (w2, t2) <> Gt <->
  w1 < w2 \/ w1 = w2 /\ time_compare t1 t2 <> Gt.
Proof.
  unfold weekday_time_cmp. rewrite cmp_then_le. unfold by_key. simpl.
  rewrite Z.compare_lt_iff, Z.compare_eq_iff. tauto.
Qed.

(** The nested loops of a join over tables with primary keys give
    distinct chains. *)
Ltac nodup_chains Hok :=
  repeat (apply NoDup_bind;
          [let H1 := fresh in let H2 := fresh in
           intros ??? _ _ H1 H2; revert H1 H2; join_simpl; naive_solver
          |intros ? _
          |apply NoDup_table;
           eauto using pk_persons, pk_members, pk_employees, pk_trainers, pk_classtypes,
             pk_classofferings, pk_classes, pk_weekdays, pk_rooms, pk_registrations]);
  cbn beta; case_decide; [apply NoDup_singleton|constructor].

(** Rows of keyed tables reached through their ids are the same rows. *)
Ltac same_rows_all Hok :=
  do 3 same_rows Hok; same_by rooms Room.id pk_rooms Hok;
  same_by registrations Registration.id pk_registrations Hok.

(** ** 1. [vw_classes]: who teaches which class, when and where *)

Definition classes_rows (d : db)
  : list (Z * time * (string * time * string * string * string * string)) :=
  p ← persons d; e ← employees d; t ← trainers d; o ← classofferings d; c ← classes d;
  w ← weekdays d; ct ← classtypes d; rm ← rooms d;
  if decide (Person.id p = Employee.person_id e /\ Employee.id e = Trainer.employee_id t /\
             Trainer.id t = ClassOffering.trainer_id o /\
             ClassOffering.id o = Class.classoffering_id c /\
             Class.weekday_id c = Weekday.id w /\ ClassOffering.classtype_id o = ClassType.id ct /\
             ClassType.room_id ct = Room.id rm)
  then [((Weekday.id w, Class.time c),
         (Weekday.name w, Class.time c, Person.surname p, Person.forename p,
          ClassType.name ct, Room.name rm))]
  else [].

Definition vw_classes (d : db) : list (string * time * string * string * string * string) :=
  select_order_by weekday_time_cmp (classes_rows d).

(** The chains of rows behind [vw_classes]. *)
Definition classes_chains (d : db)
  : list (Person.t * Employee.t * Trainer.t * ClassOffering.t * Class.t * Weekday.t *
          ClassType.t * Room.t) :=
  p ← persons d; e ← employees d; t ← trainers d; o ← classofferings d; c ← classes d;
  w ← weekdays d; ct ← classtypes d; rm ← rooms d;
  if decide (Person.id p = Employee.person_id e /\ Employee.id e = Trainer.employee_id t /\
             Trainer.id t = ClassOffering.trainer_id o /\
             ClassOffering.id o = Class.classoffering_id c /\
             Class.weekday_id c = Weekday.id w /\ ClassOffering.classtype_id o = ClassType.id ct /\
             ClassType.room_id ct = Room.id rm)
  then [(p, e, t, o, c, w, ct, rm)]
  else [].

Definition classes_key (x : Person.t * Employee.t * Trainer.t * ClassOffering.t * Class.t *
                            Weekday.t * ClassType.t * Room.t) : Z * time :=
  let '(p, e, t, o, c, w, ct, rm) := x in (Weekday.id w, Class.time c).

Definition classes_row (x : Person.t * Employee.t * Trainer.t * ClassOffering.t * Class.t *
                            Weekday.t * ClassType.t * Room.t)
  : string * time * string * string * string * string :=
  let '(p, e, t, o, c, w, ct, rm) := x in
  (Weekday.name w, Class.time c, Person.surname p, Person.forename p, ClassType.name ct,
   Room.name rm).

Lemma classes_rows_chains d :
  classes_rows d = (fun x => (classes_key x, classes_row x)) <$> classes_chains d.
Proof.
  unfold classes_rows, classes_chains.
  do 8 (rewrite fmap_list_bind; apply list_bind_ext; [intros ?|done]).
  by case_decide.
Qed.

Lemma elem_of_classes_chains d x :
  x ∈ classes_chains d <->
  exists p e t o c w ct rm, x = (p, e, t, o, c, w, ct, rm) /\
    p ∈ persons d /\ e ∈ employees d /\ t ∈ trainers d /\ o ∈ classofferings d /\
    c ∈ classes d /\ w ∈ weekdays d /\ ct ∈ classtypes d /\ rm ∈ rooms d /\
    Person.id p = Employee.person_id e /\ Employee.id e = Trainer.employee_id t /\
    Trainer.id t = ClassOffering.trainer_id o /\ ClassOffering.id o = Class.classoffering_id c /\
    Class.weekday_id c = Weekday.id w /\ ClassOffering.classtype_id o = ClassType.id ct /\
    ClassType.room_id ct = Room.id rm.
Proof. unfold classes_chains. join_simpl. naive_solver. Qed.

Lemma classes_chains_NoDup d : constraints_ok d -> NoDup (classes_chains d).
Proof. intros Hok. unfold classes_chains. nodup_chains Hok. Qed.

(** Under referential integrity every class has its chain. *)
Lemma classes_chain_exists d c :
  fk_ok d -> c ∈ classes d -> exists x, x ∈ classes_chains d /\ (let '(_, _, _, _, c', _, _, _) := x in c') = c.
Proof.
  intros Hfk Hc.
  destruct (fk_offering d Hfk c Hc) as [(o & Ho & Hoid)%refers_row (w & Hw & Hwid)%refers_row].
  destruct (fk_classtype d Hfk o Ho) as [(ct & Hct & Hctid)%refers_row (t & Ht & Htid)%refers_row].
  destruct (refers_row _ _ (fk_trainer_employee d Hfk t Ht)) as (e & He & Heid).
  destruct (refers_row _ _ (fk_employee_person d Hfk e He)) as (p & Hp & Hpid).
  destruct (refers_row _ _ (fk_room d Hfk ct Hct)) as (rm & Hrm & Hrmid).
  unfold_keys. exists (p, e, t, o, c, w, ct, rm). split; [|done].
  apply elem_of_classes_chains. do 8 eexists. split; [reflexivity|]. naive_solver.
Qed.

(** C30: on a well-formed database, [vw_classes] has exactly one row per
    class (the classes in some order [cs]): the weekday, time, trainer's
    names, class type and room reached from that class through its
    offering, and the rows are ordered by weekday id, then by time. *)
Theorem vw_classes_ok d :
  wf d ->
  exists cs, cs ≡ₚ classes d /\
    Forall2 (fun c x => exists o p ct w rm,
        o ∈ classofferings d /\ ClassOffering.id o = Class.classoffering_id c /\
        trainer_person d (ClassOffering.trainer_id o) p /\
        ct ∈ classtypes d /\ ClassType.id ct = ClassOffering.classtype_id o /\
        w ∈ weekdays d /\ Weekday.id w = Class.weekday_id c /\
        rm ∈ rooms d /\ Room.id rm = ClassType.room_id ct /\
        x = (Weekday.name w, Class.time c, Person.surname p, Person.forename p,
             ClassType.name ct, Room.name rm))
      cs (vw_classes d) /\
    Sorted (fun c1 c2 => Class.weekday_id c1 < Class.weekday_id c2 \/
                         Class.weekday_id c1 = Class.weekday_id c2 /\
                         time_compare (Class.time c1) (Class.time c2) <> Gt) cs.
Proof.
  intros [Hok Hfk]. unfold vw_classes. rewrite classes_rows_chains.
  eapply (select_order_by_table _ _ (fun '(_, _, _, _, c, _, _, _) => c));
    [apply weekday_time_cmp_antisym|by apply classes_chains_NoDup|..
    |by apply NoDup_table, pk_classes|].
  - intros x1 x2 (?&?&?&?&?&?&?&?&->&?&?&?&?&?&?&?&?&?&?&?&?&?&?&?)%elem_of_classes_chains
      (?&?&?&?&?&?&?&?&->&?&?&?&?&?&?&?&?&?&?&?&?&?&?&?)%elem_of_classes_chains ->.
    same_rows_all Hok. reflexivity.
  - intros x (p&e&t&o&c&w&ct&rm&->&?&?&?&?&?&?&?&?&?&?&?&?&?&?&?)%elem_of_classes_chains.
    exists o, p, ct, w, rm. unfold trainer_person. naive_solver.
  - intros x1 x2 (?&?&?&?&?&w1&?&?&->&?&?&?&?&?&?&?&?&?&?&?&?&E1&?&?)%elem_of_classes_chains
      (?&?&?&?&?&w2&?&?&->&?&?&?&?&?&?&?&?&?&?&?&?&E2&?&?)%elem_of_classes_chains.
    simpl. rewrite weekday_time_cmp_le, E1, E2. done.
  - intros c. split.
    + intros Hc. exact (classes_chain_exists d c Hfk Hc).
    + intros (x & (?&?&?&?&?&?&?&?&->&?&?&?&?&?&?&?&?&?&?&?&?&?&?&?)%elem_of_classes_chains & <-).
      done.
Qed.

(** ** 2. [vw_registrations]: registrations and capacity per group *)

(** The GROUP BY columns of each row of the join: [weekdays.name],
    [classes.time], [classtypes.name], [classes.weekday_id],
    [classtypes.maxparticipants]; one entry per registration. *)
Definition registrations_keys (d : db) : list (string * time * string * Z * Z) :=
  c ← classes d; w ← weekdays d; r ← registrations d; o ← classofferings d; ct ← classtypes d;
  if decide (Class.weekday_id c = Weekday.id w /\ Class.id c = Registration.class_id r /\
             Class.classoffering_id c = ClassOffering.id o /\
             ClassOffering.classtype_id o = ClassType.id ct)
  then [(Weekday.name w, Class.time c, ClassType.name ct, Class.weekday_id c,
         ClassType.maxparticipants ct)]
  else [].

(** [COUNT(...)] of one group. *)
Definition group_count {K} `{EqDecision K} (keys : list K) (k : K) : Z :=
  Z.of_nat (length (filter (fun k' => k' = k) keys)).

(** GROUP BY: one group per distinct key, with its count. *)
Definition group_by {K} `{EqDecision K} (keys : list K) : list (K * Z) :=
  (fun k => (k, group_count keys k)) <$> remove_dups keys.

Definition vw_registrations (d : db) : list (string * time * string * Z * Z) :=
  select_order_by weekday_time_cmp
    ((fun g => let '(wname, t, ctname, wid, mx, n) := g in ((wid, t), (wname, t, ctname, n, mx)))
       <$> group_by (registrations_keys d)).

Lemma elem_of_group_by {K} `{EqDecision K} (keys : list K) k n :
  (k, n) ∈ group_by keys <-> k ∈ keys /\ n = group_count keys k.
Proof.
  unfold group_by. rewrite list_elem_of_fmap. setoid_rewrite elem_of_remove_dups.
  naive_solver.
Qed.

Lemma group_count_pos {K} `{EqDecision K} (keys : list K) k : k ∈ keys -> 1 <= group_count keys k.
Proof.
  intros Hk. unfold group_count.
  assert (k ∈ filter (fun k' => k' = k) keys) as Hf by (by apply list_elem_of_filter).
  destruct (filter _ _); [by apply not_elem_of_nil in Hf|simpl; lia].
Qed.

Lemma elem_of_vw_registrations d x :
  x ∈ vw_registrations d <->
  exists wname t ctname wid mx,
    (wname, t, ctname, wid, mx) ∈ registrations_keys d /\
    x = (wname, t, ctname, group_count (registrations_keys d) (wname, t, ctname, wid, mx), mx).
Proof.
  unfold vw_registrations. rewrite elem_of_select_order_by. split.
  - intros (k & Hk). apply list_elem_of_fmap in Hk as ([[[[[wname t] ctname] wid] mx] n] & Heq & Hg).
    apply elem_of_group_by in Hg as [Hin ->]. injection Heq as -> ->. eauto 10.
  - intros (wname & t & ctname & wid & mx & Hin & ->). exists (wid, t).
    apply list_elem_of_fmap. exists (wname, t, ctname, wid, mx,
      group_count (registrations_keys d) (wname, t, ctname, wid, mx)).
    split; [done|]. by apply elem_of_group_by.
Qed.

(** The chains of rows behind [vw_registrations]. *)
Definition reg_chains (d : db)
  : list (Class.t * Weekday.t * Registration.t * ClassOffering.t * ClassType.t) :=
  c ← classes d; w ← weekdays d; r ← registrations d; o ← classofferings d; ct ← classtypes d;
  if decide (Class.weekday_id c = Weekday.id w /\ Class.id c = Registration.class_id r /\
             Class.classoffering_id c = ClassOffering.id o /\
             ClassOffering.classtype_id o = ClassType.id ct)
  then [(c, w, r, o, ct)]
  else [].

Definition reg_key (x : Class.t * Weekday.t * Registration.t * ClassOffering.t * ClassType.t)
  : string * time * string * Z * Z :=
  let '(c, w, r, o, ct) := x in
  (Weekday.name w, Class.time c, ClassType.name ct, Class.weekday_id c, ClassType.maxparticipants ct).

Lemma registrations_keys_chains d : registrations_keys d = reg_key <$> reg_chains d.
Proof.
  unfold registrations_keys, reg_chains.
  do 5 (rewrite fmap_list_bind; apply list_bind_ext; [intros ?|done]).
  by case_decide.
Qed.

Lemma elem_of_reg_chains d x :
  x ∈ reg_chains d <->
  exists c w r o ct, x = (c, w, r, o, ct) /\
    c ∈ classes d /\ w ∈ weekdays d /\ r ∈ registrations d /\ o ∈ classofferings d /\
    ct ∈ classtypes d /\
    Class.weekday_id c = Weekday.id w /\ Class.id c = Registration.class_id r /\
    Class.classoffering_id c = ClassOffering.id o /\ ClassOffering.classtype_id o = ClassType.id ct.
Proof. unfold reg_chains. join_simpl. naive_solver. Qed.

Lemma reg_chains_NoDup d : constraints_ok d -> NoDup (reg_chains d).
Proof. intros Hok. unfold reg_chains. nodup_chains Hok. Qed.

Lemma length_filter_fmap {A B} (f : A -> B) (P : B -> Prop) `{forall b, Decision (P b)} (l : list A) :
  length (filter P (f <$> l)) = length (filter (fun a => P (f a)) l).
Proof.
  induction l as [|a l IH]; [done|]. csimpl. rewrite !filter_cons.
  case_decide; simpl; by rewrite IH.
Qed.

(** A row of a table with a UNIQUE column is determined by that column. *)
Lemma unique_row {R A} (f : R -> A) (t : list R) r1 r2 :
  unique f t -> r1 ∈ t -> r2 ∈ t -> f r1 = f r2 -> r1 = r2.
Proof.
  unfold unique. rewrite <- fmap_map_eq. intros Hnd H1 H2 Heq.
  apply list_elem_of_lookup in H1 as [i Hi], H2 as [j Hj].
  assert (i = j) as ->.
  { eapply NoDup_lookup; [exact Hnd| |]; rewrite list_lookup_fmap; [rewrite Hi|rewrite Hj];
      simpl; [reflexivity|]. by rewrite Heq. }
  congruence.
Qed.

(** The group key of class [c] with class type [ct] and weekday [w]. *)
Definition slot_key (c : Class.t) (ct : ClassType.t) (w : Weekday.t) : string * time * string * Z * Z :=
  (Weekday.name w, Class.time c, ClassType.name ct, Class.weekday_id c, ClassType.maxparticipants ct).

(** The registrations counted in the group of key [k]. *)
Definition slot_regs (d : db) (k : string * time * string * Z * Z) : list Registration.t :=
  (fun '(_, _, r, _, _) => r) <$> filter (fun x => reg_key x = k) (reg_chains d).

Lemma group_count_slot d k :
  group_count (registrations_keys d) k = Z.of_nat (length (slot_regs d k)).
Proof.
  unfold group_count, slot_regs. by rewrite registrations_keys_chains, length_fmap, length_filter_fmap.
Qed.

(** The registrations of a group are those of the classes that share the
    weekday, the time and the class type. *)
Lemma slot_regs_spec d c ct w :
  constraints_ok d -> c ∈ classes d -> class_info d (Class.id c) ct w ->
  NoDup (slot_regs d (slot_key c ct w)) /\
  forall r, r ∈ slot_regs d (slot_key c ct w) <->
    r ∈ registrations d /\
    exists c', c' ∈ classes d /\ Class.id c' = Registration.class_id r /\
      Class.weekday_id c' = Class.weekday_id c /\ Class.time c' = Class.time c /\
      class_info d (Class.id c') ct w.
Proof.
  intros Hok Hc (c0 & o & Hc0 & Hc0id & Ho & Hoid & Hct & Hctid & Hw & Hwid).
  assert (c0 = c) as -> by (same_rows_all Hok; reflexivity). unfold slot_regs. split.
  - apply NoDup_fmap_2_strong; [|by apply NoDup_filter, reg_chains_NoDup].
    intros x1 x2 [_ (?&?&?&?&?&->&?&?&?&?&?&?&?&?&?)%elem_of_reg_chains]%list_elem_of_filter
      [_ (?&?&?&?&?&->&?&?&?&?&?&?&?&?&?)%elem_of_reg_chains]%list_elem_of_filter ->.
    same_rows_all Hok. reflexivity.
  - intros r. rewrite list_elem_of_fmap. setoid_rewrite list_elem_of_filter. split.
    + intros (x & -> & Hk & (c'&w'&r'&o'&ct'&->&?&?&?&?&?&Hw'&?&?&?)%elem_of_reg_chains).
      unfold reg_key, slot_key in Hk. injection Hk as Hwn Ht Hctn Hwd Hmx.
      assert (w' = w) as ->.
      { apply (pk_same _ w' w (Class.weekday_id c) (pk_weekdays d Hok)); auto; unfold_keys; congruence. }
      assert (ct' = ct) as -> by (apply (unique_row ClassType.name (classtypes d)); auto;
                                  apply unique_classtype_name, Hok).
      split; [done|]. exists c'. split_and!; try done. exists c', o'. split_and!; by try symmetry.
    + intros (Hr & c' & Hc' & Hid & Hwd & Ht & (c1 & o' & Hc1 & Hc1id & Ho' & Ho'id & Hct' & Hct'id & Hw' & Hw'id)).
      assert (c1 = c') as -> by (same_rows_all Hok; reflexivity).
      exists (c', w, r, o', ct). split; [done|]. split.
      * unfold reg_key, slot_key. by rewrite Hwd, Ht.
      * apply elem_of_reg_chains. do 5 eexists. split; [reflexivity|].
        split_and!; try done; by symmetry.
Qed.

(** C31: on a well-formed database, a row of [vw_registrations] belongs
    to each weekday-time-class-type slot in which some class has a
    registration: it names the weekday, the time and the class type of the
    slot, its capacity, and the number of registrations of all the
    classes of that slot (classes of different trainers in the same slot
    share one row). *)
Theorem vw_registrations_ok d x :
  wf d ->
  x ∈ vw_registrations d <->
  exists c ct w rs, c ∈ classes d /\ class_info d (Class.id c) ct w /\ rs <> [] /\ NoDup rs /\
    (forall r, r ∈ rs <->
       r ∈ registrations d /\
       exists c', c' ∈ classes d /\ Class.id c' = Registration.class_id r /\
         Class.weekday_id c' = Class.weekday_id c /\ Class.time c' = Class.time c /\
         class_info d (Class.id c') ct w) /\
    x = (Weekday.name w, Class.time c, ClassType.name ct, Z.of_nat (length rs),
         ClassType.maxparticipants ct).
Proof.
  intros [Hok Hfk]. rewrite elem_of_vw_registrations. split.
  - intros (wname & t & ctname & wid & mx & Hk & ->).
    rewrite registrations_keys_chains in Hk.
    apply list_elem_of_fmap in Hk as (y & Hkey & (c&w&r&o&ct&->&Hc&?&Hr&?&?&?&?&?&?)%elem_of_reg_chains).
    simpl in Hkey. injection Hkey as -> -> -> -> ->.
    assert (Hi : class_info d (Class.id c) ct w) by (exists c, o; split_and!; by try symmetry).
    destruct (slot_regs_spec d c ct w Hok Hc Hi) as [Hnd Hmem].
    exists c, ct, w, (slot_regs d (slot_key c ct w)). split_and!; try done.
    + intros Hnil. assert (r ∈ slot_regs d (slot_key c ct w)) as Hin.
      { apply Hmem. split; [done|]. exists c. split_and!; done. }
      rewrite Hnil in Hin. by apply not_elem_of_nil in Hin.
    + by rewrite group_count_slot.
  - intros (c & ct & w & rs & Hc & Hi & Hne & Hnd & Hrs & ->).
    destruct (slot_regs_spec d c ct w Hok Hc Hi) as [Hnd' Hmem].
    assert (Hp : rs ≡ₚ slot_regs d (slot_key c ct w))
      by (apply NoDup_Permutation; [done|done|]; intros r; by rewrite Hrs, Hmem).
    exists (Weekday.name w), (Class.time c), (ClassType.name ct), (Class.weekday_id c),
      (ClassType.maxparticipants ct). split.
    + apply nonempty_iff in Hne as [r Hr]. rewrite Hp in Hr. unfold slot_regs in Hr.
      apply list_elem_of_fmap in Hr as (y & _ & [Hk Hy]%list_elem_of_filter).
      rewrite registrations_keys_chains. apply list_elem_of_fmap. by exists y.
    + fold (slot_key c ct w). by rewrite group_count_slot, (Permutation_length Hp).
Qed.

(** ** 3. [vw_trainersasparticipants]: trainers attending classes *)

Definition trainersasparticipants_rows (d : db)
  : list (string * (string * string * string * string * time * string)) :=
  r ← registrations d; m ← members d; ap ← persons d; ae ← employees d; atr ← trainers d;
  c ← classes d; o ← classofferings d; ct ← classtypes d; w ← weekdays d;
  itr ← trainers d; ie ← employees d; ip ← persons d;
  if decide (Registration.member_id r = Member.id m /\ Member.person_id m = Person.id ap /\
             Person.id ap = Employee.person_id ae /\ Employee.id ae = Trainer.employee_id atr /\
             Registration.class_id r = Class.id c /\ Class.classoffering_id c = ClassOffering.id o /\
             ClassOffering.classtype_id o = ClassType.id ct /\ Class.weekday_id c = Weekday.id w /\
             ClassOffering.trainer_id o = Trainer.id itr /\ Trainer.employee_id itr = Employee.id ie /\
             Employee.person_id ie = Person.id ip)
  then [(Person.surname ap,
         (Person.surname ap, Person.forename ap, ClassType.name ct, Weekday.name w, Class.time c,
          Person.forename ip))]
  else [].

(** [ORDER BY attending_persons.surname]. *)
Definition vw_trainersasparticipants (d : db)
  : list (string * string * string * string * time * string) :=
  select_order_by String.compare (trainersasparticipants_rows d).

(** C32: contrary to its comment ("classes led by other trainers"),
    [vw_trainersasparticipants] also lists a trainer registered for a
    class of their own offering, with themselves as the instructor. *)
Theorem vw_trainersasparticipants_self d r mm p e tr c o ct w :
  r ∈ registrations d -> mm ∈ members d -> p ∈ persons d -> e ∈ employees d ->
  tr ∈ trainers d -> c ∈ classes d -> o ∈ classofferings d -> ct ∈ classtypes d ->
  w ∈ weekdays d ->
  Registration.member_id r = Member.id mm -> Member.person_id mm = Person.id p ->
  Person.id p = Employee.person_id e -> Employee.id e = Trainer.employee_id tr ->
  Registration.class_id r = Class.id c -> Class.classoffering_id c = ClassOffering.id o ->
  ClassOffering.classtype_id o = ClassType.id ct -> Class.weekday_id c = Weekday.id w ->
  ClassOffering.trainer_id o = Trainer.id tr ->
  (Person.surname p, Person.forename p, ClassType.name ct, Weekday.name w, Class.time c,
   Person.forename p) ∈ vw_trainersasparticipants d.
Proof.
  intros. unfold vw_trainersasparticipants. apply elem_of_select_order_by.
  exists (Person.surname p). unfold trainersasparticipants_rows. join_simpl.
  do 12 (eexists; split; [|eassumption]). naive_solver.
Qed.

(** ** 4. [vw_employeesasinstructors]: active instructors and their classes *)

(** [LEFT JOIN l ON on]: the matching rows, or a single row of NULLs. *)
Definition left_join {B} (l : list B) (on : B -> Prop) `{forall b, Decision (on b)}
  : list (option B) :=
  match filter on l with
  | [] => [None]
  | bs => Some <$> bs
  end.

(** [x.col = z] where [x] may be the NULL row: NULL = z is not true. *)
Definition null_eq {B} (ob : option B) (col : B -> Z) (z : Z) : Prop :=
  match ob with
  | Some b => col b = z
  | None => False
  end.

#[export] Instance null_eq_dec {B} (ob : option B) col z : Decision (null_eq ob col z).
Proof. destruct ob; simpl; apply _. Defined.

(** [ORDER BY persons.surname, classtypes.name]. *)
Definition surname_classtype_cmp : string * string -> string * string -> comparison :=
  then_cmp (by_key fst String.compare) (by_key snd String.compare).

(** classes JOIN classofferings JOIN classtypes JOIN weekdays
    LEFT JOIN trainers LEFT JOIN employees JOIN persons
    WHERE persons.leavedate IS NULL. *)
Definition employeesasinstructors_rows (d : db)
  : list (string * string * (string * string * string * string * time)) :=
  c ← classes d; o ← classofferings d; ct ← classtypes d; w ← weekdays d;
  if decide (Class.classoffering_id c = ClassOffering.id o /\
             ClassOffering.classtype_id o = ClassType.id ct /\ Class.weekday_id c = Weekday.id w)
  then
    ot ← left_join (trainers d) (fun t => ClassOffering.trainer_id o = Trainer.id t);
    oe ← left_join (employees d) (fun e => null_eq ot Trainer.employee_id (Employee.id e));
    p ← persons d;
    if decide (null_eq oe Employee.person_id (Person.id p) /\ Person.leavedate p = None)
    then [((Person.surname p, ClassType.name ct),
           (Person.surname p, Person.forename p, ClassType.name ct, Weekday.name w, Class.time c))]
    else []
  else [].

Definition vw_employeesasinstructors (d : db) : list (string * string * string * string * time) :=
  select_order_by surname_classtype_cmp (employeesasinstructors_rows d).

(** The same query with every join an inner join: the reference the
    view is compared with. *)
Definition employeesasinstructors_inner_rows (d : db)
  : list (string * string * (string * string * string * string * time)) :=
  c ← classes d; o ← classofferings d; ct ← classtypes d; w ← weekdays d;
  if decide (Class.classoffering_id c = ClassOffering.id o /\
             ClassOffering.classtype_id o = ClassType.id ct /\ Class.weekday_id c = Weekday.id w)
  then
    t ← trainers d;
    if decide (ClassOffering.trainer_id o = Trainer.id t) then
      e ← employees d;
      if decide (Trainer.employee_id t = Employee.id e) then
        p ← persons d;
        if decide (Employee.person_id e = Person.id p /\ Person.leavedate p = None)
        then [((Person.surname p, ClassType.name ct),
               (Person.surname p, Person.forename p, ClassType.name ct, Weekday.name w,
                Class.time c))]
        else []
      else []
    else []
  else [].

Lemma bind_filter_Some {B C} (l : list B) (on : B -> Prop) `{forall b, Decision (on b)}
    (k : option B -> list C) :
  (x ← Some <$> filter on l; k x) = (b ← l; if decide (on b) then k (Some b) else []).
Proof.
  induction l as [|b l IH]; [done|]. rewrite filter_cons, bind_cons.
  case_decide; [by rewrite fmap_cons, bind_cons, IH|by rewrite IH].
Qed.

(** A LEFT JOIN whose NULL row is dropped later is an inner join. *)
Lemma left_join_strict {B C} (l : list B) (on : B -> Prop) `{forall b, Decision (on b)}
    (k : option B -> list C) :
  k None = [] ->
  (x ← left_join l on; k x) = (b ← l; if decide (on b) then k (Some b) else []).
Proof.
  intros Hnone. rewrite <- bind_filter_Some. unfold left_join.
  destruct (filter on l); simpl; [by rewrite Hnone|done].
Qed.

Lemma bind_all_nil {B C} (l : list B) (k : B -> list C) :
  (forall b, k b = []) -> (x ← l; k x) = [].
Proof. intros Hk. induction l as [|b l IH]; [done|]. rewrite bind_cons, Hk. exact IH. Qed.

(** C33: the LEFT JOINs of [vw_employeesasinstructors] are followed by an
    inner join on [employees.person_id = persons.id], which drops every
    NULL-extended row: the view equals the same query with inner joins. *)
Theorem vw_employeesasinstructors_inner d :
  vw_employeesasinstructors d =
  select_order_by surname_classtype_cmp (employeesasinstructors_inner_rows d).
Proof.
  unfold vw_employeesasinstructors, employeesasinstructors_rows,
    employeesasinstructors_inner_rows.
  f_equal. apply list_bind_ext; [intros c|done]. apply list_bind_ext; [intros o|done].
  apply list_bind_ext; [intros ct|done]. apply list_bind_ext; [intros w|done].
  case_decide; [|done].
  rewrite (left_join_strict (trainers d)).
  2:{ rewrite left_join_strict; apply bind_all_nil; intros x;
      by rewrite decide_False by (simpl; tauto). }
  apply list_bind_ext; [intros t|done]. case_decide; [|done].
  rewrite left_join_strict.
  2:{ apply bind_all_nil; intros p. by rewrite decide_False by (simpl; tauto). }
  apply list_bind_ext; [intros e|done]. simpl. case_decide; [|done].
  apply list_bind_ext; [intros p|done]. simpl. done.
Qed.

(** ** 5. [vw_yogaparticipants]: Yoga participants and since when *)

(** [registrations.enddate IS NULL OR registrations.enddate < DATE('now')]. *)
Definition enddate_filter (now : date) (enddate : option date) : Prop :=
  match enddate with
  | None => True
  | Some e => date_lt e now
  end.

#[export] Instance enddate_filter_dec now e : Decision (enddate_filter now e).
Proof. destruct e; simpl; apply _. Defined.

(** [ORDER BY weekdays.id, classes.time, registrations.startdate]. *)
Definition weekday_time_start_cmp : Z * time * date -> Z * time * date -> comparison :=
  then_cmp (by_key fst weekday_time_cmp) (by_key snd date_compare).

Lemma weekday_time_start_cmp_antisym x y :
  weekday_time_start_cmp y x = CompOpp (weekday_time_start_cmp x y).
Proof. apply then_cmp_antisym; [apply by_key_antisym, weekday_time_cmp_antisym|auto with gym]. Qed.

Definition yogaparticipants_rows (d : db) (now : date)
  : list (Z * time * date * (string * string * string * string * time * date)) :=
  p ← persons d; m ← members d; r ← registrations d; c ← classes d; o ← classofferings d;
  ct ← classtypes d; w ← weekdays d;
  if decide (Person.id p = Member.person_id m /\ Member.id m = Registration.member_id r /\
             Registration.class_id r = Class.id c /\ Class.classoffering_id c = ClassOffering.id o /\
             ClassOffering.classtype_id o = ClassType.id ct /\ Class.weekday_id c = Weekday.id w /\
             ClassType.name ct = "Yoga" /\ enddate_filter now (Registration.enddate r))
  then [((Weekday.id w, Class.time c, Registration.startdate r),
         (Person.surname p, Person.forename p, ClassType.name ct, Weekday.name w, Class.time c,
          Registration.startdate r))]
  else [].

Definition vw_yogaparticipants (d : db) (now : date)
  : list (string * string * string * string * time * date) :=
  select_order_by weekday_time_start_cmp (yogaparticipants_rows d now).

Lemma enddate_filter_iff now e :
  enddate_filter now e <-> e = None \/ exists x, e = Some x /\ date_lt x now.
Proof. destruct e; simpl; naive_solver. Qed.

Lemma weekday_time_start_cmp_le w1 t1 s1 w2 t2 s2 :
  weekday_time_start_cmp (w1, t1, s1) (w2, t2, s2) <> Gt <->
  w1 < w2 \/ w1 = w2 /\ (time_compare t1 t2 = Lt \/ t1 = t2 /\ date_compare s1 s2 <> Gt).
Proof.
  unfold weekday_time_start_cmp, weekday_time_cmp, then_cmp, by_key. simpl.
  pose proof (time_compare_eq t1 t2) as Ht.
  destruct (Z.compare_spec w1 w2) as [<-|Hw|Hw];
    [destruct (time_compare t1 t2) eqn:E| |]; split; intros H; try done;
    try destruct H as [H|[H1 [H|[H2 H3]]]]; try lia; try congruence.
  - right. split; [done|]. right. split; [by apply Ht|done].
  - right. split; [done|]. by left.
  - subst. by rewrite (proj2 (time_compare_eq t2 t2) eq_refl) in E.
Qed.

(** The chains of rows behind [vw_yogaparticipants]. *)
Definition yoga_chains (d : db) (now : date)
  : list (Person.t * Member.t * Registration.t * Class.t * ClassOffering.t * ClassType.t *
          Weekday.t) :=
  p ← persons d; m ← members d; r ← registrations d; c ← classes d; o ← classofferings d;
  ct ← classtypes d; w ← weekdays d;
  if decide (Person.id p = Member.person_id m /\ Member.id m = Registration.member_id r /\
             Registration.class_id r = Class.id c /\ Class.classoffering_id c = ClassOffering.id o /\
             ClassOffering.classtype_id o = ClassType.id ct /\ Class.weekday_id c = Weekday.id w /\
             ClassType.name ct = "Yoga" /\ enddate_filter now (Registration.enddate r))
  then [(p, m, r, c, o, ct, w)]
  else [].

Definition yoga_key (x : Person.t * Member.t * Registration.t * Class.t * ClassOffering.t *
                         ClassType.t * Weekday.t) : Z * time * date :=
  let '(p, m, r, c, o, ct, w) := x in (Weekday.id w, Class.time c, Registration.startdate r).

Definition yoga_row (x : Person.t * Member.t * Registration.t * Class.t * ClassOffering.t *
                         ClassType.t * Weekday.t)
  : string * string * string * string * time * date :=
  let '(p, m, r, c, o, ct, w) := x in
  (Person.surname p, Person.forename p, ClassType.name ct, Weekday.name w, Class.time c,
   Registration.startdate r).

Lemma yogaparticipants_rows_chains d now :
  yogaparticipants_rows d now = (fun x => (yoga_key x, yoga_row x)) <$> yoga_chains d now.
Proof.
  unfold yogaparticipants_rows, yoga_chains.
  do 7 (rewrite fmap_list_bind; apply list_bind_ext; [intros ?|done]).
  by case_decide.
Qed.

Lemma elem_of_yoga_chains d now x :
  x ∈ yoga_chains d now <->
  exists p m r c o ct w, x = (p, m, r, c, o, ct, w) /\
    p ∈ persons d /\ m ∈ members d /\ r ∈ registrations d /\ c ∈ classes d /\
    o ∈ classofferings d /\ ct ∈ classtypes d /\ w ∈ weekdays d /\
    Person.id p = Member.person_id m /\ Member.id m = Registration.member_id r /\
    Registration.class_id r = Class.id c /\ Class.classoffering_id c = ClassOffering.id o /\
    ClassOffering.classtype_id o = ClassType.id ct /\ Class.weekday_id c = Weekday.id w /\
    ClassType.name ct = "Yoga" /\ enddate_filter now (Registration.enddate r).
Proof. unfold yoga_chains. join_simpl. naive_solver. Qed.

Lemma yoga_chains_NoDup d now : constraints_ok d -> NoDup (yoga_chains d now).
Proof. intros Hok. unfold yoga_chains. nodup_chains Hok. Qed.

(** C34: on a well-formed database, [vw_yogaparticipants] has exactly one
    row per registration (paired with its class) of a Yoga class that is
    open or whose end date lies before today: a registration still running
    with an end date today or later is left out.  The row carries the
    member's names, the weekday, the time and the start date, and the rows
    are ordered by weekday id, then time, then start date. *)
Theorem vw_yogaparticipants_ok d now :
  wf d ->
  exists crs, NoDup crs /\
    (forall c r, (c, r) ∈ crs <->
       r ∈ registrations d /\ c ∈ classes d /\ Class.id c = Registration.class_id r /\
       (exists ct w, class_info d (Class.id c) ct w /\ ClassType.name ct = "Yoga") /\
       (Registration.enddate r = None \/
        exists e, Registration.enddate r = Some e /\ date_lt e now)) /\
    Forall2 (fun '(c, r) x => exists p ct w,
        member_person d (Registration.member_id r) p /\ class_info d (Class.id c) ct w /\
        x = (Person.surname p, Person.forename p, ClassType.name ct, Weekday.name w,
             Class.time c, Registration.startdate r))
      crs (vw_yogaparticipants d now) /\
    Sorted (fun '(c1, r1) '(c2, r2) =>
        Class.weekday_id c1 < Class.weekday_id c2 \/
        Class.weekday_id c1 = Class.weekday_id c2 /\
        (time_compare (Class.time c1) (Class.time c2) = Lt \/
         Class.time c1 = Class.time c2 /\
         date_compare (Registration.startdate r1) (Registration.startdate r2) <> Gt)) crs.
Proof.
  intros [Hok Hfk]. unfold vw_yogaparticipants. rewrite yogaparticipants_rows_chains.
  match goal with |- exists crs, _ /\ _ /\ Forall2 ?R crs _ /\ Sorted ?S crs =>
    edestruct (select_order_by_chains weekday_time_start_cmp (yoga_chains d now)
                 (fun '(_, _, r, c, _, _, _) => (c, r)) yoga_key yoga_row R S)
      as (crs & Hnd & Hmem & Hrows & Hsort) end;
    [apply weekday_time_start_cmp_antisym|by apply yoga_chains_NoDup|..].
  - intros x1 x2 (?&?&?&?&?&?&?&->&?&?&?&?&?&?&?&?&?&?&?&?&?&?&?)%elem_of_yoga_chains
      (?&?&?&?&?&?&?&->&?&?&?&?&?&?&?&?&?&?&?&?&?&?&?)%elem_of_yoga_chains [= -> ->].
    same_rows_all Hok. reflexivity.
  - intros x (p&m&r&c&o&ct&w&->&?&?&?&?&?&?&?&?&?&?&?&?&?&?&?)%elem_of_yoga_chains.
    exists p, ct, w. split_and!; [by exists m|exists c, o; split_and!; by try symmetry|done].
  - intros x1 x2 (?&?&?&?&?&?&?&->&?&?&?&?&?&?&?&?&?&?&?&?&E1&?&?)%elem_of_yoga_chains
      (?&?&?&?&?&?&?&->&?&?&?&?&?&?&?&?&?&?&?&?&E2&?&?)%elem_of_yoga_chains.
    simpl. rewrite weekday_time_start_cmp_le, E1, E2. done.
  - exists crs. split_and!; [done| |done|done].
    intros c r. rewrite Hmem. split.
    + intros (x & (p&m&r'&c'&o&ct&w&->&?&?&?&?&?&?&?&?&?&?&?&?&?&?&Hf)%elem_of_yoga_chains & [= <- <-]).
      split_and!; [done|done|done| |by apply enddate_filter_iff].
      exists ct, w. split; [|done]. exists c', o. split_and!; by try symmetry.
    + intros (Hr & Hc & Hid & (ct & w & (c' & o & Hc' & Hid' & Ho & Hoid & Hct & Hctid & Hw & Hwid) & Hy) & He).
      assert (c' = c) as -> by (same_rows_all Hok; reflexivity).
      destruct (fk_registration d Hfk r Hr) as [_ (m & Hm & Hmid)%refers_row].
      destruct (refers_row _ _ (fk_member_person d Hfk m Hm)) as (p & Hp & Hpid).
      unfold_keys. exists (p, m, r, c, o, ct, w). split; [|done].
      apply elem_of_yoga_chains. do 7 eexists. split; [reflexivity|].
      split_and!; try done; try by symmetry. by apply enddate_filter_iff.
Qed.

(** ** Witnesses and examples on concrete databases *)

Lemma vw_trainersasparticipants_self_witness :
  ("Schulz", "Ben", "Yoga", "Monday", t0900, "Ben") ∈ vw_trainersasparticipants self_db.
Proof.
  apply (vw_trainersasparticipants_self self_db (Registration.mk 1 1 2 d2021_03_01 None)
           (Member.mk 2 2) ben (Employee.mk 1 2) (Trainer.mk 1 1) yoga_monday
           offering_yoga_ben yoga monday); (compute_decide || reflexivity).
Defined.

Lemma vw_classes_ok_witness :
  exists cs, cs ≡ₚ classes sample_db /\ length cs = length (vw_classes sample_db).
Proof.
  destruct (vw_classes_ok sample_db) as (cs & Hp & Hrows & _); [compute_decide|].
  exists cs. split; [exact Hp|exact (Forall2_length _ _ _ Hrows)].
Defined.

Lemma vw_registrations_ok_witness :
  exists c ct w (rs : list Registration.t), class_info merge_db (Class.id c) ct w /\ rs <> [] /\
    ("Monday", t0900, "Yoga", 2, 2) = (Weekday.name w, Class.time c, ClassType.name ct,
                                       Z.of_nat (length rs), ClassType.maxparticipants ct).
Proof.
  destruct (proj1 (vw_registrations_ok merge_db ("Monday", t0900, "Yoga", 2, 2) ltac:(compute_decide))
              ltac:(compute_decide)) as (c & ct & w & rs & _ & Hi & Hne & _ & _ & Hx).
  exists c, ct, w, rs. split_and!; assumption.
Defined.

Lemma vw_yogaparticipants_ok_witness :
  exists crs : list (Class.t * Registration.t), NoDup crs /\ length crs = length (vw_yogaparticipants yoga_db today).
Proof.
  destruct (vw_yogaparticipants_ok yoga_db today) as (crs & Hnd & _ & Hrows & _); [compute_decide|].
  exists crs. split; [exact Hnd|exact (Forall2_length _ _ _ Hrows)].
Defined.

(** The two Monday 09:00 Yoga classes of [merge_db], led by different
    trainers, share one row of [vw_registrations] counting both. *)
Example vw_registrations_merges :
  vw_registrations merge_db = [("Monday", t0900, "Yoga", 2, 2)].
Proof. vm_compute. reflexivity. Qed.

(** On 2024-01-01 Anna's running Yoga registration is not listed; Cara's
    ended one is. *)
Example vw_yogaparticipants_running :
  vw_yogaparticipants yoga_db today = [("Wolf", "Cara", "Yoga", "Wednesday", t1800, d2021_03_01)].
Proof. vm_compute. reflexivity. Qed.
