(* ===== verification/Procedure.v ===== *)
(** * Procedure: [add_registration] of [scripts/python/create_procedures.py]

    [add_registration d now member_id class_id] is the procedure: two
    existence checks, then the four business rules in the order of the
    source (membership not terminated, not already registered, not the
    instructor, a free spot), then the INSERT of [Storage].  A [ValueError]
    raised inside the [try] block becomes the returned message; any other
    exception escapes.  The result pairs the returned string with the
    database after the call.

    [add_registration_spec] states the contract branch by branch in terms
    of the rows of the database; the refinement theorem shows the function
    implements it on well-formed databases. *)

From S2P Require Import Prelude Schema Storage Fixture Lookups Queries.

Definition msg_terminated (forename surname : string) (member_id : Z) : string :=
  forename +:+ " " +:+ surname +:+ " (ID: " +:+ py_str member_id +:+
  ") has already terminated his/her membership!".

Definition msg_already_registered (forename surname : string) (member_id : Z)
    (class_ weekday : string) : string :=
  forename +:+ " " +:+ surname +:+ " (ID: " +:+ py_str member_id +:+
  ") is already registered for " +:+ class_ +:+ " on " +:+ weekday +:+ "s!".

Definition msg_instructor (forename surname : string) (member_id : Z)
    (class_ weekday : string) : string :=
  forename +:+ " " +:+ surname +:+ " (ID: " +:+ py_str member_id +:+
  ") is the instructor of " +:+ class_ +:+ " on " +:+ weekday +:+ "s!".

Definition msg_no_free_spots (class_ weekday : string) : string :=
  "There are no more free spots in " +:+ class_ +:+ " on " +:+ weekday +:+ "s!".

Definition msg_registered : string := "New participant has registered!".

Definition add_registration (d : db) (now : date) (member_id class_id : Z)
  : result (string * db) :=
  catch_value_error (fun msg => (msg, d)) (
    if negb (check_member_exists d member_id) then Raise (member_not_found member_id) else
    if negb (check_class_exists d class_id) then Raise (class_not_found class_id) else
    t <- is_membership_terminated d now member_id ;;
    let '(membership_terminated, forename, surname) := t in
    if membership_terminated then Ok (msg_terminated forename surname member_id, d) else
    r <- is_member_registered d member_id class_id ;;
    let '(forename, surname, class_, weekday, member_registered) := r in
    if member_registered
    then Ok (msg_already_registered forename surname member_id class_ weekday, d) else
    i <- is_member_instructor d member_id class_id ;;
    let '(forename, surname, class_, weekday, member_instructor) := i in
    if member_instructor
    then Ok (msg_instructor forename surname member_id class_ weekday, d) else
    f <- count_free_spots_by_class d class_id ;;
    let '(class_, weekday, free_spots) := f in
    if free_spots =? 0 then Ok (msg_no_free_spots class_ weekday, d) else
    d' <- insert_registration d class_id member_id now ;;
    Ok (msg_registered, d')).

Section Unfold.
Context (d : db) (now : date) (m c : Z) (p : Person.t) (ct : ClassType.t) (w : Weekday.t).
Context (Hok : constraints_ok d) (Hm : m <> 0) (Hp : member_person d m p) (Hi : class_info d c ct w).

(** For an existing member and class, the procedure is the chain of the
    four business rules. *)
Lemma add_registration_unfold :
    add_registration d now m c =
    if terminated_before now (Person.leavedate p)
    then Ok (msg_terminated (Person.forename p) (Person.surname p) m, d) else
    if bool_decide (registered d m c)
    then Ok (msg_already_registered (Person.forename p) (Person.surname p) m
               (ClassType.name ct) (Weekday.name w), d) else
    if bool_decide (instructor_rows d m c <> [])
    then Ok (msg_instructor (Person.forename p) (Person.surname p) m
               (ClassType.name ct) (Weekday.name w), d) else
    if Z.max (ClassType.maxparticipants ct - occupied_spots d c) 0 =? 0
    then Ok (msg_no_free_spots (ClassType.name ct) (Weekday.name w), d) else
    catch_value_error (fun msg => (msg, d))
      (d' <- insert_registration d c m now ;; Ok (msg_registered, d')).
  Proof using Hok Hm Hp Hi.
    unfold add_registration.
    rewrite (proj2 (check_member_exists_spec _ _) (member_person_refers _ _ _ Hp)),
            (proj2 (check_class_exists_spec _ _) (class_info_refers _ _ _ _ Hi)). simpl.
    rewrite (is_membership_terminated_eq d now m p Hok Hp). simpl.
    destruct (terminated_before _ _); [done|].
    rewrite (is_member_registered_eq d m c p ct w Hok Hm Hp Hi). simpl.
    destruct (bool_decide (registered d m c)); [done|].
    rewrite (is_member_instructor_eq d m c p ct w Hok Hm Hp Hi). simpl.
    destruct (bool_decide (instructor_rows d m c <> [])); [done|].
    rewrite (count_free_spots_by_class_eq d c ct w Hok Hi). simpl.
    by destruct (_ =? 0).
  Qed.
End Unfold.

Lemma registered_class_member d m c :
  registered d m c <-> (c, m) ∈ map class_member (registrations d).
Proof.
  unfold registered, class_member. rewrite list_elem_of_fmap.
  split; [intros (r & Hr & <- & <-); eauto|intros (r & [= -> ->] & Hr); eauto].
Qed.

(** The INSERT succeeds exactly when the pair is new. *)
Lemma insert_registration_new d now m c :
  ~ registered d m c ->
  insert_registration d c m now =
  Ok (set_registrations d (registrations d ++ [new_registration d c m now])).
Proof.
  intros Hnr. destruct (insert_registration d c m now) eqn:E.
  - apply insert_registration_spec in E as [_ ->]. reflexivity.
  - exfalso. unfold insert_registration, insert_registration_row in E.
    case_decide as Hin; [|simpl in E; discriminate].
    apply Hnr, registered_class_member. exact Hin.
Qed.

(** ** The contract, one rule per branch of the source *)

Inductive add_registration_spec (d : db) (now : date) (m c : Z) : string -> db -> Prop :=
| spec_member_missing :
    ~ refers (members d) m ->
    add_registration_spec d now m c
      ("Member with ID " +:+ py_str m +:+ " not found.") d
| spec_class_missing :
    refers (members d) m -> ~ refers (classes d) c ->
    add_registration_spec d now m c
      ("Class with ID " +:+ py_str c +:+ " not found.") d
| spec_terminated p :
    member_person d m p -> refers (classes d) c ->
    terminated_before now (Person.leavedate p) = true ->
    add_registration_spec d now m c
      (msg_terminated (Person.forename p) (Person.surname p) m) d
| spec_already_registered p ct w :
    member_person d m p -> class_info d c ct w ->
    terminated_before now (Person.leavedate p) = false ->
    registered d m c ->
    add_registration_spec d now m c
      (msg_already_registered (Person.forename p) (Person.surname p) m
         (ClassType.name ct) (Weekday.name w)) d
| spec_instructor p ct w :
    member_person d m p -> class_info d c ct w ->
    terminated_before now (Person.leavedate p) = false ->
    ~ registered d m c -> instructs d m c ->
    add_registration_spec d now m c
      (msg_instructor (Person.forename p) (Person.surname p) m
         (ClassType.name ct) (Weekday.name w)) d
| spec_no_free_spots p ct w :
    member_person d m p -> class_info d c ct w ->
    terminated_before now (Person.leavedate p) = false ->
    ~ registered d m c -> ~ instructs d m c ->
    ClassType.maxparticipants ct <= occupied_spots d c ->
    add_registration_spec d now m c
      (msg_no_free_spots (ClassType.name ct) (Weekday.name w)) d
| spec_inserted p ct w :
    member_person d m p -> class_info d c ct w ->
    terminated_before now (Person.leavedate p) = false ->
    ~ registered d m c -> ~ instructs d m c ->
    occupied_spots d c < ClassType.maxparticipants ct ->
    add_registration_spec d now m c msg_registered
      (set_registrations d (registrations d ++ [new_registration d c m now])).

(** Identifies the rows named by a rule with the ones the lemma fixed. *)
Ltac same_branch :=
  match goal with
  | Hok : constraints_ok ?d, Hp : member_person ?d ?m ?p, Hp' : member_person ?d ?m ?p',
    Hi : class_info ?d ?c ?ct ?w, Hi' : class_info ?d ?c ?ct' ?w',
    Ht : terminated_before _ (Person.leavedate ?p') = false |- _ =>
      pose proof (member_person_unique d Hok m p p' Hp Hp') as <-;
      destruct (class_info_unique d Hok c ct w ct' w' Hi Hi') as [<- <-];
      rewrite Ht
  end.

Section Contract.
Context (d : db) (now : date) (m c : Z) (Hwf : wf d) (Hm : m <> 0).

Lemma add_registration_member_missing :
  ~ refers (members d) m ->
  add_registration d now m c = Ok ("Member with ID " +:+ py_str m +:+ " not found.", d).
Proof.
  intros Hn. unfold add_registration, check_member_exists.
  by rewrite (proj2 (check_exists_false _ _) Hn).
Qed.

Lemma add_registration_class_missing :
  refers (members d) m -> ~ refers (classes d) c ->
  add_registration d now m c = Ok ("Class with ID " +:+ py_str c +:+ " not found.", d).
Proof.
  intros Hy Hn. unfold add_registration.
  rewrite (proj2 (check_member_exists_spec _ _) Hy). unfold check_class_exists.
  by rewrite (proj2 (check_exists_false _ _) Hn).
Qed.

(** The spec's rules are the branches of [add_registration_unfold]. *)
Lemma add_registration_existing p ct w msg d' :
    member_person d m p -> class_info d c ct w ->
    add_registration d now m c = Ok (msg, d') <-> add_registration_spec d now m c msg d'.
  Proof using Hwf Hm.
    destruct Hwf as [Hok Hfk]. intros Hp Hi.
    rewrite (add_registration_unfold d now m c p ct w Hok Hm Hp Hi).
    assert (Href := class_info_refers _ _ _ _ Hi).
    split.
    - destruct (terminated_before _ _) eqn:Ht; [intros [= <- <-]; by eapply spec_terminated|].
      case_bool_decide as Hr; [intros [= <- <-]; by eapply spec_already_registered|].
      case_bool_decide as Hins.
      { intros [= <- <-]. eapply spec_instructor; eauto. by apply instructor_rows_spec. }
      assert (~ instructs d m c) as Hni.
      { rewrite <- (instructor_rows_spec d m c Hfk). by intros []. }
      destruct (Z.eqb_spec (Z.max (ClassType.maxparticipants ct - occupied_spots d c) 0) 0).
      + intros [= <- <-]. eapply spec_no_free_spots; eauto. lia.
      + rewrite insert_registration_new by done. intros [= <- <-].
        eapply spec_inserted; eauto. lia.
    - intros Hs.
      destruct Hs as [Hn|? Hn|p' Hp' ? Ht|p' ct' w' Hp' Hi' Ht Hr
        |p' ct' w' Hp' Hi' Ht Hr Hins|p' ct' w' Hp' Hi' Ht Hr Hins Hle
        |p' ct' w' Hp' Hi' Ht Hr Hins Hlt].
      + by destruct Hn; eapply member_person_refers.
      + by destruct Hn.
      + pose proof (member_person_unique d Hok m p p' Hp Hp') as <-. by rewrite Ht.
      + same_branch. by rewrite bool_decide_eq_true_2.
      + same_branch. rewrite bool_decide_eq_false_2, bool_decide_eq_true_2; [done|..|done].
        by apply instructor_rows_spec.
      + same_branch. rewrite !bool_decide_eq_false_2 by (rewrite ?instructor_rows_spec; done).
        rewrite (proj2 (Z.eqb_eq _ _)); [reflexivity|lia].
      + same_branch. rewrite !bool_decide_eq_false_2 by (rewrite ?instructor_rows_spec; done).
        rewrite (proj2 (Z.eqb_neq _ _)) by lia. by rewrite insert_registration_new.
  Qed.
End Contract.

(** ** What a call does to the database *)

(** A call either leaves the database unchanged or is the INSERT, reached
    with both ids present and a nonzero number of free spots. *)
Lemma add_registration_effect d now m c msg d' :
  add_registration d now m c = Ok (msg, d') ->
  d' = d \/
  (refers (members d) m /\ refers (classes d) c /\ msg = msg_registered /\
   insert_registration d c m now = Ok d' /\
   exists cl wk n, count_free_spots_by_class d c = Ok (cl, wk, n) /\ n <> 0).
Proof.
  unfold add_registration. intros H.
  apply catch_value_error_ok in H as [H|(e & _ & [= _ <-])]; [|by left].
  destruct (check_member_exists d m) eqn:Em; simpl in H; [|discriminate].
  destruct (check_class_exists d c) eqn:Ec; simpl in H; [|discriminate].
  destruct (is_membership_terminated d now m) as [[[[] ?] ?]|]; simpl in H;
    [injection H as _ <-; by left| |discriminate].
  destruct (is_member_registered d m c) as [[[[[? ?] ?] ?] []]|]; simpl in H;
    [injection H as _ <-; by left| |discriminate].
  destruct (is_member_instructor d m c) as [[[[[? ?] ?] ?] []]|]; simpl in H;
    [injection H as _ <-; by left| |discriminate].
  destruct (count_free_spots_by_class d c) as [[[cl wk] n]|] eqn:Ef; simpl in H; [|discriminate].
  destruct (Z.eqb_spec n 0); [injection H as _ <-; by left|].
  destruct (insert_registration d c m now) eqn:Ei; simpl in H; [|discriminate].
  injection H as <- <-. right.
  apply check_member_exists_spec in Em. apply check_class_exists_spec in Ec. eauto 10.
Qed.

Lemma occupied_spots_insert d now m c c' :
  occupied_spots (set_registrations d (registrations d ++ [new_registration d c m now])) c' =
  occupied_spots d c' + (if decide (c = c') then 1 else 0).
Proof.
  unfold occupied_spots. simpl. rewrite filter_app, length_app. simpl.
  rewrite filter_cons, filter_nil. simpl. case_decide; simpl; lia.
Qed.

(** No class holds more registrations than its [maxparticipants] (or any,
    when that is negative). *)
Definition capacity_ok (d : db) : Prop :=
  Forall (fun cc => Forall (fun o => Forall (fun ct =>
      ClassOffering.id o = Class.classoffering_id cc ->
      ClassType.id ct = ClassOffering.classtype_id o ->
      occupied_spots d (Class.id cc) <= Z.max (ClassType.maxparticipants ct) 0)
    (classtypes d)) (classofferings d)) (classes d).

#[export] Instance capacity_ok_dec d : Decision (capacity_ok d).
Proof. unfold capacity_ok. apply _. Defined.

Lemma capacity_ok_spec d :
  capacity_ok d <->
  forall c ct, class_type_of d c ct ->
               occupied_spots d c <= Z.max (ClassType.maxparticipants ct) 0.
Proof.
  unfold capacity_ok, class_type_of. rewrite !Forall_forall. split.
  - intros H c ct (cc & o & Hcc & <- & Ho & Hoc & Hct & Hcto).
    specialize (H cc Hcc). rewrite Forall_forall in H. specialize (H o Ho).
    rewrite Forall_forall in H. by apply H.
  - intros H cc Hcc. apply Forall_forall. intros o Ho. apply Forall_forall.
    intros ct Hct Hoc Hcto. apply H. exists cc, o. auto 8.
Qed.

(** ** Theorems about [add_registration] *)

(** The procedure and its contract agree on well-formed databases. *)
Lemma add_registration_spec_iff d now m c msg d' :
  wf d -> m <> 0 ->
  add_registration d now m c = Ok (msg, d') <-> add_registration_spec d now m c msg d'.
Proof.
  intros Hwf Hm. destruct (decide (refers (members d) m)) as [Hym|Hnm].
  - destruct (decide (refers (classes d) c)) as [Hyc|Hnc].
    + destruct (member_person_exists d (proj2 Hwf) m Hym) as [p Hp].
      destruct (class_info_exists d (proj2 Hwf) c Hyc) as (ct & w & Hi).
      by apply (add_registration_existing d now m c Hwf Hm p ct w).
    + rewrite (add_registration_class_missing d now m c Hym Hnc).
      split; [intros [= <- <-]; by constructor|].
      intros Hs; destruct Hs; try done; by destruct Hnc; eapply class_info_refers.
  - rewrite (add_registration_member_missing d now m c Hnm).
    split; [intros [= <- <-]; by constructor|].
    intros Hs; destruct Hs; try done; by destruct Hnm; eapply member_person_refers.
Qed.



(** No exception escapes the procedure on a well-formed database. *)
Lemma add_registration_returns d now m c :
  wf d -> m <> 0 -> exists msg d', add_registration d now m c = Ok (msg, d').
Proof.
  intros Hwf Hm. destruct (decide (refers (members d) m)) as [Hym|Hnm].
  - destruct (decide (refers (classes d) c)) as [Hyc|Hnc].
    + destruct (member_person_exists d (proj2 Hwf) m Hym) as [p Hp].
      destruct (class_info_exists d (proj2 Hwf) c Hyc) as (ct & w & Hi).
      rewrite (add_registration_unfold d now m c p ct w (proj1 Hwf) Hm Hp Hi).
      destruct (terminated_before _ _); [eauto|].
      case_bool_decide as Hr; [eauto|]. case_bool_decide; [eauto|].
      destruct (_ =? 0); [eauto|].
      rewrite insert_registration_new by done. simpl. eauto.
    + rewrite (add_registration_class_missing d now m c Hym Hnc). eauto.
  - rewrite (add_registration_member_missing d now m c Hnm). eauto.
Qed.

(** C1: on a well-formed database (and a member id other than 0), the
    procedure implements its contract exactly and totally: it always
    returns a message and a database, and it returns [(msg, d')] iff the
    rule of [add_registration_spec] for the case at hand gives that
    message and that database. *)
Theorem add_registration_refines d now m c :
  wf d -> m <> 0 ->
  (exists msg d', add_registration d now m c = Ok (msg, d')) /\
  forall msg d', add_registration d now m c = Ok (msg, d') <-> add_registration_spec d now m c msg d'.
Proof.
  intros Hwf Hm. split; [exact (add_registration_returns d now m c Hwf Hm)|].
  intros msg d'. exact (add_registration_spec_iff d now m c msg d' Hwf Hm).
Qed.

(** An insertion of a registration for an existing class and member keeps
    the database well formed. *)
Lemma insert_registration_wf d c m s d' :
  wf d -> refers (members d) m -> refers (classes d) c ->
  insert_registration d c m s = Ok d' -> wf d'.
Proof.
  intros [(Hs & Hps & Hrs) (Hfs & Hfr)] Hym Hyc Hins.
  pose proof (insert_registration_row_ok d _ d' Hrs Hins (next_rowid_fresh _)) as Hrs'.
  apply insert_registration_spec in Hins as [_ ->].
  split; [split; [exact Hs|split; [exact Hps|exact Hrs']]|split; [exact Hfs|]].
  unfold fk_registrations. simpl. apply Forall_app. split; [exact Hfr|].
  by apply Forall_singleton.
Qed.

(** One call keeps the database well formed. *)
Lemma add_registration_wf d now m c msg d' :
  wf d -> add_registration d now m c = Ok (msg, d') -> wf d'.
Proof.
  intros Hwf H. destruct (add_registration_effect d now m c msg d' H)
    as [->|(Hym & Hyc & _ & Hins & _)]; [done|].
  by apply (insert_registration_wf d c m now d').
Qed.

(** C3: [add_registration] preserves the schema's constraints and the
    referential integrity of the database. *)
Theorem add_registration_preserves_wf d now m c msg d' :
  wf d -> add_registration d now m c = Ok (msg, d') -> wf d'.
Proof. exact (add_registration_wf d now m c msg d'). Qed.

(** One call keeps every class within its capacity. *)
Lemma add_registration_capacity d now m c msg d' :
  wf d -> capacity_ok d -> add_registration d now m c = Ok (msg, d') -> capacity_ok d'.
Proof.
  intros [Hok Hfk] Hcap H. destruct (add_registration_effect d now m c msg d' H)
    as [->|(Hym & Hyc & _ & Hins & cl & wk & n & Hf & Hn)]; [done|].
  apply insert_registration_spec in Hins as [_ ->].
  apply capacity_ok_spec. intros c' ct Hct.
  rewrite (occupied_spots_insert d now m c c'). rewrite capacity_ok_spec in Hcap.
  specialize (Hcap c' ct Hct). case_decide as Hcc; [subst c'|lia].
  destruct (class_info_exists d Hfk c Hyc) as (ct0 & w0 & Hi).
  rewrite (count_free_spots_by_class_eq d c ct0 w0 Hok Hi) in Hf.
  injection Hf as _ _ <-.
  rewrite (class_type_of_unique d Hok c ct ct0 Hct (class_info_type _ _ _ _ Hi)). lia.
Qed.

(** C4: [add_registration] never overbooks: if no class holds more
    registrations than its capacity before the call, none does after it. *)
Theorem add_registration_preserves_capacity d now m c msg d' :
  wf d -> capacity_ok d -> add_registration d now m c = Ok (msg, d') -> capacity_ok d'.
Proof. exact (add_registration_capacity d now m c msg d'). Qed.

(** C5: re-running [add_registration] for a pair that is already
    registered returns the "already registered" message and leaves the
    database unchanged (for a member whose membership is not terminated). *)
Theorem add_registration_already_registered d now m c p ct w :
  wf d -> m <> 0 -> member_person d m p -> class_info d c ct w ->
  terminated_before now (Person.leavedate p) = false -> registered d m c ->
  add_registration d now m c =
  Ok (msg_already_registered (Person.forename p) (Person.surname p) m
        (ClassType.name ct) (Weekday.name w), d).
Proof.
  intros Hwf Hm Hp Hi Ht Hr.
  apply (add_registration_existing d now m c Hwf Hm p ct w _ _ Hp Hi).
  by eapply spec_already_registered.
Qed.

(** Calling [add_registration] twice with the same arguments changes
    the database at most once: the second call leaves it as the first
    left it. *)
Theorem add_registration_twice d now m c msg1 d1 msg2 d2 :
  wf d -> m <> 0 ->
  add_registration d now m c = Ok (msg1, d1) ->
  add_registration d1 now m c = Ok (msg2, d2) -> d2 = d1.
Proof.
  intros Hwf Hm H1 H2.
  destruct (add_registration_effect d now m c msg1 d1 H1)
    as [->|(Hym & Hyc & _ & Hins & _)]; [congruence|].
  pose proof (insert_registration_wf d c m now d1 Hwf Hym Hyc Hins) as Hwf1.
  apply insert_registration_spec in Hins as [_ ->].
  destruct (member_person_exists d (proj2 Hwf) m Hym) as [p Hp].
  destruct (class_info_exists d (proj2 Hwf) c Hyc) as (ct & w & Hi).
  rewrite (add_registration_unfold _ now m c p ct w (proj1 Hwf1) Hm Hp Hi) in H2.
  destruct (terminated_before _ _); [congruence|].
  rewrite bool_decide_eq_true_2 in H2; [congruence|].
  exists (new_registration d c m now). split; [|done].
  apply list_elem_of_In, in_or_app. right. left. reflexivity.
Qed.

(** The terminated branch: once [is_membership_terminated] answers true
    for existing ids, nothing else is consulted. *)
Lemma add_registration_terminated_eq d now m c p :
  constraints_ok d -> member_person d m p -> refers (classes d) c ->
  terminated_before now (Person.leavedate p) = true ->
  add_registration d now m c = Ok (msg_terminated (Person.forename p) (Person.surname p) m, d).
Proof.
  intros Hok Hp Hc Ht. unfold add_registration.
  rewrite (proj2 (check_member_exists_spec _ _) (member_person_refers _ _ _ Hp)),
          (proj2 (check_class_exists_spec _ _) Hc). simpl.
  rewrite (is_membership_terminated_eq d now m p Hok Hp). simpl. by rewrite Ht.
Qed.

(** C7: a member whose leave date lies before today gets the "terminated"
    message and no row is inserted. *)
Theorem add_registration_terminated d now m c p l :
  constraints_ok d -> member_person d m p -> refers (classes d) c ->
  Person.leavedate p = Some l -> date_lt l now ->
  add_registration d now m c = Ok (msg_terminated (Person.forename p) (Person.surname p) m, d).
Proof.
  intros Hok Hp Hc Hl Hlt. apply add_registration_terminated_eq; [done..|].
  rewrite Hl. by apply date_ltb_spec.
Qed.

(** C8: a class whose registrations reach its [maxparticipants] yields the
    "no more free spots" message and no row is inserted. *)
Theorem add_registration_full d now m c p ct w :
  wf d -> m <> 0 -> member_person d m p -> class_info d c ct w ->
  terminated_before now (Person.leavedate p) = false ->
  ~ registered d m c -> ~ instructs d m c ->
  occupied_spots d c = ClassType.maxparticipants ct ->
  add_registration d now m c = Ok (msg_no_free_spots (ClassType.name ct) (Weekday.name w), d).
Proof.
  intros Hwf Hm Hp Hi Ht Hr Hin Hfull.
  apply (add_registration_existing d now m c Hwf Hm p ct w _ _ Hp Hi).
  eapply spec_no_free_spots; eauto. lia.
Qed.

(** An unknown member id is reported by message, on any database,
    and nothing is inserted. *)
Theorem add_registration_unknown_member d now m c :
  ~ refers (members d) m ->
  add_registration d now m c = Ok ("Member with ID " +:+ py_str m +:+ " not found.", d).
Proof. intros Hn. unfold add_registration, check_member_exists. by rewrite (proj2 (check_exists_false _ _) Hn). Qed.

(** C10: for an existing member row with id 0 whose membership is active,
    [get_person_name(member_id=0)] never binds [query]: the
    [UnboundLocalError] is not a [ValueError] and escapes [add_registration]. *)
Theorem add_registration_member_zero d now c p :
  constraints_ok d -> member_person d 0 p -> refers (classes d) c ->
  terminated_before now (Person.leavedate p) = false ->
  add_registration d now 0 c =
  Raise (UnboundLocalError
           "cannot access local variable 'query' where it is not associated with a value").
Proof.
  intros Hok Hp Hc Ht. unfold add_registration.
  rewrite (proj2 (check_member_exists_spec _ _) (member_person_refers _ _ _ Hp)),
          (proj2 (check_class_exists_spec _ _) Hc). simpl.
  rewrite (is_membership_terminated_eq d now 0 p Hok Hp). simpl. rewrite Ht.
  unfold is_member_registered.
  rewrite (proj2 (check_member_exists_spec _ _) (member_person_refers _ _ _ Hp)),
          (proj2 (check_class_exists_spec _ _) Hc). reflexivity.
Qed.

(** ** Witnesses on the fixture *)

(** Anna (member 1) joins the Wednesday yoga class (class 2). *)
Definition sample_after_anna : db :=
  set_registrations sample_db (registrations sample_db ++ [new_registration sample_db 2 1 today]).

Lemma add_registration_refines_witness :
  (exists msg d', add_registration sample_db today 1 2 = Ok (msg, d')) /\
  (add_registration sample_db today 1 2 = Ok (msg_registered, sample_after_anna) <->
   add_registration_spec sample_db today 1 2 msg_registered sample_after_anna).
Proof.
  destruct (add_registration_refines sample_db today 1 2) as [Htot Href]; [compute_decide|lia|].
  split; [exact Htot|apply Href].
Defined.

Lemma add_registration_preserves_wf_witness : wf sample_after_anna.
Proof.
  apply (add_registration_preserves_wf sample_db today 1 2 msg_registered);
    [compute_decide|vm_compute; reflexivity].
Defined.

Lemma add_registration_preserves_capacity_witness : capacity_ok sample_after_anna.
Proof.
  apply (add_registration_preserves_capacity sample_db today 1 2 msg_registered);
    [compute_decide|compute_decide|vm_compute; reflexivity].
Defined.

Lemma add_registration_already_registered_witness :
  add_registration sample_db today 1 1 =
  Ok (msg_already_registered "Anna" "Meier" 1 "Yoga" "Monday", sample_db).
Proof.
  apply (add_registration_already_registered sample_db today 1 1 anna yoga monday).
  - compute_decide.
  - lia.
  - exists (Member.mk 1 1). repeat split; compute_decide.
  - exists yoga_monday, offering_yoga_ben. repeat split; compute_decide.
  - reflexivity.
  - compute_decide.
Defined.


Lemma add_registration_terminated_witness :
  add_registration sample_db today 3 1 = Ok (msg_terminated "Cara" "Wolf" 3, sample_db).
Proof.
  apply (add_registration_terminated sample_db today 3 1 cara d2023_02_01).
  - compute_decide.
  - exists (Member.mk 3 3). repeat split; compute_decide.
  - compute_decide.
  - reflexivity.
  - compute_decide.
Defined.

Lemma add_registration_full_witness :
  add_registration sample_db today 1 3 = Ok (msg_no_free_spots "Spinning" "Monday", sample_db).
Proof.
  apply (add_registration_full sample_db today 1 3 anna spinning monday).
  - compute_decide.
  - lia.
  - exists (Member.mk 1 1). repeat split; compute_decide.
  - exists spinning_monday, offering_spinning_dana. repeat split; compute_decide.
  - reflexivity.
  - compute_decide.
  - rewrite <- instructor_rows_spec; [vm_compute; congruence|compute_decide].
  - vm_compute. reflexivity.
Defined.

Lemma add_registration_member_zero_witness :
  add_registration zero_db today 0 1 =
  Raise (UnboundLocalError
           "cannot access local variable 'query' where it is not associated with a value").
Proof.
  apply (add_registration_member_zero zero_db today 1 anna).
  - compute_decide.
  - exists (Member.mk 0 1). repeat split; compute_decide.
  - compute_decide.
  - reflexivity.
Defined.
