(* ===== verification/Trigger.v ===== *)
(** * Trigger: [tr_update_leaving] of [src/create_trigger.py]

    The trigger fires after an UPDATE of [persons.leavedate], once per
    updated row ([FOR EACH ROW]).  Its body is the statement
    [UPDATE registrations SET enddate = NEW.leavedate
     WHERE (enddate IS NULL OR enddate > NEW.leavedate)
     AND member_id = (SELECT id FROM members WHERE person_id = NEW.id)],
    evaluated with SQL's three-valued logic: a comparison with NULL is not
    true, and a scalar subquery with no row is NULL.

    [update_leavedate] is the statement that fires it,
    [UPDATE persons SET leavedate = :v WHERE id = :id], with the CHECK
    [check_leavedate] on the new person row and the CHECK [check_enddate]
    on every row the trigger writes.  SQLite's default conflict resolution
    (ABORT) undoes the whole statement, trigger included, when a CHECK
    fails: the model raises [IntegrityError] and returns no database. *)

From S2P Require Import Prelude Schema Fixture Lookups.

(** [SELECT id FROM members WHERE person_id = NEW.id] as a scalar. *)
Definition member_of_person (d : db) (person_id : Z) : option Z :=
  fetchone (m ← members d;
            if decide (Member.person_id m = person_id) then [Member.id m] else []).

(** [enddate > NEW.leavedate]: true only when both are non-NULL. *)
Definition end_after (enddate leavedate : option date) : Prop :=
  match enddate, leavedate with
  | Some e, Some l => date_lt l e
  | _, _ => False
  end.

#[export] Instance end_after_dec e l : Decision (end_after e l).
Proof. unfold end_after. destruct e, l; apply _. Defined.

(** The WHERE clause of the trigger body for one registration row. *)
Definition trigger_where (member : option Z) (leavedate : option date) (r : Registration.t) : Prop :=
  (Registration.enddate r = None \/ end_after (Registration.enddate r) leavedate) /\
  member = Some (Registration.member_id r).

#[export] Instance trigger_where_dec m l r : Decision (trigger_where m l r).
Proof. unfold trigger_where. apply _. Defined.

(** [SET enddate = NEW.leavedate]. *)
Definition set_enddate (r : Registration.t) (e : option date) : Registration.t :=
  Registration.mk (Registration.id r) (Registration.class_id r) (Registration.member_id r)
    (Registration.startdate r) e.

(** The trigger body over the registrations in rowid order; the first row
    whose new value breaks [check_enddate] aborts the statement. *)
Fixpoint tr_update_leaving (member : option Z) (leavedate : option date)
    (rs : list Registration.t) : result (list Registration.t) :=
  match rs with
  | [] => Ok []
  | r :: rs' =>
      r' <- (if decide (trigger_where member leavedate r) then
               let r1 := set_enddate r leavedate in
               if decide (check_enddate r1) then Ok r1
               else Raise (IntegrityError "CHECK constraint failed: check_enddate")
             else Ok r) ;;
      rs'' <- tr_update_leaving member leavedate rs' ;;
      Ok (r' :: rs'')
  end.

Definition set_leavedate (p : Person.t) (l : option date) : Person.t :=
  Person.mk (Person.id p) (Person.surname p) (Person.forename p) (Person.birthdate p)
    (Person.street p) (Person.housenumber p) (Person.city_id p) (Person.landline p)
    (Person.mobile p) (Person.email p) (Person.enterdate p) l.

(** [UPDATE persons SET leavedate = :leavedate WHERE id = :person_id],
    followed by [tr_update_leaving] for the updated row. *)
Definition update_leavedate (d : db) (person_id : Z) (leavedate : option date) : result db :=
  match list_find (fun p => Person.id p = person_id) (persons d) with
  | None => Ok d
  | Some (_, p) =>
      let p' := set_leavedate p leavedate in
      if decide (check_leavedate p') then
        rs <- tr_update_leaving (member_of_person d person_id) leavedate (registrations d) ;;
        Ok (set_registrations
              (set_persons d (map (fun q => if decide (Person.id q = person_id) then p' else q)
                                  (persons d)))
              rs)
      else Raise (IntegrityError "CHECK constraint failed: check_leavedate")
  end.

(** The effect of the trigger body on one row. *)
Definition clip (member : option Z) (leavedate : option date) (r : Registration.t) : Registration.t :=
  if decide (trigger_where member leavedate r) then set_enddate r leavedate else r.

Lemma tr_update_leaving_ok member l rs rs' :
  tr_update_leaving member l rs = Ok rs' <->
  rs' = map (clip member l) rs /\
  Forall (fun r => trigger_where member l r -> check_enddate (set_enddate r l)) rs.
Proof.
  revert rs'. induction rs as [|r rs IH]; intros rs'; simpl.
  - split; [intros [= <-]; done|intros [-> _]; done].
  - unfold clip at 1. rewrite Forall_cons.
    destruct (decide (trigger_where member l r)) as [Hw|Hw]; simpl.
    + destruct (decide (check_enddate (set_enddate r l))) as [Hc|Hc]; simpl.
      * destruct (tr_update_leaving member l rs) as [rs0|e] eqn:E; simpl.
        -- specialize (IH rs0). destruct IH as [IH1 _]. destruct (IH1 eq_refl) as [-> Hall].
           split; [intros [= <-]; auto|intros [[= ->] [_ ?]]; done].
        -- split; [discriminate|]. intros [-> [_ Hall]].
           pose proof (proj2 (IH _) (conj eq_refl Hall)). congruence.
      * split; [discriminate|]. intros [_ [Hc' _]]. by destruct Hc; apply Hc'.
    + destruct (tr_update_leaving member l rs) as [rs0|e] eqn:E; simpl.
      * specialize (IH rs0). destruct IH as [IH1 _]. destruct (IH1 eq_refl) as [-> Hall].
        split; [intros [= <-]; split; [done|split; [done|exact Hall]]|intros [[= ->] _]; done].
      * split; [discriminate|]. intros [-> [_ Hall]].
        pose proof (proj2 (IH _) (conj eq_refl Hall)). congruence.
Qed.

(** ** Lemmas on the UPDATE *)

Lemma tr_update_leaving_raise member l rs e :
  tr_update_leaving member l rs = Raise e -> e = IntegrityError "CHECK constraint failed: check_enddate".
Proof.
  induction rs as [|r rs IH]; simpl; [discriminate|].
  destruct (decide (trigger_where member l r)); [destruct (decide (check_enddate _))|]; simpl;
    [|congruence|]; destruct (tr_update_leaving member l rs); simpl; auto; discriminate.
Qed.

Lemma clip_keys member l r :
  Registration.id (clip member l r) = Registration.id r /\
  class_member (clip member l r) = class_member r /\
  Registration.startdate (clip member l r) = Registration.startdate r.
Proof. unfold clip. case_decide; auto. Qed.

(** The found row of [persons] and the rows the UPDATE writes. *)
Lemma update_leavedate_Ok d pid l d' :
  update_leavedate d pid l = Ok d' ->
  ((forall p, p ∈ persons d -> Person.id p <> pid) /\ d' = d) \/
  exists p rs, p ∈ persons d /\ Person.id p = pid /\ check_leavedate (set_leavedate p l) /\
    tr_update_leaving (member_of_person d pid) l (registrations d) = Ok rs /\
    d' = set_registrations
           (set_persons d (map (fun q => if decide (Person.id q = pid) then set_leavedate p l else q)
                               (persons d))) rs.
Proof.
  unfold update_leavedate. destruct (list_find _ _) as [[i p]|] eqn:Ef.
  2:{ intros [= <-]. left. split; [|done]. apply list_find_None in Ef.
      rewrite Forall_forall in Ef. exact Ef. }
  apply list_find_Some in Ef as (Hi & Hid & _).
  case_decide; [|discriminate].
  destruct (tr_update_leaving _ _ _) as [rs|] eqn:Et; simpl; [intros [= <-]|discriminate].
  right. exists p, rs. repeat split; auto. by eapply list_elem_of_lookup_2.
Qed.

Lemma member_of_person_spec d pid mm :
  unique Member.person_id (members d) -> mm ∈ members d -> Member.person_id mm = pid ->
  member_of_person d pid = Some (Member.id mm).
Proof.
  intros Hu Hmm Hpid. unfold member_of_person, fetchone.
  apply head_unique.
  - exists (Member.id mm). join_simpl. eauto.
  - intros x. join_simpl. intros (mm' & [Hpid' ->] & Hmm').
    f_equal. apply (pk_same (H := fun m => Member.person_id m) (members d) mm' mm pid);
      unfold pk; auto.
Qed.

(** The persons table after the UPDATE keeps its constraints. *)
Lemma persons_update_ok ps p pid l :
  persons_ok ps -> p ∈ ps -> Person.id p = pid -> check_leavedate (set_leavedate p l) ->
  persons_ok (map (fun q => if decide (Person.id q = pid) then set_leavedate p l else q) ps) /\
  map Person.id (map (fun q => if decide (Person.id q = pid) then set_leavedate p l else q) ps)
    = map Person.id ps /\
  map Person.city_id (map (fun q => if decide (Person.id q = pid) then set_leavedate p l else q) ps)
    = map Person.city_id ps.
Proof.
  intros (Hpk & Hmob & Hem & Hck) Hp Hid Hc.
  assert (Hsame : forall q, q ∈ ps -> Person.id q = pid -> q = p).
  { intros q Hq Hq'. apply (pk_same ps q p pid Hpk Hq Hp Hq' Hid). }
  assert (Hproj : forall B (g : Person.t -> B), (forall q, g (set_leavedate q l) = g q) ->
            forall q, q ∈ ps ->
            g ((fun q => if decide (Person.id q = pid) then set_leavedate p l else q) q) = g q).
  { intros B g Hg q Hq. simpl. case_decide as E; [|done]. rewrite (Hsame q Hq E). apply Hg. }
  split; [|split; apply map_map_proj, Hproj; done].
  split; [unfold pk; unfold_keys; rewrite map_map_proj; [done|apply Hproj; done]|].
  split; [unfold unique_nullable; rewrite omap_map_proj; [done|apply Hproj; done]|].
  split; [unfold unique_nullable; rewrite omap_map_proj; [done|apply Hproj; done]|].
  apply Forall_fmap, Forall_forall. intros q Hq. simpl. case_decide; [done|].
  rewrite Forall_forall in Hck. by apply Hck.
Qed.

(** The registrations after the trigger keep their constraints. *)
Lemma registrations_clip_ok member l rs :
  registrations_ok rs ->
  Forall (fun r => trigger_where member l r -> check_enddate (set_enddate r l)) rs ->
  registrations_ok (map (clip member l) rs).
Proof.
  intros (Hpk & Hu & Hck) Hall. unfold registrations_ok, pk, unique. unfold_keys.
  rewrite !map_map_proj by (intros r _; apply clip_keys).
  split; [done|split; [done|]].
  apply Forall_fmap, Forall_forall. intros r Hr. simpl. unfold clip. case_decide as Hw.
  - rewrite Forall_forall in Hall. by apply Hall.
  - rewrite Forall_forall in Hck. by apply Hck.
Qed.

(** The UPDATE, trigger included, keeps the constraints SQLite enforces. *)
Lemma update_leavedate_constraints d pid l d' :
  constraints_ok d -> update_leavedate d pid l = Ok d' -> constraints_ok d'.
Proof.
  intros (Hs & Hps & Hrs) H.
  destruct (update_leavedate_Ok d pid l d' H) as [[_ ->]|(p & rs & Hp & Hid & Hc & Ht & ->)];
    [split; [|split]; done|].
  apply tr_update_leaving_ok in Ht as [-> Hall].
  destruct (persons_update_ok (persons d) p pid l Hps Hp Hid Hc) as (Hps' & _ & _).
  split; [exact Hs|split; [exact Hps'|by apply registrations_clip_ok]].
Qed.

(** After a successful UPDATE the person row carries the new leave date;
    members and classes are untouched. *)
Lemma update_leavedate_person d pid l d' p :
  pk (persons d) -> p ∈ persons d -> Person.id p = pid -> update_leavedate d pid l = Ok d' ->
  set_leavedate p l ∈ persons d' /\ members d' = members d /\ classes d' = classes d.
Proof.
  intros Hpk Hp Hid H.
  destruct (update_leavedate_Ok d pid l d' H) as [[Hn _]|(p' & rs & Hp' & Hid' & _ & _ & ->)];
    [by destruct (Hn p Hp)|].
  rewrite (pk_same (persons d) p' p pid Hpk Hp' Hp Hid' Hid) in *. simpl.
  split; [|done]. apply list_elem_of_fmap. exists p. split; [|done]. by rewrite decide_True.
Qed.

(** ** Theorems about the UPDATE and its trigger *)

(** The UPDATE of a leave date, trigger included, preserves the schema's
    constraints and the referential integrity (or is rejected). *)
Lemma update_leavedate_wf d pid l d' :
  wf d -> update_leavedate d pid l = Ok d' -> wf d'.
Proof.
  intros [Hok (Hfs & Hfr)] H. split; [by apply (update_leavedate_constraints d pid l)|].
  destruct Hok as (Hs & Hps & Hrs).
  destruct (update_leavedate_Ok d pid l d' H) as [[_ ->]|(p & rs & Hp & Hid & Hc & Ht & ->)];
    [split; done|].
  apply tr_update_leaving_ok in Ht as [-> Hall].
  destruct (persons_update_ok (persons d) p pid l Hps Hp Hid Hc) as (Hps' & Hids & Hcities).
  set (ps' := map _ (persons d)) in *.
  destruct Hfs as (F1 & F2 & F3 & F4 & F5 & F6 & F7 & F8).
  split.
  - unfold fk_static, refers in *. unfold_keys. simpl. rewrite Hids.
    repeat split; try assumption.
    apply Forall_forall. intros q Hq.
    assert (Person.city_id q ∈ map Person.city_id ps') as Hcq by (by apply list_elem_of_fmap_2).
    rewrite Hcities in Hcq. apply list_elem_of_fmap in Hcq as (q0 & -> & Hq0).
    rewrite Forall_forall in F2. by apply F2.
  - unfold fk_registrations in *. simpl. apply Forall_fmap, Forall_forall.
    intros r Hr. simpl. destruct (clip_keys (member_of_person d pid) l r) as (_ & Hcm & _).
    unfold class_member in Hcm. injection Hcm as -> ->.
    rewrite Forall_forall in Hfr. by apply Hfr.
Qed.

(** C18: after the leave date of a person is set to [l], every registration
    of that person's member row ends no later than [l]. *)
Theorem update_leavedate_clips d pid l d' mm :
  wf d -> mm ∈ members d -> Member.person_id mm = pid ->
  update_leavedate d pid (Some l) = Ok d' ->
  forall r, r ∈ registrations d' -> Registration.member_id r = Member.id mm ->
  exists e, Registration.enddate r = Some e /\ date_le e l.
Proof.
  intros [Hok Hfk] Hmm Hpid H r Hr Hrm.
  assert (Hu : unique Member.person_id (members d))
    by (destruct Hok as [(_&_&_&_&_&_&_&H1&_) _]; exact H1).
  destruct (update_leavedate_Ok d pid (Some l) d' H)
    as [[Hnone _]|(p & rs & Hp & Hid & Hc & Ht & ->)].
  { destruct (refers_row _ _ (fk_member_person d Hfk mm Hmm)) as (p & Hp & Hpid').
    unfold_keys. destruct (Hnone p Hp). congruence. }
  apply tr_update_leaving_ok in Ht as [-> _]. simpl in Hr.
  apply list_elem_of_fmap in Hr as (r0 & -> & Hr0).
  rewrite (member_of_person_spec d pid mm Hu Hmm Hpid) in *.
  destruct (clip_keys (Some (Member.id mm)) (Some l) r0) as (_ & Hcm & _).
  unfold class_member in Hcm. injection Hcm as _ Hm0. rewrite Hm0 in Hrm.
  unfold clip in *. case_decide as Hw.
  - exists l. split; [done|apply date_le_refl].
  - unfold trigger_where in Hw. destruct (Registration.enddate r0) as [e|] eqn:He.
    + exists e. split; [done|]. apply date_not_lt. intros Hlt. apply Hw.
      split; [right; simpl; exact Hlt|by rewrite Hrm].
    + destruct Hw. split; [by left|by rewrite Hrm].
Qed.

Lemma member_of_person_row d pid x :
  member_of_person d pid = Some x -> exists mm, mm ∈ members d /\ Member.person_id mm = pid.
Proof.
  unfold member_of_person, fetchone. intros H.
  apply head_Some_elem_of in H. revert H. join_simpl. naive_solver.
Qed.

(** Under referential integrity the trigger's member has its person row,
    so the UPDATE takes its second branch. *)
Lemma update_leavedate_found d pid l d' x :
  fk_ok d -> member_of_person d pid = Some x -> update_leavedate d pid l = Ok d' ->
  exists p rs, p ∈ persons d /\ Person.id p = pid /\ check_leavedate (set_leavedate p l) /\
    tr_update_leaving (member_of_person d pid) l (registrations d) = Ok rs /\
    d' = set_registrations
           (set_persons d (map (fun q => if decide (Person.id q = pid) then set_leavedate p l else q)
                               (persons d))) rs.
Proof.
  intros Hfk Hx H. destruct (update_leavedate_Ok d pid l d' H) as [[Hnone _]|Hfound]; [|done].
  destruct (member_of_person_row d pid x Hx) as (mm & Hmm & Hpid).
  destruct (refers_row _ _ (fk_member_person d Hfk mm Hmm)) as (p & Hp & Hpid').
  unfold_keys. destruct (Hnone p Hp). congruence.
Qed.

(** C19: the trigger touches only the registrations of the person's member
    row: the others are unchanged, in order. *)
Theorem update_leavedate_frame d pid l d' :
  update_leavedate d pid l = Ok d' ->
  filter (fun r => member_of_person d pid <> Some (Registration.member_id r)) (registrations d') =
  filter (fun r => member_of_person d pid <> Some (Registration.member_id r)) (registrations d).
Proof.
  intros H. destruct (update_leavedate_Ok d pid l d' H) as [[_ ->]|(p & rs & _ & _ & _ & Ht & ->)];
    [done|].
  apply tr_update_leaving_ok in Ht as [-> _]. simpl. clear H.
  generalize (member_of_person d pid) as x. intros x.
  induction (registrations d) as [|r rs IH]; [done|]. simpl. rewrite !filter_cons, IH.
  destruct (clip_keys x l r) as (_ & Hcm & _).
  unfold class_member in Hcm. injection Hcm as _ Hm. rewrite Hm.
  destruct (decide (x = Some (Registration.member_id r))) as [Hx|Hx].
  - rewrite !decide_False by (intros []; exact Hx). done.
  - rewrite !decide_True by exact Hx. f_equal. unfold clip.
    rewrite decide_False; [done|]. intros [_ Hx']. contradiction.
Qed.

(** C20: setting a leave date on or before the start of a registration the
    trigger has to clip makes the whole UPDATE fail with the CHECK error of
    [registrations]: the new leave date is not stored either. *)
Theorem update_leavedate_rejects d pid l p r :
  pk (persons d) -> p ∈ persons d -> Person.id p = pid ->
  date_lt (Person.enterdate p) l ->
  r ∈ registrations d -> trigger_where (member_of_person d pid) (Some l) r ->
  ~ date_lt (Registration.startdate r) l ->
  update_leavedate d pid (Some l) = Raise (IntegrityError "CHECK constraint failed: check_enddate").
Proof.
  intros Hpk Hp Hid Henter Hr Hw Hstart. unfold update_leavedate.
  destruct (list_find _ _) as [[i q]|] eqn:Ef.
  2:{ apply list_find_None in Ef. rewrite Forall_forall in Ef. by destruct (Ef p Hp). }
  apply list_find_Some in Ef as (Hq & Hqid & _).
  assert (q = p) as -> by (apply (pk_same _ q p pid Hpk); auto; by eapply list_elem_of_lookup_2).
  rewrite decide_True by exact Henter.
  destruct (tr_update_leaving _ _ _) as [rs|e] eqn:Et; simpl.
  - apply tr_update_leaving_ok in Et as [_ Hall]. rewrite Forall_forall in Hall.
    destruct (Hstart (Hall r Hr Hw)).
  - by rewrite (tr_update_leaving_raise _ _ _ _ Et).
Qed.

(** The rows the trigger selects for a new leave date [l]: those of the
    person's member row that are open or end after [l]. *)
Lemma trigger_selects_iff d pid l r :
  unique Member.person_id (members d) ->
  trigger_where (member_of_person d pid) (Some l) r <->
  exists mm, mm ∈ members d /\ Member.person_id mm = pid /\ Registration.member_id r = Member.id mm /\
    (Registration.enddate r = None \/ exists e, Registration.enddate r = Some e /\ date_lt l e).
Proof.
  intros Hu. unfold trigger_where, end_after. split.
  - intros [He Hm]. destruct (member_of_person_row d pid _ Hm) as (mm & Hmm & Hpid).
    rewrite (member_of_person_spec d pid mm Hu Hmm Hpid) in Hm. injection Hm as Hm.
    exists mm. split_and!; [done|done|done|].
    destruct (Registration.enddate r); naive_solver.
  - intros (mm & Hmm & Hpid & Hm & He). rewrite (member_of_person_spec d pid mm Hu Hmm Hpid), Hm.
    split; [|done]. destruct (Registration.enddate r); naive_solver.
Qed.

(** The UPDATE finds the person row [p] and commits exactly when the new
    leave date passes the CHECK of [persons] and every row the trigger
    selects passes the CHECK of [registrations] once clipped. *)
Lemma update_leavedate_found_Ok d pid l p :
  pk (persons d) -> p ∈ persons d -> Person.id p = pid ->
  (exists d', update_leavedate d pid l = Ok d') <->
  check_leavedate (set_leavedate p l) /\
  Forall (fun r => trigger_where (member_of_person d pid) l r -> check_enddate (set_enddate r l))
    (registrations d).
Proof.
  intros Hpk Hp Hid. unfold update_leavedate.
  destruct (list_find _ _) as [[i q]|] eqn:Ef.
  2:{ apply list_find_None in Ef. rewrite Forall_forall in Ef. by destruct (Ef p Hp). }
  apply list_find_Some in Ef as (Hq & Hqid & _).
  assert (q = p) as -> by (apply (pk_same _ q p pid Hpk); auto; by eapply list_elem_of_lookup_2).
  case_decide as Hc; [|split; [intros [? [=]]|tauto]].
  destruct (tr_update_leaving _ _ _) as [rs|e] eqn:Et; simpl.
  - apply tr_update_leaving_ok in Et as [_ Hall]. split; [done|]. eauto.
  - split; [intros [? [=]]|]. intros [_ Hall].
    pose proof (proj2 (tr_update_leaving_ok _ l (registrations d) _) (conj eq_refl Hall)). congruence.
Qed.


(** C21: a registration the trigger selects (open, or ending after the new
    leave date, of the person's member row) ends on the new leave date
    after the UPDATE. *)
Theorem update_leavedate_sets_enddate d pid l d' r :
  fk_ok d -> update_leavedate d pid (Some l) = Ok d' ->
  r ∈ registrations d -> trigger_where (member_of_person d pid) (Some l) r ->
  set_enddate r (Some l) ∈ registrations d'.
Proof.
  intros Hfk H Hr Hw. destruct Hw as [Hend Hm].
  destruct (update_leavedate_found d pid (Some l) d' _ Hfk Hm H) as (p & rs & _ & _ & _ & Ht & ->).
  apply tr_update_leaving_ok in Ht as [-> _]. simpl.
  apply list_elem_of_fmap. exists r. split; [|done]. unfold clip. by rewrite decide_True.
Qed.

(** ** Witnesses on the fixture *)

(** Anna (person 1, member 1) leaves on 2024-06-30. *)
Definition sample_anna_leaves : db :=
  match update_leavedate sample_db 1 (Some d2024_06_30) with
  | Ok d => d
  | Raise _ => sample_db
  end.


Lemma update_leavedate_clips_witness :
  set_enddate reg_anna_yoga (Some d2024_06_30) ∈ registrations sample_anna_leaves /\
  exists e, Registration.enddate (set_enddate reg_anna_yoga (Some d2024_06_30)) = Some e /\
            date_le e d2024_06_30.
Proof.
  split; [compute_decide|].
  apply (update_leavedate_clips sample_db 1 d2024_06_30 sample_anna_leaves (Member.mk 1 1)).
  - compute_decide.
  - compute_decide.
  - reflexivity.
  - vm_compute. reflexivity.
  - compute_decide.
  - reflexivity.
Defined.

Lemma update_leavedate_frame_witness :
  filter (fun r => member_of_person sample_db 1 <> Some (Registration.member_id r))
         (registrations sample_anna_leaves) =
  filter (fun r => member_of_person sample_db 1 <> Some (Registration.member_id r))
         (registrations sample_db).
Proof. apply (update_leavedate_frame sample_db 1 (Some d2024_06_30)). vm_compute. reflexivity. Defined.

Lemma update_leavedate_rejects_witness :
  update_leavedate sample_db 1 (Some (mkDate 2021 2 1)) =
  Raise (IntegrityError "CHECK constraint failed: check_enddate").
Proof.
  apply (update_leavedate_rejects sample_db 1 (mkDate 2021 2 1) anna reg_anna_yoga).
  - compute_decide.
  - compute_decide.
  - reflexivity.
  - compute_decide.
  - compute_decide.
  - compute_decide.
  - compute_decide.
Defined.

Lemma update_leavedate_sets_enddate_witness :
  set_enddate reg_anna_yoga (Some d2024_06_30) ∈ registrations sample_anna_leaves.
Proof.
  apply (update_leavedate_sets_enddate sample_db 1 d2024_06_30).
  - compute_decide.
  - vm_compute. reflexivity.
  - compute_decide.
  - compute_decide.
Defined.
