(* ===== verification/Driver.v ===== *)
(** * Driver: the scripts that call the queries and the procedure and print

    Three scripts run the functions of the other components and print what
    they answer:
    - the module body of [src/create_functions.py] (module [LegacyScript]):
      after each of its functions, a loop over fixed ids that calls it
      inside [try ... except ValueError as e: print(e)] and prints a
      sentence built from the answer;
    - [src/tests/test_functions.py] (module [TestFunctions]): the same
      loops over the functions of [scripts/python/create_functions.py],
      with other ids and slightly different sentences;
    - [src/tests/test_procedures.py] (module [TestProcedures]): a loop
      calling [add_registration] for five members and printing each
      answer; the database changes from one call to the next.
    A run is modelled by the monad [io]: the lines printed so far and the
    outcome, a value or the exception that ends the script (the lines
    printed before it stay printed).  The loops are written once, in
    Section [Loops], with the words in which the scripts' sentences
    differ as parameters. *)

From S2P Require Import Prelude Schema Storage Fixture Lookups Queries Legacy Procedure.

(** ** Printing and exceptions *)

(** The lines printed by [print] and the outcome of the run. *)
Definition io (A : Type) : Type := list string * result A.

Definition io_ret {A} (a : A) : io A := ([], Ok a).

Definition io_bind {A B} (c : io A) (k : A -> io B) : io B :=
  match c with
  | (out, Ok a) => let '(out', r) := k a in (out ++ out', r)
  | (out, Raise e) => (out, Raise e)
  end.

Declare Scope io_scope.
Delimit Scope io_scope with io.
Notation "x <-- c ;; k" := (io_bind c (fun x => k))
  (at level 60, c at next level, right associativity) : io_scope.
Open Scope io_scope.

(** A call that prints nothing. *)
Definition lift {A} (r : result A) : io A := ([], r).

(** [print(s)]. *)
Definition print (s : string) : io unit := ([s], Ok tt).

(** [try: body except ValueError as e: print(e)]: the message of a
    [ValueError] is printed after what the body printed; any other
    exception propagates. *)
Definition try_value_error (body : io unit) : io unit :=
  match body with
  | (out, Raise (ValueError msg)) => (out ++ [msg], Ok tt)
  | _ => body
  end.

(** [for x in l: body(x)]. *)
Fixpoint for_ {A} (l : list A) (body : A -> io unit) : io unit :=
  match l with
  | [] => io_ret tt
  | x :: l' => _ <-- body x ;; for_ l' body
  end.

(** [t.strftime('%H:%M')]. *)
Definition strftime_HM (t : time) : string :=
  pad_zeros 2 (py_str (hour t)) +:+ ":" +:+ pad_zeros 2 (py_str (minute t)).

(** ** The loops of the scripts *)

Section Loops.
Context (d : db) (now : date).

(** [print(f"{registrations_2021} persons registered in the year {year}.")]. *)
Definition print_registrations_by_year (year : Z) : io unit :=
  registrations <-- lift (count_registrations_by_year d year) ;;
  print (py_str registrations +:+ " persons registered in the year " +:+ py_str year +:+ ".").

Definition membership_status (membership_terminated : bool) : string :=
  if membership_terminated then "has terminated his/her membership"
  else "is still an active member".

Definition print_membership_terminated (member_ids : list Z) : io unit :=
  for_ member_ids (fun member_id => try_value_error (
    r <-- lift (is_membership_terminated d now member_id) ;;
    let '(membership_terminated, forename, surname) := r in
    print (forename +:+ " " +:+ surname +:+ " (ID: " +:+ py_str member_id +:+ ") " +:+
           membership_status membership_terminated +:+ "."))).

(** [heading] is ["Classes for trainer "] in the older script and
    ["Classes of trainer "] in the test script. *)
Definition print_classes_by_trainer (heading : string) (trainer_ids : list Z) (weekday_id : Z)
  : io unit :=
  for_ trainer_ids (fun trainer_id => try_value_error (
    r <-- lift (get_classes_by_trainer d trainer_id weekday_id) ;;
    let '(forename, surname, weekday, classes_by_trainer) := r in
    match classes_by_trainer with
    | [] => print ("No classes found for trainer " +:+ forename +:+ " " +:+ surname +:+
                   " (ID: " +:+ py_str trainer_id +:+ ") on " +:+ weekday +:+ "s.")
    | _ =>
        _ <-- print (heading +:+ forename +:+ " " +:+ surname +:+
                     " (ID: " +:+ py_str trainer_id +:+ ") on " +:+ weekday +:+ "s:") ;;
        for_ classes_by_trainer (fun class_ =>
          let '(classtype, time) := class_ in
          print (" - " +:+ classtype +:+ " at " +:+ strftime_HM time))
    end)).

Definition instructor_status (instructor : bool) : string :=
  if instructor then "is the instructor" else "is not the instructor".

(** [query] is [is_trainer_instructor] with [prefix = "Trainer "] in the
    older script, [is_member_instructor] with [prefix = ""] in the test
    script; [ids[0]] is the trainer or member asked about. *)
Definition print_instructor (query : Z -> Z -> result (string * string * string * string * bool))
    (prefix : string) (ids class_ids : list Z) : io unit :=
  for_ class_ids (fun class_id => try_value_error (
    who <-- lift (py_index ids 0) ;;
    r <-- lift (query who class_id) ;;
    let '(forename, surname, class_, weekday, instructor) := r in
    print (prefix +:+ forename +:+ " " +:+ surname +:+ " (ID: " +:+ py_str who +:+ ") " +:+
           instructor_status instructor +:+ " of " +:+ class_ +:+ " on " +:+ weekday +:+ "s."))).

Definition print_registrations_by_class (class_ids : list Z) : io unit :=
  for_ class_ids (fun class_id => try_value_error (
    r <-- lift (get_registrations_by_class d class_id) ;;
    let '(class_, weekday, registration_count) := r in
    print (py_str registration_count +:+ " persons are registered for " +:+ class_ +:+
           " on " +:+ weekday +:+ "s."))).

Definition registered_status (member_registered : bool) : string :=
  if member_registered then "is registered" else "is not registered".

(** [query] is the older [is_member_registered] with [prefix = "Member "]
    in the older script, the newer one with [prefix = ""] in the test
    script; the class asked about is [class_ids[0]]. *)
Definition print_member_registered (query : Z -> Z -> result (string * string * string * string * bool))
    (prefix : string) (member_ids class_ids : list Z) : io unit :=
  for_ member_ids (fun member_id => try_value_error (
    class_id <-- lift (py_index class_ids 0) ;;
    r <-- lift (query member_id class_id) ;;
    let '(forename, surname, class_, weekday, member_registered) := r in
    print (prefix +:+ forename +:+ " " +:+ surname +:+ " (ID: " +:+ py_str member_id +:+ ") " +:+
           registered_status member_registered +:+ " for " +:+ class_ +:+ " on " +:+
           weekday +:+ "s."))).

Definition print_free_spots (class_ids : list Z) : io unit :=
  for_ class_ids (fun class_id => try_value_error (
    r <-- lift (count_free_spots_by_class d class_id) ;;
    let '(class_, weekday, free_spots) := r in
    print (py_str free_spots +:+ " free spots are available for " +:+ class_ +:+
           " on " +:+ weekday +:+ "s."))).

End Loops.

(** [for member_id in member_ids: feedback = add_registration(member_id,
    class_id); print(feedback)]: each call sees the database the previous
    one left. *)
Fixpoint register_all (d : db) (now : date) (class_id : Z) (member_ids : list Z) : io db :=
  match member_ids with
  | [] => io_ret d
  | member_id :: member_ids' =>
      r <-- lift (add_registration d now member_id class_id) ;;
      let '(feedback, d') := r in
      _ <-- print feedback ;;
      register_all d' now class_id member_ids'
  end.

(** ** The three scripts *)

(** The module body of [src/create_functions.py]. *)
Module LegacyScript.
Definition year : Z := 2021.
Definition member_ids : list Z := [10; 15; 37].
Definition trainer_ids : list Z := [2; 3].
Definition weekday_id : Z := 2.
Definition class_ids : list Z := [1; 6].

Definition script (d : db) (now : date) : io unit :=
  _ <-- print_registrations_by_year d year ;;
  _ <-- print_membership_terminated d now member_ids ;;
  _ <-- print_classes_by_trainer d "Classes for trainer " trainer_ids weekday_id ;;
  _ <-- print_instructor (Legacy.is_trainer_instructor d) "Trainer " trainer_ids class_ids ;;
  _ <-- print_registrations_by_class d class_ids ;;
  _ <-- print_member_registered (Legacy.is_member_registered d) "Member " member_ids class_ids ;;
  print_free_spots d class_ids.
End LegacyScript.

(** [src/tests/test_functions.py]. *)
Module TestFunctions.
Definition year : Z := 2021.
Definition member_ids : list Z := [2; 10; 11; 25; 37].
Definition trainer_ids : list Z := [2; 3].
Definition weekday_id : Z := 2.
Definition class_ids : list Z := [1; 6].

Definition script (d : db) (now : date) : io unit :=
  _ <-- print_registrations_by_year d year ;;
  _ <-- print_membership_terminated d now member_ids ;;
  _ <-- print_classes_by_trainer d "Classes of trainer " trainer_ids weekday_id ;;
  _ <-- print_instructor (is_member_instructor d) "" member_ids class_ids ;;
  _ <-- print_registrations_by_class d class_ids ;;
  _ <-- print_member_registered (is_member_registered d) "" member_ids class_ids ;;
  print_free_spots d class_ids.
End TestFunctions.

(** [src/tests/test_procedures.py]. *)
Module TestProcedures.
Definition class_id : Z := 1.
Definition member_ids : list Z := [2; 10; 11; 25; 37].

Definition script (d : db) (now : date) : io db := register_all d now class_id member_ids.
End TestProcedures.

(** ** The monad: outcome and output of a composed run *)

Definition outcome {A} (c : io A) : result A := snd c.
Definition output {A} (c : io A) : list string := fst c.

Lemma outcome_bind {A B} (c : io A) (k : A -> io B) :
  outcome (io_bind c k) = bind (outcome c) (fun a => outcome (k a)).
Proof. destruct c as [out [a|e]]; simpl; [by destruct (k a)|done]. Qed.

Lemma output_bind {A B} (c : io A) (k : A -> io B) :
  output (io_bind c k) =
  output c ++ match outcome c with Ok a => output (k a) | Raise _ => [] end.
Proof. destruct c as [out [a|e]]; simpl; [by destruct (k a)|by rewrite app_nil_r]. Qed.

(** A run whose first part returns [a] continues with [k a]. *)
Lemma io_bind_Ok {A B} (c : io A) (k : A -> io B) out a :
  c = (out, Ok a) -> io_bind c k = (out ++ output (k a), outcome (k a)).
Proof. intros ->. simpl. by destruct (k a). Qed.

(** What a [try ... except ValueError] block lets through: a value or a
    [ValueError]. *)
Definition caught {A} (r : result A) : Prop :=
  match r with
  | Ok _ => True
  | Raise (ValueError _) => True
  | Raise _ => False
  end.

Lemma caught_bind {A B} (r : result A) (f : A -> result B) :
  caught r -> (forall a, r = Ok a -> caught (f a)) -> caught (bind r f).
Proof. destruct r as [a|e]; simpl; auto. Qed.

Lemma try_value_error_Ok body : caught (outcome body) -> outcome (try_value_error body) = Ok tt.
Proof. destruct body as [out [[]|[]]]; simpl; done. Qed.

Lemma for_Ok {A} (l : list A) body :
  (forall x, x ∈ l -> outcome (body x) = Ok tt) -> outcome (for_ l body) = Ok tt.
Proof.
  induction l as [|x l IH]; intros H; [done|]. simpl. rewrite outcome_bind.
  rewrite (H x) by apply list_elem_of_here. apply IH. intros y Hy. by apply H, list_elem_of_further.
Qed.

(** A loop whose bodies are [try] blocks around calls that raise nothing
    but [ValueError] runs to its end. *)
Lemma for_try_Ok {A} (l : list A) body :
  (forall x, x ∈ l -> caught (outcome (body x))) -> outcome (for_ l (fun x => try_value_error (body x))) = Ok tt.
Proof. intros H. apply for_Ok. intros x Hx. by apply try_value_error_Ok, H. Qed.

Lemma caught_lift_print {A} (r : result A) (k : A -> string) :
  caught r -> caught (outcome (a <-- lift r ;; print (k a))).
Proof. intros Hr. rewrite outcome_bind. by apply caught_bind. Qed.

(** ** On a well-formed database the queries raise nothing but [ValueError] *)

(** A failed existence check raises the [ValueError] of the source. *)
Ltac check_fails :=
  match goal with
  | H : ~ refers ?t ?x |- _ =>
      unfold check_member_exists, check_class_exists, check_trainer_exists,
        check_weekday_exists; rewrite (proj2 (check_exists_false t x) H); exact I
  end.

(** A passed existence check, rewritten to [true]. *)
Ltac check_passes :=
  unfold check_member_exists, check_class_exists, check_trainer_exists, check_weekday_exists;
  repeat match goal with
  | H : refers ?t ?x |- context [check_exists ?t ?x] => rewrite (proj2 (check_exists_spec t x) H)
  end; simpl.

Section Caught.
Context (d : db) (Hwf : wf d).

Lemma caught_is_membership_terminated now m : caught (is_membership_terminated d now m).
Proof using Hwf.
  destruct Hwf as [Hok Hfk].
  destruct (decide (refers (members d) m)) as [Hy|Hn]; [|unfold is_membership_terminated; check_fails].
  destruct (member_person_exists d Hfk m Hy) as [p Hp].
  by rewrite (is_membership_terminated_eq d now m p Hok Hp).
Qed.

Lemma caught_get_classes_by_trainer t wid : t <> 0 -> caught (get_classes_by_trainer d t wid).
Proof using Hwf.
  destruct Hwf as [Hok Hfk]. intros Ht.
  destruct (decide (refers (trainers d) t)) as [Hyt|Hn]; [|unfold get_classes_by_trainer; check_fails].
  destruct (decide (refers (weekdays d) wid)) as [Hyw|Hn];
    [|unfold get_classes_by_trainer; check_passes; check_fails].
  destruct (trainer_person_exists d Hfk t Hyt) as [p Hp].
  destruct (refers_row _ _ Hyw) as (w & Hw & <-). unfold_keys.
  by rewrite (get_classes_by_trainer_eq d t p w Hok Ht Hp Hw).
Qed.

Lemma caught_is_member_instructor m c : m <> 0 -> caught (is_member_instructor d m c).
Proof using Hwf.
  destruct Hwf as [Hok Hfk]. intros Hm.
  destruct (decide (refers (members d) m)) as [Hym|Hn]; [|unfold is_member_instructor; check_fails].
  destruct (decide (refers (classes d) c)) as [Hyc|Hn];
    [|unfold is_member_instructor; check_passes; check_fails].
  destruct (member_person_exists d Hfk m Hym) as [p Hp].
  destruct (class_info_exists d Hfk c Hyc) as (ct & w & Hi).
  by rewrite (is_member_instructor_eq d m c p ct w Hok Hm Hp Hi).
Qed.

Lemma caught_is_member_registered m c : m <> 0 -> caught (is_member_registered d m c).
Proof using Hwf.
  destruct Hwf as [Hok Hfk]. intros Hm.
  destruct (decide (refers (members d) m)) as [Hym|Hn]; [|unfold is_member_registered; check_fails].
  destruct (decide (refers (classes d) c)) as [Hyc|Hn];
    [|unfold is_member_registered; check_passes; check_fails].
  destruct (member_person_exists d Hfk m Hym) as [p Hp].
  destruct (class_info_exists d Hfk c Hyc) as (ct & w & Hi).
  by rewrite (is_member_registered_eq d m c p ct w Hok Hm Hp Hi).
Qed.

Lemma caught_get_registrations_by_class c : caught (get_registrations_by_class d c).
Proof using Hwf.
  destruct Hwf as [Hok Hfk].
  destruct (decide (refers (classes d) c)) as [Hyc|Hn]; [|unfold get_registrations_by_class; check_fails].
  destruct (class_info_exists d Hfk c Hyc) as (ct & w & Hi).
  unfold get_registrations_by_class. check_passes.
  by rewrite (get_class_and_weekday_info d Hok c ct w Hi).
Qed.

Lemma caught_count_free_spots_by_class c : caught (count_free_spots_by_class d c).
Proof using Hwf.
  destruct Hwf as [Hok Hfk].
  destruct (decide (refers (classes d) c)) as [Hyc|Hn]; [|unfold count_free_spots_by_class; check_fails].
  destruct (class_info_exists d Hfk c Hyc) as (ct & w & Hi).
  by rewrite (count_free_spots_by_class_eq d c ct w Hok Hi).
Qed.

Lemma caught_is_trainer_instructor t c : t <> 0 -> caught (Legacy.is_trainer_instructor d t c).
Proof using Hwf.
  destruct Hwf as [Hok Hfk]. intros Ht.
  destruct (decide (refers (trainers d) t)) as [Hyt|Hn];
    [|unfold Legacy.is_trainer_instructor; check_fails].
  destruct (decide (refers (classes d) c)) as [Hyc|Hn];
    [|unfold Legacy.is_trainer_instructor; check_passes; check_fails].
  destruct (trainer_person_exists d Hfk t Hyt) as [p Hp].
  destruct (class_info_exists d Hfk c Hyc) as (ct & w & Hi).
  unfold Legacy.is_trainer_instructor. check_passes.
  rewrite (get_person_name_trainer d t p Hok Ht Hp). simpl.
  by rewrite (get_class_and_weekday_info d Hok c ct w Hi).
Qed.

Lemma caught_legacy_is_member_registered m c : m <> 0 -> caught (Legacy.is_member_registered d m c).
Proof using Hwf.
  destruct Hwf as [Hok Hfk]. intros Hm.
  destruct (decide (refers (members d) m)) as [Hym|Hn];
    [|unfold Legacy.is_member_registered; check_fails].
  destruct (decide (refers (classes d) c)) as [Hyc|Hn];
    [|unfold Legacy.is_member_registered; check_passes; check_fails].
  destruct (member_person_exists d Hfk m Hym) as [p Hp].
  destruct (class_info_exists d Hfk c Hyc) as (ct & w & Hi).
  unfold Legacy.is_member_registered. check_passes.
  rewrite (get_person_name_member d m p Hok Hm Hp). simpl.
  by rewrite (get_class_and_weekday_info d Hok c ct w Hi).
Qed.

End Caught.

(** ** Each loop runs to its end *)

Lemma outcome_seq {B} (c : io unit) (k : io B) :
  outcome c = Ok tt -> outcome (_ <-- c ;; k) = outcome k.
Proof. intros H. by rewrite outcome_bind, H. Qed.

Create HintDb driver discriminated.

Section Blocks.
Context (d : db) (now : date) (Hwf : wf d).

Lemma print_registrations_by_year_Ok y : outcome (print_registrations_by_year d y) = Ok tt.
Proof. reflexivity. Qed.

Lemma print_membership_terminated_Ok ids : outcome (print_membership_terminated d now ids) = Ok tt.
Proof using Hwf.
  apply for_try_Ok. intros m _. rewrite outcome_bind.
  apply caught_bind; [by apply caught_is_membership_terminated|]. by intros [[? ?] ?] _.
Qed.

Lemma print_classes_by_trainer_Ok heading ids wid :
  Forall (fun t => t <> 0) ids -> outcome (print_classes_by_trainer d heading ids wid) = Ok tt.
Proof using Hwf.
  intros Hids. apply for_try_Ok. intros t Ht. rewrite outcome_bind.
  apply caught_bind; [apply caught_get_classes_by_trainer; [done|exact (proj1 (Forall_forall _ ids) Hids t Ht)]|].
  intros [[[fn sn] w] [|row rows]] _; [done|].
  rewrite outcome_seq by done. rewrite for_Ok; [done|]. by intros [? ?] _.
Qed.

(** The loops whose body first reads [ids[0]]. *)
Lemma print_instructor_Ok query prefix ids class_ids who :
  ids !! 0%nat = Some who -> (forall c, caught (query who c)) ->
  outcome (print_instructor query prefix ids class_ids) = Ok tt.
Proof.
  intros Hwho Hq. apply for_try_Ok. intros c _.
  rewrite (io_bind_Ok _ _ [] who) by (unfold lift, py_index; by rewrite Hwho).
  cbn [outcome snd]. rewrite outcome_bind.
  apply caught_bind; [apply Hq|]. by intros [[[[? ?] ?] ?] ?] _.
Qed.

Lemma print_member_registered_Ok query prefix ids class_ids c :
  class_ids !! 0%nat = Some c -> Forall (fun m => caught (query m c)) ids ->
  outcome (print_member_registered query prefix ids class_ids) = Ok tt.
Proof.
  intros Hc Hq. apply for_try_Ok. intros m Hm.
  rewrite (io_bind_Ok _ _ [] c) by (unfold lift, py_index; by rewrite Hc).
  cbn [outcome snd]. rewrite outcome_bind.
  apply caught_bind; [exact (proj1 (Forall_forall _ ids) Hq m Hm)|]. by intros [[[[? ?] ?] ?] ?] _.
Qed.

Lemma print_registrations_by_class_Ok ids : outcome (print_registrations_by_class d ids) = Ok tt.
Proof using Hwf.
  apply for_try_Ok. intros c _. rewrite outcome_bind.
  apply caught_bind; [by apply caught_get_registrations_by_class|]. by intros [[? ?] ?] _.
Qed.

Lemma print_free_spots_Ok ids : outcome (print_free_spots d ids) = Ok tt.
Proof using Hwf.
  apply for_try_Ok. intros c _. rewrite outcome_bind.
  apply caught_bind; [by apply caught_count_free_spots_by_class|]. by intros [[? ?] ?] _.
Qed.

End Blocks.

(** ** The registration loop *)

(** [d'] is [d] with registration rows appended, the other tables as
    they were: what [add_registration] and the loop do to the database. *)
Definition extends (d d' : db) : Prop :=
  exists rs, d' = set_registrations d (registrations d ++ rs).

Lemma extends_refl d : extends d d.
Proof. exists []. destruct d. unfold set_registrations. simpl. by rewrite app_nil_r. Qed.

Lemma extends_trans d1 d2 d3 : extends d1 d2 -> extends d2 d3 -> extends d1 d3.
Proof.
  intros [rs1 ->] [rs2 ->]. exists (rs1 ++ rs2). simpl. by rewrite app_assoc.
Qed.

Lemma add_registration_extends d now m c msg d' :
  add_registration d now m c = Ok (msg, d') -> extends d d'.
Proof.
  intros H. destruct (add_registration_effect d now m c msg d' H)
    as [->|(_ & _ & _ & Hins & _)]; [apply extends_refl|].
  apply insert_registration_spec in Hins as [_ ->]. by eexists.
Qed.

Lemma extends_registered d d' m c : extends d d' -> registered d m c -> registered d' m c.
Proof.
  intros [rs ->] (r & Hr & Hm & Hc). exists r. split; [|done].
  apply elem_of_app. by left.
Qed.

Lemma extends_occupied d d' c : extends d d' -> occupied_spots d c <= occupied_spots d' c.
Proof. intros [rs ->]. unfold occupied_spots. simpl. rewrite filter_app, length_app. lia. Qed.

#[export] Hint Resolve extends_refl extends_registered extends_occupied : driver.

(** One turn of the loop. *)
Lemma register_all_cons d now c m ids d' :
  outcome (register_all d now c (m :: ids)) = Ok d' ->
  exists msg d1, add_registration d now m c = Ok (msg, d1) /\
                 outcome (register_all d1 now c ids) = Ok d'.
Proof.
  cbn [register_all]. rewrite outcome_bind.
  destruct (add_registration d now m c) as [[msg d1]|e]; simpl; [|discriminate].
  destruct (register_all d1 now c ids) eqn:E. simpl. intros H. exists msg, d1. by rewrite E.
Qed.

Lemma register_all_extends d now c ids d' :
  outcome (register_all d now c ids) = Ok d' -> extends d d'.
Proof.
  revert d. induction ids as [|m ids IH]; intros d H.
  - injection H as <-. apply extends_refl.
  - destruct (register_all_cons d now c m ids d' H) as (msg & d1 & H1 & H2).
    eapply extends_trans; [eapply add_registration_extends, H1|by apply IH].
Qed.

Lemma register_all_wf d now c ids d' :
  wf d -> outcome (register_all d now c ids) = Ok d' -> wf d'.
Proof.
  revert d. induction ids as [|m ids IH]; intros d Hwf H.
  - by injection H as <-.
  - destruct (register_all_cons d now c m ids d' H) as (msg & d1 & H1 & H2).
    apply (IH d1); [by apply (add_registration_wf d now m c msg d1)|done].
Qed.

(** The loop runs to its end on a well-formed database when no member id
    is 0. *)
Lemma register_all_returns d now c ids :
  wf d -> Forall (fun m => m <> 0) ids -> exists d', outcome (register_all d now c ids) = Ok d'.
Proof.
  revert d. induction ids as [|m ids IH]; intros d Hwf Hids; [by eexists|].
  apply Forall_cons in Hids as [Hm Hids].
  destruct (add_registration_returns d now m c Hwf Hm) as (msg & d1 & E).
  destruct (IH d1) as [d' Hd']; [by apply (add_registration_wf d now m c msg d1)|done|].
  exists d'. cbn [register_all]. rewrite outcome_bind, E. simpl.
  destruct (register_all d1 now c ids). exact Hd'.
Qed.

(** One call changes the class's occupancy by at most one row, and only
    while the class has a free spot. *)
Lemma add_registration_occupancy d now m c ct w msg d1 :
  constraints_ok d -> class_info d c ct w -> add_registration d now m c = Ok (msg, d1) ->
  occupied_spots d1 c = occupied_spots d c \/
  (occupied_spots d1 c = occupied_spots d c + 1 /\ occupied_spots d c < ClassType.maxparticipants ct).
Proof.
  intros Hok Hi H. destruct (add_registration_effect d now m c msg d1 H)
    as [->|(_ & _ & _ & Hins & cl & wk & n & Hf & Hn)]; [by left|right].
  apply insert_registration_spec in Hins as [_ ->].
  rewrite occupied_spots_insert, decide_True by done.
  rewrite (count_free_spots_by_class_eq d c ct w Hok Hi) in Hf. injection Hf as _ _ <-. lia.
Qed.

(** A loop body that prints one line and returns. *)
Lemma for_lines {A} (P : A -> string -> Prop) (l : list A) body :
  (forall x, x ∈ l -> exists line, body x = ([line], Ok tt) /\ P x line) ->
  exists lines, for_ l body = (lines, Ok tt) /\ Forall2 P l lines.
Proof.
  induction l as [|x l IH]; intros H; [by exists []|].
  destruct (H x) as (line & Hx & Hp); [apply list_elem_of_here|].
  destruct IH as (lines & Hl & Hps); [intros y Hy; by apply H, list_elem_of_further|].
  exists (line :: lines). simpl. rewrite Hx. simpl. rewrite Hl. auto.
Qed.

(** The line [print_membership_terminated] prints for member id [m]: the
    [ValueError] message of an unknown member, otherwise the names and the
    status of the member's person. *)
Definition membership_line (d : db) (now : date) (m : Z) (line : string) : Prop :=
  (~ refers (members d) m /\ line = "Member with ID " +:+ py_str m +:+ " not found.") \/
  (exists p, member_person d m p /\
     line = Person.forename p +:+ " " +:+ Person.surname p +:+ " (ID: " +:+ py_str m +:+ ") " +:+
            membership_status (terminated_before now (Person.leavedate p)) +:+ ".").

(** The blocks common to both query scripts. *)
Ltac blocks_Ok :=
  try first [ apply print_registrations_by_year_Ok | by apply print_membership_terminated_Ok
            | by apply print_registrations_by_class_Ok | by apply print_free_spots_Ok
            | (apply print_classes_by_trainer_Ok; [done|compute_decide]) ].

(** ** Theorems about the scripts *)

(** C6: on a well-formed database each of the three scripts runs to its
    end: every exception raised inside a loop is a [ValueError] that the
    loop's [except] clause prints, and [test_procedures.py] leaves a
    database. *)
Theorem scripts_complete d now :
  wf d ->
  outcome (LegacyScript.script d now) = Ok tt /\
  outcome (TestFunctions.script d now) = Ok tt /\
  exists d', outcome (TestProcedures.script d now) = Ok d'.
Proof.
  intros Hwf. split; [|split].
  - unfold LegacyScript.script. rewrite !outcome_seq; blocks_Ok.
    + eapply print_member_registered_Ok; [reflexivity|].
      apply (Forall_impl (fun m => m <> 0)); [compute_decide|].
      intros m Hm. by apply caught_legacy_is_member_registered.
    + eapply print_instructor_Ok; [reflexivity|intros; apply caught_is_trainer_instructor; [done|lia]].
  - unfold TestFunctions.script. rewrite !outcome_seq; blocks_Ok.
    + eapply print_member_registered_Ok; [reflexivity|].
      apply (Forall_impl (fun m => m <> 0)); [compute_decide|].
      intros m Hm. by apply caught_is_member_registered.
    + eapply print_instructor_Ok; [reflexivity|intros; apply caught_is_member_instructor; [done|lia]].
  - apply register_all_returns; [done|compute_decide].
Qed.

(** C9: on a well-formed database the membership loop prints exactly one
    line per member id, in the order of the ids: the [ValueError] message
    for an id that names no member, otherwise the names of the member's
    person and whether the membership has ended before today. *)
Theorem print_membership_terminated_lines d now ids :
  wf d ->
  exists lines, print_membership_terminated d now ids = (lines, Ok tt) /\
                Forall2 (membership_line d now) ids lines.
Proof.
  intros [Hok Hfk]. apply for_lines. intros m _.
  destruct (decide (refers (members d) m)) as [Hy|Hn].
  - destruct (member_person_exists d Hfk m Hy) as [p Hp].
    rewrite (is_membership_terminated_eq d now m p Hok Hp).
    eexists. split; [reflexivity|]. right. eauto.
  - unfold is_membership_terminated, check_member_exists.
    rewrite (proj2 (check_exists_false _ _) Hn).
    eexists. split; [reflexivity|]. by left.
Qed.

(** C12: the registration loop of [test_procedures.py] adds at most one
    registration of the class per member id, and never takes the class
    beyond its [maxparticipants] (or beyond the occupancy it already had). *)
Theorem register_all_occupancy d now c ct w ids d' :
  wf d -> class_info d c ct w -> outcome (register_all d now c ids) = Ok d' ->
  occupied_spots d c <= occupied_spots d' c <= occupied_spots d c + Z.of_nat (length ids) /\
  occupied_spots d' c <= Z.max (occupied_spots d c) (ClassType.maxparticipants ct).
Proof.
  revert d. induction ids as [|m ids IH]; intros d Hwf Hi H.
  - injection H as <-. simpl. lia.
  - destruct (register_all_cons d now c m ids d' H) as (msg & d1 & H1 & H2).
    assert (Hi1 : class_info d1 c ct w)
      by (by destruct (add_registration_extends d now m c msg d1 H1) as [rs ->]).
    specialize (IH d1 (add_registration_wf d now m c msg d1 Hwf H1) Hi1 H2).
    rewrite length_cons, Nat2Z.inj_succ.
    destruct (add_registration_occupancy d now m c ct w msg d1 (proj1 Hwf) Hi H1); lia.
Qed.

(** C39: every member of the list who may register for the class (an
    existing member, active today, not its instructor) is registered for it
    when the loop ends, unless the class is full by then. *)
Theorem register_all_eventually d now c ids d' m p ct w :
  wf d -> Forall (fun m => m <> 0) ids -> outcome (register_all d now c ids) = Ok d' ->
  m ∈ ids -> member_person d m p -> class_info d c ct w ->
  terminated_before now (Person.leavedate p) = false -> ~ instructs d m c ->
  registered d' m c \/ ClassType.maxparticipants ct <= occupied_spots d' c.
Proof.
  revert d. induction ids as [|m0 ids IH]; intros d Hwf Hids H Hm Hp Hi Ht Hni;
    [by apply elem_of_nil in Hm|].
  apply Forall_cons in Hids as [Hm0 Hids].
  destruct (register_all_cons d now c m0 ids d' H) as (msg & d1 & H1 & H2).
  pose proof (register_all_extends d1 now c ids d' H2) as Hext.
  destruct (decide (m = m0)) as [->|Hne].
  - apply (add_registration_spec_iff d now m0 c msg d1 Hwf Hm0) in H1.
    destruct H1 as [Hn|? Hn|p' Hp' ? Ht'|p' ct' w' Hp' Hi' Ht' Hr|p' ct' w' Hp' Hi' Ht' Hr Hins
                   |p' ct' w' Hp' Hi' Ht' Hr Hins Hle|p' ct' w' Hp' Hi' Ht' Hr Hins Hlt].
    + by destruct Hn; eapply member_person_refers.
    + by destruct Hn; eapply class_info_refers.
    + rewrite (member_person_unique d (proj1 Hwf) m0 p p' Hp Hp') in Ht. congruence.
    + left. by apply (extends_registered d d' m0 c).
    + done.
    + right. destruct (class_info_unique d (proj1 Hwf) c ct w ct' w' Hi Hi') as [<- _].
      pose proof (extends_occupied d d' c Hext). lia.
    + left. apply (extends_registered _ d' m0 c Hext).
      exists (new_registration d c m0 now). split; [|done].
      apply elem_of_app. right. apply list_elem_of_here.
  - destruct (add_registration_extends d now m0 c msg d1 H1) as [rs Hd1].
    apply (IH d1); [by apply (add_registration_wf d now m0 c msg d1)|done|done|..];
      [by apply elem_of_cons in Hm as [|]|by subst d1..].
Qed.

(** ** Witnesses on the fixture *)

(** [add_registration] for Anna (member 1) and Cara (member 3, left in
    2023) for the Wednesday yoga class (class 2). *)
Definition procedures_run : db :=
  match outcome (register_all sample_db today 2 [1; 3]) with
  | Ok d => d
  | Raise _ => sample_db
  end.

Lemma sample_member_person_anna : member_person sample_db 1 anna.
Proof. exists (Member.mk 1 1). repeat split; compute_decide. Qed.

Lemma sample_class_info_yoga_wednesday : class_info sample_db 2 yoga wednesday.
Proof. exists yoga_wednesday, offering_yoga_ben. repeat split; compute_decide. Qed.

Lemma print_membership_terminated_lines_witness :
  exists lines, print_membership_terminated sample_db today [1; 7] = (lines, Ok tt) /\
                Forall2 (membership_line sample_db today) [1; 7] lines.
Proof. apply print_membership_terminated_lines. compute_decide. Defined.

Lemma register_all_occupancy_witness :
  occupied_spots sample_db 2 <= occupied_spots procedures_run 2 <=
    occupied_spots sample_db 2 + Z.of_nat (length [1; 3]) /\
  occupied_spots procedures_run 2 <= Z.max (occupied_spots sample_db 2) (ClassType.maxparticipants yoga).
Proof.
  apply (register_all_occupancy sample_db today 2 yoga wednesday [1; 3] procedures_run).
  - compute_decide.
  - exact sample_class_info_yoga_wednesday.
  - vm_compute. reflexivity.
Defined.

Lemma scripts_complete_witness :
  outcome (LegacyScript.script sample_db today) = Ok tt /\
  outcome (TestFunctions.script sample_db today) = Ok tt /\
  exists d', outcome (TestProcedures.script sample_db today) = Ok d'.
Proof. apply scripts_complete. compute_decide. Defined.

Lemma register_all_eventually_witness :
  registered procedures_run 1 2 \/ ClassType.maxparticipants yoga <= occupied_spots procedures_run 2.
Proof.
  apply (register_all_eventually sample_db today 2 [1; 3] procedures_run 1 anna yoga wednesday).
  - compute_decide.
  - compute_decide.
  - vm_compute. reflexivity.
  - compute_decide.
  - exact sample_member_person_anna.
  - exact sample_class_info_yoga_wednesday.
  - reflexivity.
  - rewrite <- instructor_rows_spec; [vm_compute; tauto|compute_decide].
Defined.

(** Without referential integrity the loops do not protect the script:
    member 10 of [dangling_db] points to no person row (SQLite enforces
    foreign keys only when asked to), so the unpacking in
    [is_membership_terminated] raises [TypeError], which no [except]
    clause catches, and the older script stops after its first line. *)
Definition dangling_db : db := {|
  countries := countries sample_db; cities := cities sample_db;
  persons := persons sample_db;
  members := members sample_db ++ [Member.mk 10 99];
  employees := employees sample_db; trainers := trainers sample_db;
  classtypes := classtypes sample_db; rooms := rooms sample_db;
  classofferings := classofferings sample_db; classes := classes sample_db;
  weekdays := weekdays sample_db; registrations := registrations sample_db |}.

Example legacy_script_dangling :
  LegacyScript.script dangling_db today =
  (["3 persons registered in the year 2021."],
   Raise (TypeError "cannot unpack non-iterable NoneType object")).
Proof. vm_compute. reflexivity. Qed.
