(* ===== verification/Scenarios.v ===== *)
(** * Scenarios: the components in sequence

    The trigger and the procedure meet in the database: an UPDATE of
    [persons.leavedate] ([Trigger.update_leavedate], trigger included)
    followed by a call of [add_registration] ([Procedure]) for the member
    of that person.  The theorem here is stated for the composed run. *)

From S2P Require Import Prelude Schema Fixture Lookups Queries Procedure Trigger.

(** C40: once the UPDATE setting the leave date of member [m]'s person to
    [l] has succeeded, [add_registration] for [m] on any day after [l]
    answers the terminated message and writes nothing. *)
Theorem leave_then_register d pid l d' m c mm p now :
  constraints_ok d -> mm ∈ members d -> Member.id mm = m -> Member.person_id mm = pid ->
  p ∈ persons d -> Person.id p = pid -> refers (classes d) c ->
  update_leavedate d pid (Some l) = Ok d' -> date_lt l now ->
  add_registration d' now m c = Ok (msg_terminated (Person.forename p) (Person.surname p) m, d').
Proof.
  intros Hok Hmm Hm Hpid Hp Hid Hc Hu Hlt.
  destruct (update_leavedate_person d pid (Some l) d' p (proj1 (proj1 (proj2 Hok))) Hp Hid Hu)
    as (Hp' & Hmem & Hcls).
  apply (add_registration_terminated_eq d' now m c (set_leavedate p (Some l))).
  - by apply (update_leavedate_constraints d pid (Some l)).
  - exists mm. rewrite Hmem. repeat split; try done. simpl. congruence.
  - by rewrite Hcls.
  - simpl. by apply date_ltb_spec.
Qed.

(** Anna leaves on 2023-06-30; registering her on 2024-01-01 fails. *)
Definition anna_left : db :=
  match update_leavedate sample_db 1 (Some (mkDate 2023 6 30)) with
  | Ok d => d
  | Raise _ => sample_db
  end.

Lemma leave_then_register_witness :
  add_registration anna_left today 1 2 = Ok (msg_terminated "Anna" "Meier" 1, anna_left).
Proof.
  apply (leave_then_register sample_db 1 (mkDate 2023 6 30) anna_left 1 2 (Member.mk 1 1) anna today);
    (compute_decide || reflexivity || (vm_compute; reflexivity)).
Defined.
